(** * Verification of the ERP Academico facade and of its mock upstream

    The development embeds two Python modules:
    - [academicoErpRestInterface.py] (module [Facade]): configuration helpers,
      the token cache, the authenticated POST with its single 401 retry, the
      two normalizers and the two [/aic] handlers;
    - [mockAcademicoApi.py] (module [Mock]): the token store and the bearer
      check, the page-parameter extraction and the pagination slice, the
      sample tables and the endpoints.

    Module [Py] holds the part of the Python runtime these functions call:
    strings as sequences of code points, [int()], [str()], truthiness, JSON
    values as [json.loads] builds them, and the arithmetic of doubles.

    The handlers are coroutines on one event loop; a run is modelled as one
    coroutine executing from start to end, with the module globals and the
    trace of its clock readings and POSTs threaded through as state. *)

From Stdlib Require Import ZArith NArith QArith Qround Qabs Qpower List String Ascii Bool Lia.
From Stdlib Require DecimalPos Qcanon.
Import ListNotations.

Local Open Scope Z_scope.

Module Py.

(** ** Strings

    A Python [str] is a sequence of Unicode code points; [len] and slicing
    count code points, not bytes. *)

Definition char := N.
Definition pystr := list char.

(** An ASCII literal of the source. *)
Definition lit (s : string) : pystr := map N_of_ascii (list_ascii_of_string s).

Definition char_eqb : char -> char -> bool := N.eqb.

Fixpoint str_eqb (a b : pystr) : bool :=
  match a, b with
  | [], [] => true
  | x :: a', y :: b' => char_eqb x y && str_eqb a' b'
  | _, _ => false
  end.

Definition in_ranges (t : list (N * N)) (c : char) : bool :=
  existsb (fun r => (fst r <=? c)%N && (c <=? snd r)%N) t.

(** Code points for which [str.isspace] holds (inclusive ranges). *)
Definition whitespace_ranges : list (N * N) :=
  [(9, 13); (28, 32); (133, 133); (160, 160); (5760, 5760); (8192, 8202); (8232, 8233);
   (8239, 8239); (8287, 8287); (12288, 12288)]%N.

(** Code points for which [str.isdigit] holds: Numeric_Type Digit or Decimal
    (Unicode 14.0, inclusive ranges). *)
Definition digit_ranges : list (N * N) :=
  [(48, 57); (178, 179); (185, 185); (1632, 1641); (1776, 1785); (1984, 1993); (2406, 2415);
   (2534, 2543); (2662, 2671); (2790, 2799); (2918, 2927); (3046, 3055); (3174, 3183);
   (3302, 3311); (3430, 3439); (3558, 3567); (3664, 3673); (3792, 3801); (3872, 3881);
   (4160, 4169); (4240, 4249); (4969, 4977); (6112, 6121); (6160, 6169); (6470, 6479);
   (6608, 6618); (6784, 6793); (6800, 6809); (6992, 7001); (7088, 7097); (7232, 7241);
   (7248, 7257); (8304, 8304); (8308, 8313); (8320, 8329); (9312, 9320); (9332, 9340);
   (9352, 9360); (9450, 9450); (9461, 9469); (9471, 9471); (10102, 10110); (10112, 10120);
   (10122, 10130); (42528, 42537); (43216, 43225); (43264, 43273); (43472, 43481);
   (43504, 43513); (43600, 43609); (44016, 44025); (65296, 65305); (66720, 66729);
   (68160, 68163); (68912, 68921); (69216, 69224); (69714, 69722); (69734, 69743);
   (69872, 69881); (69942, 69951); (70096, 70105); (70384, 70393); (70736, 70745);
   (70864, 70873); (71248, 71257); (71360, 71369); (71472, 71481); (71904, 71913);
   (72016, 72025); (72784, 72793); (73040, 73049); (73120, 73129); (92768, 92777);
   (92864, 92873); (93008, 93017); (120782, 120831); (123200, 123209); (123632, 123641);
   (125264, 125273); (127232, 127242); (130032, 130041)]%N.

(** Code points with a decimal digit value (category Nd, Unicode 14.0); every range
    is a run of the digits 0..9, so the value is the offset in the range modulo 10. *)
Definition decimal_ranges : list (N * N) :=
  [(48, 57); (1632, 1641); (1776, 1785); (1984, 1993); (2406, 2415); (2534, 2543);
   (2662, 2671); (2790, 2799); (2918, 2927); (3046, 3055); (3174, 3183); (3302, 3311);
   (3430, 3439); (3558, 3567); (3664, 3673); (3792, 3801); (3872, 3881); (4160, 4169);
   (4240, 4249); (6112, 6121); (6160, 6169); (6470, 6479); (6608, 6617); (6784, 6793);
   (6800, 6809); (6992, 7001); (7088, 7097); (7232, 7241); (7248, 7257); (42528, 42537);
   (43216, 43225); (43264, 43273); (43472, 43481); (43504, 43513); (43600, 43609);
   (44016, 44025); (65296, 65305); (66720, 66729); (68912, 68921); (69734, 69743);
   (69872, 69881); (69942, 69951); (70096, 70105); (70384, 70393); (70736, 70745);
   (70864, 70873); (71248, 71257); (71360, 71369); (71472, 71481); (71904, 71913);
   (72016, 72025); (72784, 72793); (73040, 73049); (73120, 73129); (92768, 92777);
   (92864, 92873); (93008, 93017); (120782, 120831); (123200, 123209); (123632, 123641);
   (125264, 125273); (130032, 130041)]%N.

(** Code points that [repr] escapes: those for which [str.isprintable] fails
    (Unicode 14.0, inclusive ranges). *)
Definition nonprintable_ranges : list (N * N) :=
  [(0, 31); (127, 160); (173, 173); (888, 889); (896, 899); (907, 907); (909, 909); (930, 930);
   (1328, 1328); (1367, 1368); (1419, 1420); (1424, 1424); (1480, 1487); (1515, 1518);
   (1525, 1541); (1564, 1564); (1757, 1757); (1806, 1807); (1867, 1868); (1970, 1983);
   (2043, 2044); (2094, 2095); (2111, 2111); (2140, 2141); (2143, 2143); (2155, 2159);
   (2191, 2199); (2274, 2274); (2436, 2436); (2445, 2446); (2449, 2450); (2473, 2473);
   (2481, 2481); (2483, 2485); (2490, 2491); (2501, 2502); (2505, 2506); (2511, 2518);
   (2520, 2523); (2526, 2526); (2532, 2533); (2559, 2560); (2564, 2564); (2571, 2574);
   (2577, 2578); (2601, 2601); (2609, 2609); (2612, 2612); (2615, 2615); (2618, 2619);
   (2621, 2621); (2627, 2630); (2633, 2634); (2638, 2640); (2642, 2648); (2653, 2653);
   (2655, 2661); (2679, 2688); (2692, 2692); (2702, 2702); (2706, 2706); (2729, 2729);
   (2737, 2737); (2740, 2740); (2746, 2747); (2758, 2758); (2762, 2762); (2766, 2767);
   (2769, 2783); (2788, 2789); (2802, 2808); (2816, 2816); (2820, 2820); (2829, 2830);
   (2833, 2834); (2857, 2857); (2865, 2865); (2868, 2868); (2874, 2875); (2885, 2886);
   (2889, 2890); (2894, 2900); (2904, 2907); (2910, 2910); (2916, 2917); (2936, 2945);
   (2948, 2948); (2955, 2957); (2961, 2961); (2966, 2968); (2971, 2971); (2973, 2973);
   (2976, 2978); (2981, 2983); (2987, 2989); (3002, 3005); (3011, 3013); (3017, 3017);
   (3022, 3023); (3025, 3030); (3032, 3045); (3067, 3071); (3085, 3085); (3089, 3089);
   (3113, 3113); (3130, 3131); (3141, 3141); (3145, 3145); (3150, 3156); (3159, 3159);
   (3163, 3164); (3166, 3167); (3172, 3173); (3184, 3190); (3213, 3213); (3217, 3217);
   (3241, 3241); (3252, 3252); (3258, 3259); (3269, 3269); (3273, 3273); (3278, 3284);
   (3287, 3292); (3295, 3295); (3300, 3301); (3312, 3312); (3315, 3327); (3341, 3341);
   (3345, 3345); (3397, 3397); (3401, 3401); (3408, 3411); (3428, 3429); (3456, 3456);
   (3460, 3460); (3479, 3481); (3506, 3506); (3516, 3516); (3518, 3519); (3527, 3529);
   (3531, 3534); (3541, 3541); (3543, 3543); (3552, 3557); (3568, 3569); (3573, 3584);
   (3643, 3646); (3676, 3712); (3715, 3715); (3717, 3717); (3723, 3723); (3748, 3748);
   (3750, 3750); (3774, 3775); (3781, 3781); (3783, 3783); (3790, 3791); (3802, 3803);
   (3808, 3839); (3912, 3912); (3949, 3952); (3992, 3992); (4029, 4029); (4045, 4045);
   (4059, 4095); (4294, 4294); (4296, 4300); (4302, 4303); (4681, 4681); (4686, 4687);
   (4695, 4695); (4697, 4697); (4702, 4703); (4745, 4745); (4750, 4751); (4785, 4785);
   (4790, 4791); (4799, 4799); (4801, 4801); (4806, 4807); (4823, 4823); (4881, 4881);
   (4886, 4887); (4955, 4956); (4989, 4991); (5018, 5023); (5110, 5111); (5118, 5119);
   (5760, 5760); (5789, 5791); (5881, 5887); (5910, 5918); (5943, 5951); (5972, 5983);
   (5997, 5997); (6001, 6001); (6004, 6015); (6110, 6111); (6122, 6127); (6138, 6143);
   (6158, 6158); (6170, 6175); (6265, 6271); (6315, 6319); (6390, 6399); (6431, 6431);
   (6444, 6447); (6460, 6463); (6465, 6467); (6510, 6511); (6517, 6527); (6572, 6575);
   (6602, 6607); (6619, 6621); (6684, 6685); (6751, 6751); (6781, 6782); (6794, 6799);
   (6810, 6815); (6830, 6831); (6863, 6911); (6989, 6991); (7039, 7039); (7156, 7163);
   (7224, 7226); (7242, 7244); (7305, 7311); (7355, 7356); (7368, 7375); (7419, 7423);
   (7958, 7959); (7966, 7967); (8006, 8007); (8014, 8015); (8024, 8024); (8026, 8026);
   (8028, 8028); (8030, 8030); (8062, 8063); (8117, 8117); (8133, 8133); (8148, 8149);
   (8156, 8156); (8176, 8177); (8181, 8181); (8191, 8207); (8232, 8239); (8287, 8303);
   (8306, 8307); (8335, 8335); (8349, 8351); (8385, 8399); (8433, 8447); (8588, 8591);
   (9255, 9279); (9291, 9311); (11124, 11125); (11158, 11158); (11508, 11512); (11558, 11558);
   (11560, 11564); (11566, 11567); (11624, 11630); (11633, 11646); (11671, 11679);
   (11687, 11687); (11695, 11695); (11703, 11703); (11711, 11711); (11719, 11719);
   (11727, 11727); (11735, 11735); (11743, 11743); (11870, 11903); (11930, 11930);
   (12020, 12031); (12246, 12271); (12284, 12288); (12352, 12352); (12439, 12440);
   (12544, 12548); (12592, 12592); (12687, 12687); (12772, 12783); (12831, 12831);
   (42125, 42127); (42183, 42191); (42540, 42559); (42744, 42751); (42955, 42959);
   (42962, 42962); (42964, 42964); (42970, 42993); (43053, 43055); (43066, 43071);
   (43128, 43135); (43206, 43213); (43226, 43231); (43348, 43358); (43389, 43391);
   (43470, 43470); (43482, 43485); (43519, 43519); (43575, 43583); (43598, 43599);
   (43610, 43611); (43715, 43738); (43767, 43776); (43783, 43784); (43791, 43792);
   (43799, 43807); (43815, 43815); (43823, 43823); (43884, 43887); (44014, 44015);
   (44026, 44031); (55204, 55215); (55239, 55242); (55292, 63743); (64110, 64111);
   (64218, 64255); (64263, 64274); (64280, 64284); (64311, 64311); (64317, 64317);
   (64319, 64319); (64322, 64322); (64325, 64325); (64451, 64466); (64912, 64913);
   (64968, 64974); (64976, 65007); (65050, 65055); (65107, 65107); (65127, 65127);
   (65132, 65135); (65141, 65141); (65277, 65280); (65471, 65473); (65480, 65481);
   (65488, 65489); (65496, 65497); (65501, 65503); (65511, 65511); (65519, 65531);
   (65534, 65535); (65548, 65548); (65575, 65575); (65595, 65595); (65598, 65598);
   (65614, 65615); (65630, 65663); (65787, 65791); (65795, 65798); (65844, 65846);
   (65935, 65935); (65949, 65951); (65953, 65999); (66046, 66175); (66205, 66207);
   (66257, 66271); (66300, 66303); (66340, 66348); (66379, 66383); (66427, 66431);
   (66462, 66462); (66500, 66503); (66518, 66559); (66718, 66719); (66730, 66735);
   (66772, 66775); (66812, 66815); (66856, 66863); (66916, 66926); (66939, 66939);
   (66955, 66955); (66963, 66963); (66966, 66966); (66978, 66978); (66994, 66994);
   (67002, 67002); (67005, 67071); (67383, 67391); (67414, 67423); (67432, 67455);
   (67462, 67462); (67505, 67505); (67515, 67583); (67590, 67591); (67593, 67593);
   (67638, 67638); (67641, 67643); (67645, 67646); (67670, 67670); (67743, 67750);
   (67760, 67807); (67827, 67827); (67830, 67834); (67868, 67870); (67898, 67902);
   (67904, 67967); (68024, 68027); (68048, 68049); (68100, 68100); (68103, 68107);
   (68116, 68116); (68120, 68120); (68150, 68151); (68155, 68158); (68169, 68175);
   (68185, 68191); (68256, 68287); (68327, 68330); (68343, 68351); (68406, 68408);
   (68438, 68439); (68467, 68471); (68498, 68504); (68509, 68520); (68528, 68607);
   (68681, 68735); (68787, 68799); (68851, 68857); (68904, 68911); (68922, 69215);
   (69247, 69247); (69290, 69290); (69294, 69295); (69298, 69375); (69416, 69423);
   (69466, 69487); (69514, 69551); (69580, 69599); (69623, 69631); (69710, 69713);
   (69750, 69758); (69821, 69821); (69827, 69839); (69865, 69871); (69882, 69887);
   (69941, 69941); (69960, 69967); (70007, 70015); (70112, 70112); (70133, 70143);
   (70162, 70162); (70207, 70271); (70279, 70279); (70281, 70281); (70286, 70286);
   (70302, 70302); (70314, 70319); (70379, 70383); (70394, 70399); (70404, 70404);
   (70413, 70414); (70417, 70418); (70441, 70441); (70449, 70449); (70452, 70452);
   (70458, 70458); (70469, 70470); (70473, 70474); (70478, 70479); (70481, 70486);
   (70488, 70492); (70500, 70501); (70509, 70511); (70517, 70655); (70748, 70748);
   (70754, 70783); (70856, 70863); (70874, 71039); (71094, 71095); (71134, 71167);
   (71237, 71247); (71258, 71263); (71277, 71295); (71354, 71359); (71370, 71423);
   (71451, 71452); (71468, 71471); (71495, 71679); (71740, 71839); (71923, 71934);
   (71943, 71944); (71946, 71947); (71956, 71956); (71959, 71959); (71990, 71990);
   (71993, 71994); (72007, 72015); (72026, 72095); (72104, 72105); (72152, 72153);
   (72165, 72191); (72264, 72271); (72355, 72367); (72441, 72703); (72713, 72713);
   (72759, 72759); (72774, 72783); (72813, 72815); (72848, 72849); (72872, 72872);
   (72887, 72959); (72967, 72967); (72970, 72970); (73015, 73017); (73019, 73019);
   (73022, 73022); (73032, 73039); (73050, 73055); (73062, 73062); (73065, 73065);
   (73103, 73103); (73106, 73106); (73113, 73119); (73130, 73439); (73465, 73647);
   (73649, 73663); (73714, 73726); (74650, 74751); (74863, 74863); (74869, 74879);
   (75076, 77711); (77811, 77823); (78895, 82943); (83527, 92159); (92729, 92735);
   (92767, 92767); (92778, 92781); (92863, 92863); (92874, 92879); (92910, 92911);
   (92918, 92927); (92998, 93007); (93018, 93018); (93026, 93026); (93048, 93052);
   (93072, 93759); (93851, 93951); (94027, 94030); (94088, 94094); (94112, 94175);
   (94181, 94191); (94194, 94207); (100344, 100351); (101590, 101631); (101641, 110575);
   (110580, 110580); (110588, 110588); (110591, 110591); (110883, 110927); (110931, 110947);
   (110952, 110959); (111356, 113663); (113771, 113775); (113789, 113791); (113801, 113807);
   (113818, 113819); (113824, 118527); (118574, 118575); (118599, 118607); (118724, 118783);
   (119030, 119039); (119079, 119080); (119155, 119162); (119275, 119295); (119366, 119519);
   (119540, 119551); (119639, 119647); (119673, 119807); (119893, 119893); (119965, 119965);
   (119968, 119969); (119971, 119972); (119975, 119976); (119981, 119981); (119994, 119994);
   (119996, 119996); (120004, 120004); (120070, 120070); (120075, 120076); (120085, 120085);
   (120093, 120093); (120122, 120122); (120127, 120127); (120133, 120133); (120135, 120137);
   (120145, 120145); (120486, 120487); (120780, 120781); (121484, 121498); (121504, 121504);
   (121520, 122623); (122655, 122879); (122887, 122887); (122905, 122906); (122914, 122914);
   (122917, 122917); (122923, 123135); (123181, 123183); (123198, 123199); (123210, 123213);
   (123216, 123535); (123567, 123583); (123642, 123646); (123648, 124895); (124903, 124903);
   (124908, 124908); (124911, 124911); (124927, 124927); (125125, 125126); (125143, 125183);
   (125260, 125263); (125274, 125277); (125280, 126064); (126133, 126208); (126270, 126463);
   (126468, 126468); (126496, 126496); (126499, 126499); (126501, 126502); (126504, 126504);
   (126515, 126515); (126520, 126520); (126522, 126522); (126524, 126529); (126531, 126534);
   (126536, 126536); (126538, 126538); (126540, 126540); (126544, 126544); (126547, 126547);
   (126549, 126550); (126552, 126552); (126554, 126554); (126556, 126556); (126558, 126558);
   (126560, 126560); (126563, 126563); (126565, 126566); (126571, 126571); (126579, 126579);
   (126584, 126584); (126589, 126589); (126591, 126591); (126602, 126602); (126620, 126624);
   (126628, 126628); (126634, 126634); (126652, 126703); (126706, 126975); (127020, 127023);
   (127124, 127135); (127151, 127152); (127168, 127168); (127184, 127184); (127222, 127231);
   (127406, 127461); (127491, 127503); (127548, 127551); (127561, 127567); (127570, 127583);
   (127590, 127743); (128728, 128732); (128749, 128751); (128765, 128767); (128884, 128895);
   (128985, 128991); (129004, 129007); (129009, 129023); (129036, 129039); (129096, 129103);
   (129114, 129119); (129160, 129167); (129198, 129199); (129202, 129279); (129620, 129631);
   (129646, 129647); (129653, 129655); (129661, 129663); (129671, 129679); (129709, 129711);
   (129723, 129727); (129734, 129743); (129754, 129759); (129768, 129775); (129783, 129791);
   (129939, 129939); (129995, 130031); (130042, 131071); (173792, 173823); (177977, 177983);
   (178206, 178207); (183970, 183983); (191457, 194559); (195102, 196607); (201547, 917759);
   (918000, 1114111)]%N.

Definition isspace_char (c : char) : bool := in_ranges whitespace_ranges c.
Definition isdigit_char (c : char) : bool := in_ranges digit_ranges c.
Definition isprintable_char (c : char) : bool := negb (in_ranges nonprintable_ranges c).

Definition decimal_value (c : char) : option N :=
  match find (fun r => (fst r <=? c)%N && (c <=? snd r)%N) decimal_ranges with
  | Some r => Some ((c - fst r) mod 10)%N
  | None => None
  end.

(** [s.lstrip()], [s.rstrip()], [s.strip()], over the characters [p] accepts. *)
Fixpoint lstrip_by (p : char -> bool) (s : pystr) : pystr :=
  match s with
  | c :: r => if p c then lstrip_by p r else s
  | [] => []
  end.

Definition rstrip_by (p : char -> bool) (s : pystr) : pystr :=
  rev (lstrip_by p (rev s)).

Definition strip (s : pystr) : pystr :=
  rstrip_by isspace_char (lstrip_by isspace_char s).

Definition one_of (chars : pystr) (c : char) : bool := existsb (char_eqb c) chars.

(** [s.lstrip(chars)] and [s.rstrip(chars)]. *)
Definition lstrip_chars (chars s : pystr) : pystr := lstrip_by (one_of chars) s.
Definition rstrip_chars (chars s : pystr) : pystr := rstrip_by (one_of chars) s.

(** [s.isdigit()]: at least one character, and all of them digits. *)
Definition isdigit (s : pystr) : bool :=
  match s with
  | [] => false
  | _ => forallb isdigit_char s
  end.

Fixpoint startswith (s p : pystr) : bool :=
  match p, s with
  | [], _ => true
  | x :: p', y :: s' => char_eqb x y && startswith s' p'
  | _ :: _, [] => false
  end.

(** [s.split(sep, 1)] for a non-empty [sep]: the text before the first
    occurrence of [sep] and the text after it, or [s] alone. *)
Fixpoint split_once (sep s : pystr) : list pystr :=
  if startswith s sep then [[]; skipn (List.length sep) s]
  else match s with
       | [] => [[]]
       | c :: r =>
           match split_once sep r with
           | h :: t => (c :: h) :: t
           | [] => [[c]]
           end
       end.

(** [sep.join(parts)]. *)
Fixpoint join (sep : pystr) (parts : list pystr) : pystr :=
  match parts with
  | [] => []
  | [p] => p
  | p :: rest => p ++ sep ++ join sep rest
  end.

(** ** Integers and their text *)

Fixpoint uint_chars (u : Decimal.uint) : pystr :=
  match u with
  | Decimal.Nil => []
  | Decimal.D0 u => 48%N :: uint_chars u
  | Decimal.D1 u => 49%N :: uint_chars u
  | Decimal.D2 u => 50%N :: uint_chars u
  | Decimal.D3 u => 51%N :: uint_chars u
  | Decimal.D4 u => 52%N :: uint_chars u
  | Decimal.D5 u => 53%N :: uint_chars u
  | Decimal.D6 u => 54%N :: uint_chars u
  | Decimal.D7 u => 55%N :: uint_chars u
  | Decimal.D8 u => 56%N :: uint_chars u
  | Decimal.D9 u => 57%N :: uint_chars u
  end.

(** [str(z)] for an [int]. *)
Definition str_of_int (z : Z) : pystr :=
  match Z.to_int z with
  | Decimal.Pos u => uint_chars u
  | Decimal.Neg u => 45%N :: uint_chars u
  end.

(** [int(s)] for a [str], base 10.  The interpreter first maps every
    non-ASCII whitespace to a space and every non-ASCII decimal digit to its
    ASCII digit (anything else non-ASCII becomes ['?'], which no number
    contains); it then reads: C whitespace, an optional sign, digits with
    single underscores between them, C whitespace.  More than
    [INT_MAX_STR_DIGITS] digits are refused.  [None] is [ValueError]. *)
Definition INT_MAX_STR_DIGITS : nat := 4300.

Definition to_ascii_form (c : char) : char :=
  if (c <? 127)%N then c
  else if isspace_char c then 32%N
  else match decimal_value c with
       | Some d => (48 + d)%N
       | None => 63%N
       end.

Definition c_isspace (c : char) : bool :=
  ((9 <=? c)%N && (c <=? 13)%N) || (c =? 32)%N.

Definition is_ascii_digit (c : char) : bool := (48 <=? c)%N && (c <=? 57)%N.

Definition digit_of (c : char) : Z := Z.of_N c - 48.

(** Called after a digit: reads the remaining digits and underscores, and
    returns the value, the number of digits and the unread text. *)
Fixpoint scan_digits (acc : Z) (n : nat) (s : pystr) : option (Z * nat * pystr) :=
  match s with
  | [] => Some (acc, n, [])
  | c :: r =>
      if is_ascii_digit c then scan_digits (10 * acc + digit_of c) (S n) r
      else if (c =? 95)%N then
        match r with
        | d :: r' =>
            if is_ascii_digit d then scan_digits (10 * acc + digit_of d) (S n) r'
            else None
        | [] => None
        end
      else Some (acc, n, s)
  end.

Definition int_of_digits (s : pystr) : option Z :=
  match s with
  | d :: r =>
      if is_ascii_digit d then
        match scan_digits (digit_of d) 1 r with
        | Some (v, n, rest) =>
            if forallb c_isspace rest && (n <=? INT_MAX_STR_DIGITS)%nat
            then Some v else None
        | None => None
        end
      else None
  | [] => None
  end.

Definition int_of_str (s : pystr) : option Z :=
  match lstrip_by c_isspace (map to_ascii_form s) with
  | 43%N :: r => int_of_digits r
  | 45%N :: r => option_map Z.opp (int_of_digits r)
  | r => int_of_digits r
  end.

(** ** Exceptions and results

    The exceptions this program can raise.  [HTTPException] is FastAPI's;
    [TransportError] stands for what [httpx] raises when no response arrives
    (connection failure, timeout). *)
Inductive exn : Type :=
| HTTPException (status_code : Z) (detail : pystr)
| ValueError
| TypeError
| AttributeError
| OverflowError
| JSONDecodeError
| TransportError
| RuntimeError (msg : pystr).

Inductive outcome (A : Type) : Type :=
| Ok (a : A)
| Raise (e : exn).
Arguments Ok {A} a.
Arguments Raise {A} e.

Definition obind {A B} (x : outcome A) (k : A -> outcome B) : outcome B :=
  match x with
  | Ok a => k a
  | Raise e => Raise e
  end.

(** [try: x except Exception: d]. *)
Definition or_default {A} (x : outcome A) (d : A) : A :=
  match x with
  | Ok a => a
  | Raise _ => d
  end.

(** ** JSON values

    What [json.loads] (behind [r.json()] and [request.json()]) builds: [None],
    [bool], [int], [float], [str], [list], and [dict] with [str] keys, the
    latter kept in insertion order.

    A float is given by the decimal digits and the position of the decimal
    point that [repr] prints for it (value [0.d1...dn * 10^decpt]); every
    double has such a form, and the model allows all digit strings. *)
Inductive pyfloat : Type :=
| F_nan
| F_inf (neg : bool)
| F_fin (neg : bool) (digits : Decimal.uint) (decpt : Z).

#[warnings="-register-all"]
Inductive json : Type :=
| JNull
| JBool (b : bool)
| JInt (z : Z)
| JFloat (f : pyfloat)
| JStr (s : pystr)
| JList (l : list json)
| JObj (d : list (pystr * json)).

Definition pydict := list (pystr * json).

Definition isinstance_dict (v : json) : bool :=
  match v with JObj _ => true | _ => false end.

Definition isinstance_list (v : json) : bool :=
  match v with JList _ => true | _ => false end.

Definition float_nonzero (f : pyfloat) : bool :=
  match f with
  | F_fin _ digits _ => negb (Z.of_uint digits =? 0)
  | _ => true
  end.

(** Truth value, as [not v], [v or d] and [if v] test it. *)
Definition truthy (v : json) : bool :=
  match v with
  | JNull => false
  | JBool b => b
  | JInt z => negb (z =? 0)
  | JFloat f => float_nonzero f
  | JStr s => match s with [] => false | _ => true end
  | JList l => match l with [] => false | _ => true end
  | JObj d => match d with [] => false | _ => true end
  end.

(** [a or b]. *)
Definition py_or (a b : json) : json := if truthy a then a else b.

(** [d.get(k)], [d.get(k, default)], [d[k] = v]. *)
Fixpoint dict_lookup (d : pydict) (k : pystr) : option json :=
  match d with
  | [] => None
  | (k', v) :: r => if str_eqb k' k then Some v else dict_lookup r k
  end.

Definition dict_get_default (d : pydict) (k : pystr) (default : json) : json :=
  match dict_lookup d k with
  | Some v => v
  | None => default
  end.

Definition dict_get (d : pydict) (k : pystr) : json := dict_get_default d k JNull.

Fixpoint dict_set {V} (d : list (pystr * V)) (k : pystr) (v : V) : list (pystr * V) :=
  match d with
  | [] => [(k, v)]
  | (k', v') :: r => if str_eqb k' k then (k, v) :: r else (k', v') :: dict_set r k v
  end.

(** [v.get(k)] on a value that need not be a dict. *)
Definition py_get (v : json) (k : pystr) : outcome json :=
  match v with
  | JObj d => Ok (dict_get d k)
  | _ => Raise AttributeError
  end.

(** [v.get(k, default)] on a value that need not be a dict. *)
Definition py_get_default (v : json) (k : pystr) (default : json) : outcome json :=
  match v with
  | JObj d => Ok (dict_get_default d k default)
  | _ => Raise AttributeError
  end.

(** *** [repr] and [str] *)

Definition hex_digit (n : N) : char :=
  if (n <? 10)%N then (48 + n)%N else (87 + n)%N.

Fixpoint hex_fixed (width : nat) (n : N) : pystr :=
  match width with
  | O => []
  | S w => hex_fixed w (n / 16)%N ++ [hex_digit (n mod 16)%N]
  end.

Definition repr_char (quote c : char) : pystr :=
  if (c =? quote)%N || (c =? 92)%N then [92%N; c]
  else if (c =? 9)%N then [92%N; 116%N]
  else if (c =? 10)%N then [92%N; 110%N]
  else if (c =? 13)%N then [92%N; 114%N]
  else if (c <? 32)%N || (c =? 127)%N then [92%N; 120%N] ++ hex_fixed 2 c
  else if (c <? 127)%N then [c]
  else if isprintable_char c then [c]
  else if (c <=? 255)%N then [92%N; 120%N] ++ hex_fixed 2 c
  else if (c <=? 65535)%N then [92%N; 117%N] ++ hex_fixed 4 c
  else [92%N; 85%N] ++ hex_fixed 8 c.

(** [repr(s)] for a [str]: single quotes, unless [s] holds a single quote and
    no double quote. *)
Definition repr_str (s : pystr) : pystr :=
  let quote := if one_of s 39%N && negb (one_of s 34%N) then 34%N else 39%N in
  [quote] ++ flat_map (repr_char quote) s ++ [quote].

Definition zeros (n : nat) : pystr := repeat 48%N n.

Definition pad2 (s : pystr) : pystr :=
  match s with
  | [d] => [48%N; d]
  | _ => s
  end.

(** [repr(f)] for a [float]: positional notation while [-4 < decpt <= 16],
    exponent notation outside. *)
Definition repr_float (f : pyfloat) : pystr :=
  match f with
  | F_nan => lit "nan"
  | F_inf neg => if neg then lit "-inf" else lit "inf"
  | F_fin neg digits decpt =>
      let ds := uint_chars digits in
      let n := Z.of_nat (List.length ds) in
      (if neg then [45%N] else []) ++
      (if (-4 <? decpt) && (decpt <=? 16) then
         if decpt <=? 0 then lit "0." ++ zeros (Z.to_nat (- decpt)) ++ ds
         else if n <=? decpt then ds ++ zeros (Z.to_nat (decpt - n)) ++ lit ".0"
         else firstn (Z.to_nat decpt) ds ++ [46%N] ++ skipn (Z.to_nat decpt) ds
       else
         firstn 1 ds
           ++ match skipn 1 ds with [] => [] | t => 46%N :: t end
           ++ [101%N]
           ++ (if decpt - 1 <? 0 then [45%N] else [43%N])
           ++ pad2 (str_of_int (Z.abs (decpt - 1))))
  end.

Fixpoint repr (v : json) : pystr :=
  match v with
  | JNull => lit "None"
  | JBool b => if b then lit "True" else lit "False"
  | JInt z => str_of_int z
  | JFloat f => repr_float f
  | JStr s => repr_str s
  | JList l => lit "[" ++ join (lit ", ") (map repr l) ++ lit "]"
  | JObj d =>
      lit "{"
        ++ join (lit ", ") (map (fun kv => repr_str (fst kv) ++ lit ": " ++ repr (snd kv)) d)
        ++ lit "}"
  end.

(** [str(v)], which is also what an f-string field prints. *)
Definition str (v : json) : pystr :=
  match v with
  | JStr s => s
  | _ => repr v
  end.

(** *** Doubles

    A finite [float] is a rational on the binary64 grid.  [round_double q]
    is the double nearest to [q], the one with the even significand of two
    that are equally near: what the conversion of an [int] or of a decimal
    text gives for its value [q], and what an arithmetic operation on two
    doubles gives for its exact result [q].  The spacing of the grid at [q]
    is [2^(e - 52)] for [2^e <= |q| < 2^(e + 1)], and [2^-1074] below
    [2^-1022].

    The grid has no upper end here.  Where Python's result is [inf] (an exact
    result of [2^1024 - 2^970] or more in magnitude) the model goes on with
    a finite value; [in_double_range] is the condition that this does not
    happen. *)

(** [floor (log2 q)] for a positive rational. *)
Definition floor_log2 (q : Q) : Z :=
  let e := Z.log2 (Qnum q) - Z.log2 (Z.pos (Qden q)) in
  if Qle_bool (2 ^ e) q then e else e - 1.

Definition ulp_exponent (q : Q) : Z := Z.max (floor_log2 (Qabs q)) (-1022) - 52.

(** The integer nearest to [r], the even one of two. *)
Definition nearest_even (r : Q) : Z :=
  let f := Qfloor r in
  match (r - inject_Z f ?= 1 # 2)%Q with
  | Lt => f
  | Gt => f + 1
  | Eq => if Z.even f then f else f + 1
  end.

Definition round_double (q : Q) : Q :=
  if Qeq_bool q 0 then 0%Q
  else let u := (2 ^ ulp_exponent q)%Q in
       Qred (inject_Z (nearest_even (q / u)) * u).

(** [x + y] and [x - y] on two doubles. *)
Definition fadd (x y : Q) : Q := round_double (x + y).

Definition fsub (x y : Q) : Q := round_double (x - y).

(** *** [int(v)] *)

(** [int(f)]: the integer part of the double, which is the one nearest to
    the decimal number that [repr] prints. *)
Definition int_of_float (f : pyfloat) : outcome Z :=
  match f with
  | F_nan => Raise ValueError
  | F_inf _ => Raise OverflowError
  | F_fin neg digits decpt =>
      let v := Z.of_uint digits in
      let n := Z.of_nat (List.length (uint_chars digits)) in
      let printed :=
        if n <=? decpt then inject_Z (v * 10 ^ (decpt - n))
        else (v # Z.to_pos (10 ^ (n - decpt)))%Q in
      let m := Qfloor (round_double printed) in
      Ok (if neg then - m else m)
  end.

Definition int_of_pystr (s : pystr) : outcome Z :=
  match int_of_str s with
  | Some z => Ok z
  | None => Raise ValueError
  end.

Definition int_of_json (v : json) : outcome Z :=
  match v with
  | JBool b => Ok (if b then 1 else 0)
  | JInt z => Ok z
  | JFloat f => int_of_float f
  | JStr s => int_of_pystr s
  | JNull | JList _ | JObj _ => Raise TypeError
  end.

(** *** [float + int]

    The [int] operand is converted first: to the nearest double, with
    [OverflowError] from the first integer that rounds to [2^1024]. *)
Definition FLOAT_INT_LIMIT : Z := 2 ^ 1024 - 2 ^ 970.

Definition float_of_int (z : Z) : outcome Q :=
  if Z.abs z <? FLOAT_INT_LIMIT then Ok (round_double (inject_Z z))
  else Raise OverflowError.

(** An exact result that rounds to a finite double. *)
Definition in_double_range (q : Q) : Prop :=
  (Qabs q < inject_Z FLOAT_INT_LIMIT)%Q.

(** *** Slices

    [items[start:end]]: a negative bound counts from the end, and both bounds
    are clamped to the list. *)
Definition slice_bound (len i : Z) : Z :=
  if i <? 0 then Z.max 0 (i + len) else Z.min i len.

Definition py_slice {A} (items : list A) (start stop : Z) : list A :=
  let len := Z.of_nat (List.length items) in
  let lo := slice_bound len start in
  let hi := slice_bound len stop in
  firstn (Z.to_nat (hi - lo)) (skipn (Z.to_nat lo) items).

(** *** Membership and prefixes *)

(** [needle in s] for two [str]: [needle] occurs somewhere in [s]. *)
Fixpoint is_substring (needle s : pystr) : bool :=
  startswith s needle ||
  match s with
  | [] => false
  | _ :: r => is_substring needle r
  end.

(** [key in v] for a [str] key: a key of a dict, an element of a list, a
    piece of a string; any other value is not iterable. *)
Definition py_contains (v : json) (key : pystr) : outcome bool :=
  match v with
  | JObj d => Ok (match dict_lookup d key with Some _ => true | None => false end)
  | JList l =>
      Ok (existsb (fun x => match x with JStr s => str_eqb s key | _ => false end) l)
  | JStr s => Ok (is_substring key s)
  | _ => Raise TypeError
  end.

(** The lower-case form of an ASCII letter; other ASCII characters are their
    own. *)
Definition ascii_lower (c : char) : char :=
  if (65 <=? c)%N && (c <=? 90)%N then (c + 32)%N else c.

(** [s.lower().startswith(p)] for a lower-case ASCII prefix [p] made of the
    letters a, b, e, r and the space: case mapping works character by
    character, and the only code points that lower-case to one of these are
    the ASCII letters themselves (and the space), so the test compares the
    first characters of [s] with [p] up to ASCII case. *)
Fixpoint lower_startswith (s p : pystr) : bool :=
  match p, s with
  | [], _ => true
  | x :: p', y :: s' =>
      (y <? 128)%N && char_eqb x (ascii_lower y) && lower_startswith s' p'
  | _ :: _, [] => false
  end.

End Py.

(** * The facade: [academicoErpRestInterface.py] *)

Module Facade.
Import Py.

Notation "'let!' x ':=' c 'in' k" := (obind c (fun x => k))
  (at level 10, x name, c at level 100, k at level 200).

(** ** Config helpers *)

(** [os.environ]. *)
Definition environ := pystr -> option pystr.

Definition require_env (env : environ) (name : pystr) : outcome pystr :=
  match env name with
  | Some (c :: v) => Ok (c :: v)
  | _ => Raise (RuntimeError (lit "Missing required env var: " ++ name))
  end.

Definition getenv_int (env : environ) (name : pystr) (default : Z) : Z :=
  let v := match env name with Some v => v | None => str_of_int default end in
  match int_of_str v with
  | Some z => z
  | None => default
  end.

Definition redact (s : option pystr) : pystr :=
  match s with
  | None | Some [] => lit "***"
  | Some s =>
      if (List.length s <=? 6)%nat then lit "***REDACTED***"
      else firstn 3 s ++ lit "...***REDACTED***"
  end.

(** ** Environment configuration *)

Record config : Type := {
  ERP_TOKEN_URL : pystr;
  ERP_API_BASE : pystr;
  ERP_USERNAME : pystr;
  ERP_PASSWORD : pystr;
  ERP_CLIENT_ID : pystr;
  ERP_CLIENT_SECRET : pystr;
  HTTP_TIMEOUT_SECONDS : Z;
  TOKEN_SAFETY_SECONDS : Z
}.

(** The module-level assignments, in their order; the first missing variable
    stops the import. *)
Definition load_config (env : environ) : outcome config :=
  let! token_url := require_env env (lit "ERP_TOKEN_URL") in
  let! api_base := require_env env (lit "ERP_API_BASE") in
  let! username := require_env env (lit "ERP_USERNAME") in
  let! password := require_env env (lit "ERP_PASSWORD") in
  let! client_id := require_env env (lit "ERP_CLIENT_ID") in
  let! client_secret := require_env env (lit "ERP_CLIENT_SECRET") in
  Ok {| ERP_TOKEN_URL := token_url;
        ERP_API_BASE := api_base;
        ERP_USERNAME := username;
        ERP_PASSWORD := password;
        ERP_CLIENT_ID := client_id;
        ERP_CLIENT_SECRET := client_secret;
        HTTP_TIMEOUT_SECONDS := getenv_int env (lit "ERP_HTTP_TIMEOUT_SECONDS") 20;
        TOKEN_SAFETY_SECONDS := getenv_int env (lit "ERP_TOKEN_SAFETY_SECONDS") 60 |}.

(** ** The outside world: clock and network

    A request carries its body either form-encoded ([data=], the token
    request) or as JSON ([json=], the data requests).  A response is its
    status and what [r.json()] makes of its text ([None] when the text is not
    JSON); the text itself only reaches the log.  Every clock reading and
    every POST is recorded, in order, in the trace; the world answers each
    from the trace so far ([None] from the network: no response arrived).
    Log lines are not modelled; the one clock reading made for a log line
    is.  A clock reading is the double that [time.time()] returns. *)

Inductive body : Type :=
| FormData (fields : list (pystr * pystr))
| JsonBody (payload : json).

Record request : Type := {
  req_url : pystr;
  req_body : body;
  req_headers : list (pystr * pystr)
}.

Record response : Type := {
  status_code : Z;
  json_body : option json
}.

Inductive io_event : Type :=
| EvTime (t : Q)
| EvPost (rq : request) (rs : option response).

Record world : Type := {
  clock : list io_event -> Q;
  network : list io_event -> request -> option response
}.

(** ** Token cache

    The two module globals, and the trace. *)
Record state : Type := {
  _access_token : json;
  _token_expiry_epoch : Q;
  trace : list io_event
}.

Definition initial_state : state :=
  {| _access_token := JNull; _token_expiry_epoch := 0%Q; trace := [] |}.

Definition M (A : Type) : Type := state -> outcome A * state.

Definition ret {A} (a : A) : M A := fun s => (Ok a, s).

Definition raise {A} (e : exn) : M A := fun s => (Raise e, s).

Definition bind {A B} (m : M A) (k : A -> M B) : M B :=
  fun s =>
    match m s with
    | (Ok a, s') => k a s'
    | (Raise e, s') => (Raise e, s')
    end.

Definition lift {A} (x : outcome A) : M A := fun s => (x, s).

Notation "x <- c ;; k" := (bind c (fun x => k))
  (at level 61, c at next level, right associativity).
Notation "c ;;; k" := (bind c (fun _ => k))
  (at level 61, right associativity).

Definition record (e : io_event) (s : state) : state :=
  {| _access_token := _access_token s;
     _token_expiry_epoch := _token_expiry_epoch s;
     trace := trace s ++ [e] |}.

Definition get_access_token : M json := fun s => (Ok (_access_token s), s).

Definition get_token_expiry_epoch : M Q := fun s => (Ok (_token_expiry_epoch s), s).

Definition set_access_token (v : json) : M unit :=
  fun s => (Ok tt, {| _access_token := v;
                      _token_expiry_epoch := _token_expiry_epoch s;
                      trace := trace s |}).

Definition set_token_expiry_epoch (t : Q) : M unit :=
  fun s => (Ok tt, {| _access_token := _access_token s;
                      _token_expiry_epoch := t;
                      trace := trace s |}).

Definition Qltb (x y : Q) : bool := negb (Qle_bool y x).

Definition is_none (v : json) : bool :=
  match v with JNull => true | _ => false end.

(** [r.json()]. *)
Definition r_json (r : response) : outcome json :=
  match json_body r with
  | Some j => Ok j
  | None => Raise JSONDecodeError
  end.

(** [int(x)] for a finite [float]: the integer part, towards zero. *)
Definition int_of_time (x : Q) : Z :=
  if Qltb x 0 then (- Qfloor (- x))%Z else Qfloor x.

Section Service.

Variable cfg : config.
Variable W : world.

(** [time.time()]. *)
Definition time_time : M Q :=
  fun s => let t := clock W (trace s) in (Ok t, record (EvTime t) s).

(** [await client.post(url, ..., headers=headers)]. *)
Definition client_post (url : pystr) (b : body) (headers : list (pystr * pystr))
  : M response :=
  fun s =>
    let rq := {| req_url := url; req_body := b; req_headers := headers |} in
    let rs := network W (trace s) rq in
    (match rs with Some r => Ok r | None => Raise TransportError end,
     record (EvPost rq rs) s).

Definition _token_is_valid : M bool :=
  tok <- get_access_token ;;
  if is_none tok then ret false
  else
    now <- time_time ;;
    expiry <- get_token_expiry_epoch ;;
    ret (Qltb now expiry).

Definition _fetch_token : M json :=
  let data :=
    [ (lit "grant_type", lit "password");
      (lit "username", ERP_USERNAME cfg);
      (lit "password", ERP_PASSWORD cfg);
      (lit "client_id", ERP_CLIENT_ID cfg);
      (lit "client_secret", ERP_CLIENT_SECRET cfg) ] in
  let headers := [ (lit "Content-Type", lit "application/x-www-form-urlencoded") ] in
  r <- client_post (ERP_TOKEN_URL cfg) (FormData data) headers ;;
  if (status_code r <? 200) || (300 <=? status_code r) then
    raise (HTTPException 502
             (lit "Token request failed (" ++ str_of_int (status_code r) ++ lit ")"))
  else
    j <- lift (r_json r) ;;
    token <- lift (py_get j (lit "access_token")) ;;
    e <- lift (py_get_default j (lit "expires_in") (JInt 0)) ;;
    expires_in <- lift (int_of_json e) ;;
    if negb (truthy token) || (expires_in <=? 0) then
      raise (HTTPException 502 (lit "Token response invalid"))
    else
      now <- time_time ;;
      margin <- lift (float_of_int (Z.max 0 (expires_in - TOKEN_SAFETY_SECONDS cfg))) ;;
      let expiry := fadd now margin in
      set_access_token token ;;;
      set_token_expiry_epoch expiry ;;;
      (* the clock reading inside the "Token acquired" log line *)
      time_time ;;;
      ret token.

Definition get_token : M json :=
  valid <- _token_is_valid ;;
  if valid then get_access_token
  else
    (* with _token_lock: *)
    valid <- _token_is_valid ;;
    if valid then get_access_token
    else
      set_access_token JNull ;;;
      _fetch_token.

Definition erp_post_json (path : pystr) (payload : json)
  (accept_json retry_on_401 : bool) : M json :=
  let url := rstrip_chars (lit "/") (ERP_API_BASE cfg) ++ lit "/" ++ lstrip_chars (lit "/") path in
  token <- get_token ;;
  let headers :=
    [ (lit "Content-Type", lit "application/json");
      (lit "Authorization", lit "Bearer " ++ str token) ] in
  let headers :=
    if accept_json then dict_set headers (lit "Accept") (lit "application/json")
    else headers in
  r <- client_post url (JsonBody payload) headers ;;
  r <- (if (status_code r =? 401) && retry_on_401 then
          _fetch_token ;;;
          token2 <- get_access_token ;;
          let headers := dict_set headers (lit "Authorization") (lit "Bearer " ++ str token2) in
          client_post url (JsonBody payload) headers
        else ret r) ;;
  if (status_code r <? 200) || (300 <=? status_code r) then
    raise (HTTPException 502
             (lit "ERP call failed (" ++ str_of_int (status_code r) ++ lit ")"))
  else lift (r_json r).

(** ** Normalizers *)

Definition iso_date_only (s : option pystr) : option pystr :=
  match s with
  | None | Some [] => None
  | Some s => Some (hd [] (split_once (lit "T") s))
  end.

Definition normalize_alumno (item : json) : outcome json :=
  let! p := py_get item (lit "Persona") in
  let persona := py_or p (JObj []) in
  let! v := py_get item (lit "IdIntegracion") in
  let id_alumno := str (py_or v (JStr [])) in
  let! v := py_get persona (lit "Nombre") in
  let nombre := str (py_or v (JStr [])) in
  let! v := py_get persona (lit "Apellido1") in
  let a1 := strip (str (py_or v (JStr []))) in
  let! v := py_get persona (lit "Apellido2") in
  let a2 := strip (str (py_or v (JStr []))) in
  let apellidos :=
    join (lit " ") (filter (fun p => match p with [] => false | _ => true end) [a1; a2]) in
  let! v := py_get persona (lit "Email") in
  let email_personal := str (py_or v (JStr [])) in
  let! v := py_get persona (lit "IdSeguridad") in
  let id_seguridad := str (py_or v (JStr [])) in
  let! v := py_get persona (lit "Celular") in
  let telefono := str (py_or v (JStr [])) in
  let! v := py_get persona (lit "IdRefTerritorioDomicilio") in
  let territorio := str (py_or v (JStr [])) in
  let id_pais :=
    match territorio with
    | [] => []
    | _ => hd [] (split_once (lit "-") territorio)
    end in
  Ok (JObj
        [ (lit "IdAlumno", JStr id_alumno);
          (lit "Nombre", JStr nombre);
          (lit "Apellidos", JStr apellidos);
          (lit "EmailPersonal", JStr email_personal);
          (lit "IdSeguridad", JStr id_seguridad);
          (lit "Telefono", JStr telefono);
          (lit "IdPais", JStr id_pais) ]).

Definition normalize_matricula (m : json) : outcome json :=
  let! v := py_get m (lit "Plan") in
  let plan := py_or v (JObj []) in
  let! v := py_get m (lit "EstadoMatricula") in
  let estado := py_or v (JObj []) in
  let! v := py_get m (lit "Alumno") in
  let alumno := py_or v (JObj []) in
  let! v := py_get m (lit "DocumentoIdentificacionAlumno") in
  let doc := py_or v (JObj []) in
  (* Defensive: ensure dicts *)
  let plan := if negb (isinstance_dict plan) then JObj [] else plan in
  let estado := if negb (isinstance_dict estado) then JObj [] else estado in
  let alumno := if negb (isinstance_dict alumno) then JObj [] else alumno in
  let doc := if negb (isinstance_dict doc) then JObj [] else doc in
  let! id_matricula := py_get m (lit "IdIntegracion") in
  let! id_plan := py_get plan (lit "Id") in
  let! estado_id := py_get estado (lit "Id") in
  let! estado_nombre := py_get estado (lit "Nombre") in
  let! id_alumno := py_get alumno (lit "IdIntegracion") in
  let! tipo_doc := py_get doc (lit "IdRefTipoDocumentoIdentificacionPais") in
  let! numero := py_get doc (lit "Numero") in
  Ok (JObj
        [ (lit "IdIntegracionMatricula", JStr (str (py_or id_matricula (JStr []))));
          (lit "IdPlan", JStr (str (py_or id_plan (JStr []))));
          (lit "cEstadoMatricula", JStr (str (py_or estado_id (JStr []))));
          (lit "EstadoMatriculaNombre", JStr (str (py_or estado_nombre (JStr []))));
          (lit "sEstadoMatricula", JStr []);
          (lit "IdAlumno", JStr (str (py_or id_alumno (JStr []))));
          (lit "TipoDocumento", JStr (str (py_or tipo_doc (JStr []))));
          (lit "NumeroDocumento", JStr (str (py_or numero (JStr [])))) ]).

(** ** FastAPI app

    A handler answers with a value (sent as JSON with status 200), with an
    explicit [JSONResponse], or by raising.  [http_status] is the framework's
    part: an [HTTPException] becomes a response with its status; any other
    exception becomes 500 Internal Server Error. *)
Inductive reply : Type :=
| Body (content : json)
| JSONResponse (status_code : Z) (content : json).

Definition http_status (r : outcome reply) : Z :=
  match r with
  | Ok (Body _) => 200
  | Ok (JSONResponse c _) => c
  | Raise (HTTPException c _) => c
  | Raise _ => 500
  end.

Definition health : M reply :=
  cached <- _token_is_valid ;;
  tok <- get_access_token ;;
  seconds <- (if truthy tok then
                expiry <- get_token_expiry_epoch ;;
                now <- time_time ;;
                let left := fsub expiry now in
                (* max(0, left) *)
                ret (if Qltb 0 left then int_of_time left else 0)
              else ret 0) ;;
  ret (Body (JObj [ (lit "status", JStr (lit "ok"));
                    (lit "tokenCached", JBool cached);
                    (lit "tokenExpiresInSeconds", JInt seconds) ])).

Definition alumnos_payload (id itemsPerPage : Z) : json :=
  JObj [ (lit "filterIdPlanoOfertado", JInt 0);
         (lit "filterHasActiveMatriculas", JBool true);
         (lit "filterIdsIntegracion", JList [JInt id]);
         (lit "orderColumnName", JStr []);
         (lit "orderColumnPosition", JInt 0);
         (lit "orderDirection", JStr []);
         (lit "pageIndex", JInt 1);
         (lit "itemsPerPage", JInt itemsPerPage) ].

Definition aic_alumnos (idAlumno : pystr) (itemsPerPage : Z) : M reply :=
  let id_str := strip idAlumno in
  if negb (isdigit id_str) then
    raise (HTTPException 400 (lit "idAlumno must be a numeric string"))
  else
    id <- lift (int_of_pystr id_str) ;;
    let payload := alumnos_payload id itemsPerPage in
    data <- erp_post_json (lit "/alumnos/search-list") payload true true ;;
    match data with
    | JList (item :: _) =>
        if negb (isinstance_dict item) then
          raise (HTTPException 502 (lit "Unexpected alumnos response format"))
        else
          r <- lift (normalize_alumno item) ;;
          ret (Body r)
    | _ =>
        (* not a list, or an empty one *)
        ret (JSONResponse 404 (JObj [ (lit "detail", JStr (lit "Alumno not found")) ]))
    end.

(** One turn of the [for m in data] loop of [aic_matriculas]. *)
Definition matriculas_step (onlyActive : bool) (acc : outcome (list json)) (m : json)
  : outcome (list json) :=
  let! out := acc in
  if negb (isinstance_dict m) then Ok out
  else
    let! v := py_get m (lit "EstadoMatricula") in
    let estado := py_or v (JObj []) in
    let! estado_nombre :=
      (if isinstance_dict estado then
         let! n := py_get estado (lit "Nombre") in Ok (str (py_or n (JStr [])))
       else Ok []) in
    if onlyActive && negb (str_eqb estado_nombre (lit "Alta")) then Ok out
    else
      let! r := normalize_matricula m in
      Ok (out ++ [r]).

Definition matriculas_loop (onlyActive : bool) (data : list json) : outcome (list json) :=
  fold_left (matriculas_step onlyActive) data (Ok []).

(** [effective_id]: the stripped [idAlumno], or the stripped [alumnoId] when
    the former is empty and the latter is given. *)
Definition matriculas_effective_id (idAlumno : pystr) (alumnoId : option pystr) : pystr :=
  let effective_id := strip idAlumno in
  match effective_id, alumnoId with
  | [], Some (c :: a) => strip (c :: a)
  | _, _ => effective_id
  end.

Definition matriculas_payload (id itemsPerPage pageIndex : Z) : json :=
  JObj [ (lit "FilterIdsIntegracionMatriculas", JList []);
         (lit "FilterIdsIntegracionAlumnos", JList [JInt id]);
         (lit "ProjectAlumno", JBool true);
         (lit "ProjectDocumentoIdentificacionAlumno", JBool true);
         (lit "ProjectPlan", JBool true);
         (lit "PageIndex", JInt pageIndex);
         (lit "ItemsPerPage", JInt itemsPerPage) ].

Definition aic_matriculas (idAlumno : pystr) (onlyActive : bool)
  (itemsPerPage pageIndex : Z) (alumnoId : option pystr) : M reply :=
  let effective_id := matriculas_effective_id idAlumno alumnoId in
  match effective_id with
  | [] => raise (HTTPException 400 (lit "Missing required parameter: idAlumno"))
  | _ =>
      id <- lift (int_of_pystr effective_id) ;;
      let payload := matriculas_payload id itemsPerPage pageIndex in
      data <- erp_post_json (lit "/matriculas/search-list") payload true true ;;
      match data with
      | JList l =>
          out <- lift (matriculas_loop onlyActive l) ;;
          ret (Body (JList out))
      | _ => raise (HTTPException 502 (lit "Unexpected matriculas response format"))
      end
  end.

End Service.

End Facade.

(** * The mock upstream: [mockAcademicoApi.py] *)

Module Mock.
Import Py.

(** ** Mock token store

    [TOKENS] maps a token to its expiry; it is kept in insertion order, with
    [dict_set] for [TOKENS[token] = v]. *)

Definition token_store := list (pystr * Q).

(** [TOKENS.get(token)]. *)
Fixpoint store_get (d : token_store) (k : pystr) : option Q :=
  match d with
  | [] => None
  | (k', v) :: r => if str_eqb k' k then Some v else store_get r k
  end.

(** [TOKENS.pop(token, None)]. *)
Definition store_pop (d : token_store) (k : pystr) : token_store :=
  filter (fun kv => negb (str_eqb (fst kv) k)) d.

(** [MOCK_EXPIRES_IN = int(os.getenv("MOCK_TOKEN_EXPIRES_IN", "1199"))]. *)
Definition load_MOCK_EXPIRES_IN (env : pystr -> option pystr) : outcome Z :=
  int_of_pystr (match env (lit "MOCK_TOKEN_EXPIRES_IN") with
                | Some v => v
                | None => lit "1199"
                end).

(** The mock's outside world: the k-th reading of its clock, and the k-th
    text drawn by [secrets.token_urlsafe(n)].  Its state: the token store and
    how many readings and draws were made. *)
Record mock_world : Type := {
  mock_clock : nat -> Q;
  mock_secret : nat -> Z -> pystr
}.

Record mock_state : Type := {
  TOKENS : token_store;
  clock_reads : nat;
  secrets_drawn : nat
}.

Definition MockM (A : Type) : Type := mock_state -> outcome A * mock_state.

Definition mret {A} (a : A) : MockM A := fun s => (Ok a, s).

Definition mraise {A} (e : exn) : MockM A := fun s => (Raise e, s).

Definition mbind {A B} (m : MockM A) (k : A -> MockM B) : MockM B :=
  fun s =>
    match m s with
    | (Ok a, s') => k a s'
    | (Raise e, s') => (Raise e, s')
    end.

Definition mlift {A} (x : outcome A) : MockM A := fun s => (x, s).

Notation "x <-- c ;; k" := (mbind c (fun x => k))
  (at level 61, c at next level, right associativity).
Notation "c ;;- k" := (mbind c (fun _ => k))
  (at level 61, right associativity).

Definition get_TOKENS : MockM token_store := fun s => (Ok (TOKENS s), s).

Definition set_TOKENS (d : token_store) : MockM unit :=
  fun s => (Ok tt, {| TOKENS := d;
                      clock_reads := clock_reads s;
                      secrets_drawn := secrets_drawn s |}).

(** The dictionary of sample students, by integration id, and of sample
    enrollments, by student id. *)
Definition alumnos_table := list (Z * json).
Definition matriculas_table := list (Z * list json).

Fixpoint table_get {V} (t : list (Z * V)) (k : Z) : option V :=
  match t with
  | [] => None
  | (k', v) :: r => if k' =? k then Some v else table_get r k
  end.

Fixpoint table_set {V} (t : list (Z * V)) (k : Z) (v : V) : list (Z * V) :=
  match t with
  | [] => [(k, v)]
  | (k', v') :: r => if k' =? k then (k, v) :: r else (k', v') :: table_set r k v
  end.

Definition table_pop {V} (t : list (Z * V)) (k : Z) : list (Z * V) :=
  filter (fun kv => negb (fst kv =? k)) t.

(** The two statements after the enrollment samples:
    [MATRICULAS_BY_ALUMNO_ID[988224] = MATRICULAS_BY_ALUMNO_ID.get(1000113, [])]
    and [MATRICULAS_BY_ALUMNO_ID.pop(1000113, None)]. *)
Definition rekey_matriculas (t : matriculas_table) : matriculas_table :=
  let moved := match table_get t 1000113 with Some l => l | None => [] end in
  table_pop (table_set t 988224 moved) 1000113.

(** An inbound request: the value of its [Authorization] header, looked up
    without regard to case, and what [request.json()] makes of its body. *)
Record mock_request : Type := {
  authorization : option pystr;
  request_json : option json
}.

Section MockService.

Variable MOCK_EXPIRES_IN : Z.
Variable ALUMNOS_BY_IDINTEGRACION : alumnos_table.
Variable MATRICULAS_BY_ALUMNO_ID : matriculas_table.
Variable environ : pystr -> option pystr.
Variable W : mock_world.

(** [time.time()]. *)
Definition mock_time : MockM Q :=
  fun s => (Ok (mock_clock W (clock_reads s)),
            {| TOKENS := TOKENS s;
               clock_reads := S (clock_reads s);
               secrets_drawn := secrets_drawn s |}).

(** [secrets.token_urlsafe(n)]. *)
Definition token_urlsafe (n : Z) : MockM pystr :=
  fun s => (Ok (mock_secret W (secrets_drawn s) n),
            {| TOKENS := TOKENS s;
               clock_reads := clock_reads s;
               secrets_drawn := S (secrets_drawn s) |}).

Definition _issue_token : MockM json :=
  token <-- token_urlsafe 48 ;;
  now <-- mock_time ;;
  lifetime <-- mlift (float_of_int MOCK_EXPIRES_IN) ;;
  let expires_at := fadd now lifetime in
  tokens <-- get_TOKENS ;;
  set_TOKENS (dict_set tokens token expires_at) ;;-
  refresh_token <-- token_urlsafe 48 ;;
  id_token <-- token_urlsafe 64 ;;
  mret (JObj [ (lit "access_token", JStr token);
               (lit "token_type", JStr (lit "bearer"));
               (lit "expires_in", JInt MOCK_EXPIRES_IN);
               (lit "refresh_token", JStr refresh_token);
               (lit "id_token", JStr id_token) ]).

Definition _require_bearer (request : mock_request) : MockM pystr :=
  let auth := match authorization request with Some a => a | None => [] end in
  if match auth with [] => true | _ => false end
     || negb (lower_startswith auth (lit "bearer ")) then
    mraise (HTTPException 401 (lit "Missing Bearer token"))
  else
    (* [1] exists: the test above found the space *)
    let token := strip (nth 1 (split_once (lit " ") auth) []) in
    tokens <-- get_TOKENS ;;
    match store_get tokens token with
    | None => mraise (HTTPException 401 (lit "Invalid token"))
    | Some exp =>
        if Qeq_bool exp 0 then mraise (HTTPException 401 (lit "Invalid token"))
        else
          now <-- mock_time ;;
          if Qle_bool exp now then
            tokens <-- get_TOKENS ;;
            set_TOKENS (store_pop tokens token) ;;-
            mraise (HTTPException 401 (lit "Token expired"))
          else mret token
    end.

Definition _get_page_params (payload : pydict) : Z * Z :=
  let page_index :=
    dict_get_default payload (lit "PageIndex")
      (dict_get_default payload (lit "pageIndex") (JInt 1)) in
  let items_per_page :=
    dict_get_default payload (lit "ItemsPerPage")
      (dict_get_default payload (lit "itemsPerPage") (JInt 10)) in
  let page_index := or_default (int_of_json page_index) 1 in
  let items_per_page := or_default (int_of_json items_per_page) 10 in
  let page_index := if page_index <? 1 then 1 else page_index in
  let items_per_page := if items_per_page <? 1 then 10 else items_per_page in
  let items_per_page := if items_per_page >? 500 then 500 else items_per_page in
  (page_index, items_per_page).

Definition _paginate {A} (items : list A) (page_index items_per_page : Z) : list A :=
  let start := (page_index - 1) * items_per_page in
  let stop := start + items_per_page in
  py_slice items start stop.


(** ** Endpoints *)

Definition token : MockM json := _issue_token.

(** [await request.json()]. *)
Definition request_payload (request : mock_request) : outcome json :=
  match request_json request with
  | Some j => Ok j
  | None => Raise JSONDecodeError
  end.

(** The loop of [alumnos_search_list] over the requested ids. *)
Definition alumnos_step (results : list json) (raw : json) : list json :=
  match int_of_json raw with
  | Raise _ => results
  | Ok k =>
      match table_get ALUMNOS_BY_IDINTEGRACION k with
      | Some item => if truthy item then results ++ [item] else results
      | None => results
      end
  end.

Definition alumnos_search_list (request : mock_request) : MockM json :=
  _require_bearer request ;;-
  payload <-- mlift (request_payload request) ;;
  v <-- mlift (py_get payload (lit "filterIdsIntegracion")) ;;
  match py_or v (JList []) with
  | JList (id :: ids) =>
      let results := fold_left alumnos_step (id :: ids) [] in
      match payload with
      | JObj d =>
          let '(page_index, items_per_page) := _get_page_params d in
          mret (JList (_paginate results page_index items_per_page))
      | _ => mraise AttributeError
      end
  | _ => mret (JList [])
  end.

(** The copy of one sample enrollment, with the nested student id set to
    the requested one. *)
Definition patch_alumno (alumno_id : Z) (m : pydict) : json :=
  let m_copy := m in
  let alumno_obj := dict_get m_copy (lit "Alumno") in
  match alumno_obj with
  | JObj a =>
      let alumno_obj := dict_set a (lit "IdIntegracion") (JStr (str_of_int alumno_id)) in
      JObj (dict_set m_copy (lit "Alumno") (JObj alumno_obj))
  | _ =>
      JObj (dict_set m_copy (lit "Alumno")
              (JObj [ (lit "IdIntegracion", JStr (str_of_int alumno_id)) ]))
  end.

(** The inner loop of [matriculas_search_list] over one student's samples,
    and the outer loop over the requested ids. *)
Definition matriculas_item_step (alumno_id : Z) (results : list json) (m : json)
  : list json :=
  match m with
  | JObj d => results ++ [patch_alumno alumno_id d]
  | _ => results
  end.

Definition matriculas_id_step (results : list json) (raw : json) : list json :=
  match int_of_json raw with
  | Raise _ => results
  | Ok alumno_id =>
      let items := match table_get MATRICULAS_BY_ALUMNO_ID alumno_id with
                   | Some l => l
                   | None => []
                   end in
      fold_left (matriculas_item_step alumno_id) items results
  end.

Definition matriculas_search_list (request : mock_request) : MockM json :=
  _require_bearer request ;;-
  payload <-- mlift (request_payload request) ;;
  let require_shape :=
    str_eqb (match environ (lit "MOCK_REQUIRE_MATRICULAS_EMPTY_FILTER") with
             | Some v => v
             | None => lit "1"
             end) (lit "1") in
  present <-- (if require_shape
               then mlift (py_contains payload (lit "FilterIdsIntegracionMatriculas"))
               else mret true) ;;
  if negb present then
    mraise (HTTPException 400
              (lit "Missing required field: FilterIdsIntegracionMatriculas (must be present, can be empty array)"))
  else
    v <-- mlift (py_get payload (lit "FilterIdsIntegracionAlumnos")) ;;
    match py_or v (JList []) with
    | JList (id :: ids) =>
        let results := fold_left matriculas_id_step (id :: ids) [] in
        match payload with
        | JObj d =>
            let '(page_index, items_per_page) := _get_page_params d in
            mret (JList (_paginate results page_index items_per_page))
        | _ => mraise AttributeError
        end
    | _ => mret (JList [])
    end.

Definition health : MockM json :=
  now <-- mock_time ;;
  tokens <-- get_TOKENS ;;
  let active_tokens :=
    List.length (filter (fun kv => negb (Qle_bool (snd kv) now)) tokens) in
  mret (JObj [ (lit "status", JStr (lit "ok"));
               (lit "activeTokens", JInt (Z.of_nat active_tokens));
               (lit "expiresIn", JInt MOCK_EXPIRES_IN) ]).

End MockService.

End Mock.


(** * The specification's vocabulary

    Definitions that follow the words of the specification; the theorems
    below compare them with the code. *)

Module Wording.
Import Py Facade.

(** The text before the first hyphen. *)
Fixpoint before_first_hyphen (s : pystr) : pystr :=
  match s with
  | [] => []
  | c :: r => if (c =? 45)%N then [] else c :: before_first_hyphen r
  end.

(** Up to two family-name parts joined with one space, empty parts skipped. *)
Definition join_family_names (a1 a2 : pystr) : pystr :=
  match a1, a2 with
  | [], _ => a2
  | _, [] => a1
  | _, _ => a1 ++ [32%N] ++ a2
  end.


(** A status in the 2xx range. *)
Definition is_2xx (status : Z) : bool := (200 <=? status) && (status <? 300).

(** The POSTs of a trace, by kind: the token request is form-encoded, the
    data requests carry JSON. *)
Definition is_data_request (rq : request) : bool :=
  match req_body rq with JsonBody _ => true | FormData _ => false end.

Fixpoint data_posts (tr : list io_event) : list (request * option response) :=
  match tr with
  | [] => []
  | EvPost rq rs :: r =>
      if is_data_request rq then (rq, rs) :: data_posts r else data_posts r
  | EvTime _ :: r => data_posts r
  end.

Fixpoint token_posts (tr : list io_event) : list (request * option response) :=
  match tr with
  | [] => []
  | EvPost rq rs :: r =>
      if is_data_request rq then token_posts r else (rq, rs) :: token_posts r
  | EvTime _ :: r => token_posts r
  end.

(** What [_fetch_token] makes of the token endpoint's answer: the token and
    the validity it accepts, or the exception it raises. *)
Definition token_response_check (rs : option response) : outcome (json * Z) :=
  match rs with
  | None => Raise TransportError
  | Some r =>
      if (status_code r <? 200) || (300 <=? status_code r) then
        Raise (HTTPException 502
                 (lit "Token request failed (" ++ str_of_int (status_code r) ++ lit ")"))
      else
        let! j := r_json r in
        let! token := py_get j (lit "access_token") in
        let! e := py_get_default j (lit "expires_in") (JInt 0) in
        let! expires_in := int_of_json e in
        if negb (truthy token) || (expires_in <=? 0) then
          Raise (HTTPException 502 (lit "Token response invalid"))
        else Ok (token, expires_in)
  end.

(** The token a fetch stores and the validity it adds to the clock reading,
    when the answer is accepted and the validity fits a [float]. *)
Definition accepted_token (cfg : config) (rs : option response) : outcome (json * Q) :=
  let! checked := token_response_check rs in
  let! margin := float_of_int (Z.max 0 (snd checked - TOKEN_SAFETY_SECONDS cfg)) in
  Ok (fst checked, margin).

(** The token request of [_fetch_token]. *)
Definition token_request (cfg : config) : request :=
  {| req_url := ERP_TOKEN_URL cfg;
     req_body :=
       FormData
         [ (lit "grant_type", lit "password");
           (lit "username", ERP_USERNAME cfg);
           (lit "password", ERP_PASSWORD cfg);
           (lit "client_id", ERP_CLIENT_ID cfg);
           (lit "client_secret", ERP_CLIENT_SECRET cfg) ];
     req_headers := [ (lit "Content-Type", lit "application/x-www-form-urlencoded") ] |}.

(** The retried data request: the first one, with the [Authorization] header
    replaced by the new token's. *)
Definition retried_request (rq1 : request) (token : json) : request :=
  {| req_url := req_url rq1;
     req_body := req_body rq1;
     req_headers :=
       dict_set (req_headers rq1) (lit "Authorization") (lit "Bearer " ++ str token) |}.

(** [n] callers of [get_token], one after the other. *)
Fixpoint get_token_callers (cfg : config) (W : world) (n : nat) : M (list json) :=
  match n with
  | O => ret []
  | S k =>
      bind (get_token cfg W) (fun t =>
      bind (get_token_callers cfg W k) (fun ts => ret (t :: ts)))
  end.


(** *** Examples and scenarios *)

Definition Perez : pystr := [80; 233; 114; 101; 122]%N.

(** The student record of the specification's example. *)
Definition example_alumno : json :=
  JObj [ (lit "IdIntegracion", JStr (lit "988224"));
         (lit "Persona",
          JObj [ (lit "Nombre", JStr (lit "Ana"));
                 (lit "Apellido1", JStr Perez);
                 (lit "Apellido2", JStr []);
                 (lit "IdRefTerritorioDomicilio", JStr (lit "EC-101-102")) ]) ].



Definition example_config : config :=
  {| ERP_TOKEN_URL := lit "https://erp.test/token";
     ERP_API_BASE := lit "https://erp.test/api/v1/public/";
     ERP_USERNAME := lit "facade";
     ERP_PASSWORD := lit "pass-word";
     ERP_CLIENT_ID := lit "aic";
     ERP_CLIENT_SECRET := lit "s3cr3t-key";
     HTTP_TIMEOUT_SECONDS := 20;
     TOKEN_SAFETY_SECONDS := 60 |}.

Definition json_response (status : Z) (j : json) : response :=
  {| status_code := status; json_body := Some j |}.

Definition token_response (token : pystr) (expires_in : Z) : response :=
  json_response 200
    (JObj [ (lit "access_token", JStr token);
            (lit "token_type", JStr (lit "bearer"));
            (lit "expires_in", JInt expires_in) ]).

(** A world that answers the k-th token request with the k-th entry of
    [tokens] and the k-th data request with the k-th entry of [datas] (no
    answer once a script is used up), and whose clock starts at [start] and
    advances one second with every event. *)
Definition scripted_world (start : Q) (tokens datas : list response) : world :=
  {| clock := fun tr => (start + inject_Z (Z.of_nat (List.length tr)))%Q;
     network := fun tr rq =>
       if is_data_request rq then nth_error datas (List.length (data_posts tr))
       else nth_error tokens (List.length (token_posts tr)) |}.

End Wording.

(** * Further vocabulary

    Definitions used to state how the remaining functions behave. *)

Module Vocabulary.
Import Py Facade Wording.

(** The variables [require_env] is called on, in the order of the module. *)
Definition required_vars : list pystr :=
  [ lit "ERP_TOKEN_URL"; lit "ERP_API_BASE"; lit "ERP_USERNAME";
    lit "ERP_PASSWORD"; lit "ERP_CLIENT_ID"; lit "ERP_CLIENT_SECRET" ].

(** The variable is set, and not to the empty text. *)
Definition is_set (env : environ) (name : pystr) : bool :=
  match env name with
  | Some (_ :: _) => true
  | _ => false
  end.

(** The URL a data request goes to. *)
Definition data_url (cfg : config) (path : pystr) : pystr :=
  rstrip_chars (lit "/") (ERP_API_BASE cfg) ++ lit "/" ++ lstrip_chars (lit "/") path.

Definition is_str (v : json) : bool :=
  match v with JStr _ => true | _ => false end.

(** A flat record: these keys, in this order, each with a string value. *)
Definition flat_record (keys : list pystr) (out : pydict) : Prop :=
  map fst out = keys /\ Forall (fun v => is_str v = true) (map snd out).

(** The field [inner] of the sub-record [outer] of [d]; [None] when the
    sub-record is missing or is not a mapping. *)
Definition nested_field (d : pydict) (outer inner : pystr) : json :=
  match dict_get d outer with
  | JObj sub => dict_get sub inner
  | _ => JNull
  end.

(** [str(v or "")]. *)
Definition text_of (v : json) : pystr := str (py_or v (JStr [])).

(** The text before the first occurrence of the character [c]. *)
Fixpoint before_first (c : char) (s : pystr) : pystr :=
  match s with
  | [] => []
  | x :: r => if (x =? c)%N then [] else x :: before_first c r
  end.

(** The number a text of ASCII digits denotes. *)
Definition digits_number (s : pystr) : Z :=
  fold_left (fun acc c => 10 * acc + digit_of c) s 0.

(** What [aic_alumnos] makes of the upstream's answer. *)
Definition alumnos_reply (data : json) : outcome reply :=
  match data with
  | JList (item :: _) =>
      if isinstance_dict item
      then obind (normalize_alumno item) (fun r => Ok (Body r))
      else Raise (HTTPException 502 (lit "Unexpected alumnos response format"))
  | _ => Ok (JSONResponse 404 (JObj [ (lit "detail", JStr (lit "Alumno not found")) ]))
  end.

(** The headers of a data request made with the token [tok]. *)
Definition data_headers (accept_json : bool) (tok : json) : list (pystr * pystr) :=
  [ (lit "Content-Type", lit "application/json");
    (lit "Authorization", lit "Bearer " ++ str tok) ]
  ++ (if accept_json then [ (lit "Accept", lit "application/json") ] else []).

(** The data request [erp_post_json] makes with the token [tok]. *)
Definition data_request (cfg : config) (path : pystr) (payload : json)
  (accept_json : bool) (tok : json) : request :=
  {| req_url := data_url cfg path;
     req_body := JsonBody payload;
     req_headers := data_headers accept_json tok |}.

(** What [erp_post_json] makes of the last answer it received. *)
Definition finish_call (r : response) : outcome json :=
  if is_2xx (status_code r) then r_json r
  else Raise (HTTPException 502
                (lit "ERP call failed (" ++ str_of_int (status_code r) ++ lit ")")).

End Vocabulary.

Module MockVocabulary.
Import Py Mock.

(** The students the requested ids select, in the order of the ids: one per
    id that converts to an integer and has a non-empty entry in the table. *)
Definition alumnos_found (table : alumnos_table) (ids : list json) : list json :=
  flat_map (fun raw =>
              match int_of_json raw with
              | Ok k =>
                  match table_get table k with
                  | Some item => if truthy item then [item] else []
                  | None => []
                  end
              | Raise _ => []
              end) ids.

(** The enrollments the requested ids select: for each id that converts to
    an integer, the objects among its samples, each patched with that id. *)
Definition matriculas_found (table : matriculas_table) (ids : list json) : list json :=
  flat_map (fun raw =>
              match int_of_json raw with
              | Ok k =>
                  flat_map (fun m => match m with
                                     | JObj d => [patch_alumno k d]
                                     | _ => []
                                     end)
                    (match table_get table k with Some l => l | None => [] end)
              | Raise _ => []
              end) ids.

(** A request that presents [tok] as its bearer token. *)
Definition bearer_request (tok : pystr) (payload : option json) : mock_request :=
  {| authorization := Some (lit "Bearer " ++ tok); request_json := payload |}.

(** The pages 1 to [k] of a list, one after the other. *)
Definition first_pages {A} (items : list A) (k : nat) (items_per_page : Z) : list A :=
  flat_map (fun p => _paginate items (Z.of_nat p) items_per_page) (seq 1 k).

(** The list under [key], as the search endpoints read it: the empty list
    when the field is missing, empty, or not a list. *)
Definition requested_ids (d : pydict) (key : pystr) : list json :=
  match py_or (dict_get d key) (JList []) with
  | JList ids => ids
  | _ => []
  end.

End MockVocabulary.

(** * Properties *)

(** ** Facts about the runtime model *)

Module PyFacts.
Import Py Wording.

Lemma str_eqb_eq (a b : pystr) : str_eqb a b = true <-> a = b.
Proof.
  revert b; induction a as [|x a IH]; intros [|y b]; simpl; split; intro H;
    try reflexivity; try discriminate.
  - apply andb_true_iff in H as [Hx Hab].
    apply N.eqb_eq in Hx. apply IH in Hab. now subst.
  - injection H as -> ->. apply andb_true_iff; split.
    + apply N.eqb_refl.
    + now apply IH.
Qed.

Lemma str_eqb_refl (a : pystr) : str_eqb a a = true.
Proof. now apply str_eqb_eq. Qed.

Lemma startswith_nil (s : pystr) : startswith s [] = true.
Proof. now destruct s. Qed.

Lemma split_once_hyphen_head (s : pystr) :
  hd [] (split_once (lit "-") s) = before_first_hyphen s.
Proof.
  induction s as [|c r IH]; [reflexivity|].
  change (lit "-") with [45%N] in *.
  cbn [split_once startswith before_first_hyphen char_eqb].
  rewrite startswith_nil, andb_true_r, N.eqb_sym.
  destruct (c =? 45)%N; [reflexivity|].
  destruct (split_once [45%N] r) as [|h t]; simpl in *; now rewrite <- IH.
Qed.


End PyFacts.

(** ** Facts about doubles *)

Module DoubleFacts.
Import Py.

Lemma two_ne_0 : ~ (2 == 0)%Q.
Proof. discriminate. Qed.

Lemma pow2_pos (k : Z) : (0 < 2 ^ k)%Q.
Proof. apply Qpower_0_lt. reflexivity. Qed.

Lemma pow2_add (a b : Z) : (2 ^ (a + b) == 2 ^ a * 2 ^ b)%Q.
Proof. apply Qpower_plus, two_ne_0. Qed.

Lemma pow2_inject (z : Z) : 0 <= z -> (inject_Z (2 ^ z) == 2 ^ z)%Q.
Proof. intros H. now rewrite Zpower_Qpower. Qed.


Lemma pow2_lt_inv (a b : Z) : (2 ^ a < 2 ^ b)%Q -> a < b.
Proof. intros H. apply (Qpower_lt_compat_l_inv 2); [exact H | reflexivity]. Qed.

Lemma floor_log2_spec (q : Q) :
  (0 < q)%Q -> (2 ^ floor_log2 q <= q)%Q /\ (q < 2 ^ (floor_log2 q + 1))%Q.
Proof.
  intros Hq. destruct q as [n d].
  assert (Hn : 0 < n) by (unfold Qlt in Hq; cbn in Hq; lia).
  unfold floor_log2. cbn [Qnum Qden].
  set (ln := Z.log2 n). set (ld := Z.log2 (Z.pos d)).
  destruct (Z.log2_spec n Hn) as [Hn1 Hn2]. fold ln in Hn1, Hn2.
  destruct (Z.log2_spec (Z.pos d) (Pos2Z.is_pos d)) as [Hd1 Hd2]. fold ld in Hd1, Hd2.
  assert (Hln : 0 <= ln) by apply Z.log2_nonneg.
  assert (Hld : 0 <= ld) by apply Z.log2_nonneg.
  assert (Qd : (0 < inject_Z (Z.pos d))%Q) by reflexivity.
  assert (Hlow : (2 ^ (ln - ld - 1) <= n # d)%Q).
  { rewrite (Qmake_Qdiv n d). apply Qle_shift_div_l; [exact Qd|].
    apply Qle_trans with (2 ^ (ln - ld - 1) * 2 ^ (ld + 1))%Q.
    - apply Qmult_le_l; [apply pow2_pos|].
      rewrite <- pow2_inject by lia. rewrite <- Zle_Qle.
      replace (ld + 1) with (Z.succ ld) by lia. lia.
    - rewrite <- pow2_add. replace (ln - ld - 1 + (ld + 1)) with ln by lia.
      rewrite <- pow2_inject by lia. now rewrite <- Zle_Qle. }
  assert (Hhigh : (n # d < 2 ^ (ln - ld + 1))%Q).
  { rewrite (Qmake_Qdiv n d). apply Qlt_shift_div_r; [exact Qd|].
    apply Qlt_le_trans with (2 ^ (ln - ld + 1) * 2 ^ ld)%Q.
    - rewrite <- pow2_add. replace (ln - ld + 1 + ld) with (Z.succ ln) by lia.
      rewrite <- pow2_inject by lia. now rewrite <- Zlt_Qlt.
    - apply Qmult_le_l; [apply pow2_pos|].
      rewrite <- pow2_inject by lia. now rewrite <- Zle_Qle. }
  destruct (Qle_bool (2 ^ (ln - ld)) (n # d)) eqn:E.
  - apply Qle_bool_iff in E. split; assumption.
  - split; [exact Hlow|].
    replace (ln - ld - 1 + 1) with (ln - ld) by lia.
    apply Qnot_le_lt. intros H. apply Qle_bool_iff in H. congruence.
Qed.



Lemma nearest_even_Z (r : Q) (z : Z) : (r == inject_Z z)%Q -> nearest_even r = z.
Proof.
  intros H. unfold nearest_even.
  assert (F : Qfloor r = z) by (rewrite <- (Qfloor_Z z); now apply Qfloor_comp).
  rewrite F.
  assert (L : (r - inject_Z z ?= 1 # 2)%Q = Lt).
  { apply Qlt_alt.
    setoid_replace (r - inject_Z z)%Q with 0%Q by (rewrite H; ring). reflexivity. }
  now rewrite L.
Qed.


Lemma round_double_value (q : Q) :
  ~ (q == 0)%Q ->
  (round_double q
   == inject_Z (nearest_even (q / 2 ^ ulp_exponent q)) * 2 ^ ulp_exponent q)%Q.
Proof.
  intros H. unfold round_double.
  destruct (Qeq_bool q 0) eqn:E; [apply Qeq_bool_iff in E; contradiction|].
  apply Qred_correct.
Qed.





(** An integer below [2^53] in magnitude is a double. *)
Lemma round_double_int (z : Z) :
  Z.abs z < 2 ^ 53 -> round_double (inject_Z z) = inject_Z z.
Proof.
  intros Hz.
  destruct (Z.eq_dec z 0) as [-> | Hz0]; [reflexivity|].
  assert (Hne : ~ (inject_Z z == 0)%Q).
  { intros H. apply Hz0. unfold Qeq in H. cbn in H. lia. }
  assert (Hval : (round_double (inject_Z z) == inject_Z z)%Q).
  { rewrite (round_double_value _ Hne).
    assert (Ha : (0 < Qabs (inject_Z z))%Q).
    { change (Qabs (inject_Z z)) with (inject_Z (Z.abs z)).
      change 0%Q with (inject_Z 0). rewrite <- Zlt_Qlt. lia. }
    destruct (floor_log2_spec _ Ha) as [L U].
    change (Qabs (inject_Z z)) with (inject_Z (Z.abs z)) in L at 2.
    change (Qabs (inject_Z z)) with (inject_Z (Z.abs z)) in U at 1.
    assert (H0 : 0 <= floor_log2 (Qabs (inject_Z z))).
    { assert (H : -1 < floor_log2 (Qabs (inject_Z z))); [|lia].
      assert (H1 : 0 < floor_log2 (Qabs (inject_Z z)) + 1); [|lia].
      apply pow2_lt_inv. eapply Qle_lt_trans; [|exact U].
      change (2 ^ 0)%Q with (inject_Z 1). rewrite <- Zle_Qle. lia. }
    assert (H53 : floor_log2 (Qabs (inject_Z z)) < 53).
    { apply pow2_lt_inv. eapply Qle_lt_trans; [exact L|].
      rewrite <- pow2_inject by lia. now rewrite <- Zlt_Qlt. }
    assert (Hk : ulp_exponent (inject_Z z) = - (52 - floor_log2 (Qabs (inject_Z z)))).
    { unfold ulp_exponent. lia. }
    rewrite Hk. set (c := 52 - floor_log2 (Qabs (inject_Z z))).
    assert (Hc : 0 <= c) by (unfold c; lia).
    assert (Hq : (inject_Z z / 2 ^ (- c) == inject_Z (z * 2 ^ c))%Q).
    { rewrite Qpower_opp, inject_Z_mult, pow2_inject by exact Hc.
      unfold Qdiv. now rewrite Qinv_involutive. }
    rewrite (nearest_even_Z _ _ Hq).
    rewrite inject_Z_mult, pow2_inject by exact Hc.
    rewrite Qpower_opp. field. apply Qpower_not_0, two_ne_0. }
  unfold round_double in *.
  destruct (Qeq_bool (inject_Z z) 0) eqn:E; [apply Qeq_bool_iff in E; contradiction|].
  cbv zeta in *. rewrite (Qred_complete _ _ (Qeq_trans _ _ _ (Qeq_sym _ _ (Qred_correct _)) Hval)).
  apply Qcanon.Qred_identity. cbn. apply Z.gcd_1_r.
Qed.

End DoubleFacts.

(** ** The redaction helper *)

Module RedactProps.
Import Py Facade Wording.

(** C9, as the specification words it, fails: the empty secret and a
    non-empty secret of at most 6 characters do not redact to one literal. *)
Lemma redact_short_secrets_differ :
  ~ (exists fixed : pystr,
       forall s : pystr, (List.length s <= 6)%nat -> redact (Some s) = fixed).
Proof.
  intros [fixed H].
  pose proof (H [] ltac:(simpl; lia)) as H0.
  pose proof (H (lit "abc") ltac:(simpl; lia)) as H3.
  rewrite <- H3 in H0. discriminate H0.
Qed.

(** C9, amended: [redact] gives ["***"] for the empty secret, the literal
    ["***REDACTED***"] for a secret of 1 to 6 characters, and the first 3
    characters followed by ["...***REDACTED***"] for a longer one; two secrets
    that agree on their first 3 characters and on whether they exceed 6
    characters redact alike, so nothing past the first 3 characters shows. *)
Theorem redact_cases (s : pystr) :
  (s = [] -> redact (Some s) = lit "***") /\
  (s <> [] -> (List.length s <= 6)%nat -> redact (Some s) = lit "***REDACTED***") /\
  ((6 < List.length s)%nat ->
     redact (Some s) = firstn 3 s ++ lit "...***REDACTED***") /\
  (forall s' : pystr,
     firstn 3 s = firstn 3 s' ->
     (List.length s <=? 6)%nat = (List.length s' <=? 6)%nat ->
     redact (Some s) = redact (Some s')).
Proof.
  repeat split.
  - now intros ->.
  - intros Hne Hlen. destruct s as [|c r]; [congruence|].
    unfold redact. apply Nat.leb_le in Hlen. now rewrite Hlen.
  - intros Hlen. destruct s as [|c r]; [simpl in Hlen; lia|].
    unfold redact. apply Nat.leb_gt in Hlen. now rewrite Hlen.
  - intros s' Hpre Hcls.
    destruct s as [|c r], s' as [|c' r']; try discriminate Hpre; [reflexivity|].
    unfold redact. rewrite <- Hcls, Hpre. reflexivity.
Qed.

Lemma redact_cases_witness :
  redact (Some (lit "s3cr3t-key")) = lit "s3c...***REDACTED***" /\
  redact (Some (lit "s3cr3t-key")) = redact (Some (lit "s3c-other-value")).
Proof.
  split.
  - apply (proj1 (proj2 (proj2 (redact_cases (lit "s3cr3t-key"))))).
    simpl. lia.
  - apply (proj2 (proj2 (proj2 (redact_cases (lit "s3cr3t-key"))))).
    + reflexivity.
    + reflexivity.
Defined.

End RedactProps.

(** ** The normalizers *)

Module NormalizerProps.
Import Py Facade Wording PyFacts.

Lemma join_nonempty_parts (a1 a2 : pystr) :
  join (lit " ")
    (filter (fun p : pystr => match p with [] => false | _ => true end) [a1; a2])
  = join_family_names a1 a2.
Proof.
  destruct a1, a2; simpl; try reflexivity.
Qed.

(** C6: for an item whose ["Persona"] is a mapping (or absent, or empty),
    [normalize_alumno] returns a record whose ["Apellidos"] joins the two
    stripped family-name parts with one space, skipping empty parts, and whose
    ["IdPais"] is the territory code up to its first hyphen, the empty string
    when the territory field is absent; on the example of the specification
    it yields IdAlumno "988224", Nombre "Ana", Apellidos "Pérez" and IdPais
    "EC". *)
Theorem normalize_alumno_names_and_country :
  (forall (d pd : pydict),
     py_or (dict_get d (lit "Persona")) (JObj []) = JObj pd ->
     exists out : pydict,
       normalize_alumno (JObj d) = Ok (JObj out) /\
       dict_lookup out (lit "Apellidos") =
         Some (JStr (join_family_names
                       (strip (str (py_or (dict_get pd (lit "Apellido1")) (JStr []))))
                       (strip (str (py_or (dict_get pd (lit "Apellido2")) (JStr [])))))) /\
       dict_lookup out (lit "IdPais") =
         Some (JStr (before_first_hyphen
                       (str (py_or (dict_get pd (lit "IdRefTerritorioDomicilio")) (JStr []))))) /\
       (dict_lookup pd (lit "IdRefTerritorioDomicilio") = None ->
        dict_lookup out (lit "IdPais") = Some (JStr []))) /\
  (exists out : pydict,
     normalize_alumno example_alumno = Ok (JObj out) /\
     dict_lookup out (lit "IdAlumno") = Some (JStr (lit "988224")) /\
     dict_lookup out (lit "Nombre") = Some (JStr (lit "Ana")) /\
     dict_lookup out (lit "Apellidos") = Some (JStr Perez) /\
     dict_lookup out (lit "IdPais") = Some (JStr (lit "EC"))).
Proof.
  split.
  - intros d pd Hp.
    unfold normalize_alumno. cbn [py_get obind]. rewrite Hp. cbn [py_get obind].
    eexists. split; [reflexivity|].
    rewrite join_nonempty_parts.
    assert (Hpais : forall t : pystr,
               match t with [] => [] | _ => hd [] (split_once (lit "-") t) end
               = before_first_hyphen t).
    { intros [|c r]; [reflexivity|]. apply split_once_hyphen_head. }
    rewrite Hpais.
    repeat split; try reflexivity.
    intros Habs. unfold dict_get, dict_get_default. rewrite Habs. reflexivity.
  - eexists. split; [vm_compute; reflexivity|].
    repeat split; vm_compute; reflexivity.
Qed.

Lemma normalize_alumno_names_and_country_witness :
  exists out : pydict,
    normalize_alumno
      (JObj [ (lit "Persona",
               JObj [ (lit "Apellido1", JStr (lit " Reserva "));
                      (lit "Apellido2", JStr (lit "Testpsl")) ]) ]) = Ok (JObj out) /\
    dict_lookup out (lit "Apellidos") = Some (JStr (lit "Reserva Testpsl")) /\
    dict_lookup out (lit "IdPais") = Some (JStr []).
Proof.
  pose (pd := [ (lit "Apellido1", JStr (lit " Reserva "));
                (lit "Apellido2", JStr (lit "Testpsl")) ] : pydict).
  destruct (proj1 normalize_alumno_names_and_country [ (lit "Persona", JObj pd) ] pd)
    as [out [Hrun [Hap [_ Hpais]]]].
  - vm_compute. reflexivity.
  - exists out. split; [exact Hrun|]. split.
    + rewrite Hap. vm_compute. reflexivity.
    + apply Hpais. vm_compute. reflexivity.
Defined.

End NormalizerProps.

(** ** The enrollment filter *)

Module MatriculaProps.
Import Py Facade Wording PyFacts.












Lemma ensure_dict (x : json) :
  exists d : pydict, (if negb (isinstance_dict x) then JObj [] else x) = JObj d.
Proof. destruct x; simpl; eauto. Qed.




End MatriculaProps.

(** ** The token cache *)

Module TokenProps.
Import Py Facade Wording PyFacts.

Lemma Qltb_lt (x y : Q) : Qltb x y = true <-> (x < y)%Q.
Proof.
  unfold Qltb. rewrite negb_true_iff. split; intro H.
  - apply Qnot_le_lt. intro Hle. apply Qle_bool_iff in Hle. congruence.
  - destruct (Qle_bool y x) eqn:E; [|reflexivity].
    apply Qle_bool_iff in E. exfalso. exact (Qlt_not_le _ _ H E).
Qed.

Section Runs.

Variable cfg : config.
Variable W : world.

(** [_token_is_valid], run from [s]: no clock reading without a token. *)
Lemma token_is_valid_run (s : state) :
  _token_is_valid W s =
  if is_none (_access_token s) then (Ok false, s)
  else (Ok (Qltb (clock W (trace s)) (_token_expiry_epoch s)),
        record (EvTime (clock W (trace s))) s).
Proof.
  unfold _token_is_valid, bind, get_access_token.
  destruct (is_none (_access_token s)); reflexivity.
Qed.

(** [_fetch_token], run from [s]: one POST; on an accepted answer, the clock
    reading that dates the token, both cache writes, and one more reading. *)
Lemma fetch_token_run (s : state) :
  _fetch_token cfg W s =
  let rs := network W (trace s) (token_request cfg) in
  let s1 := record (EvPost (token_request cfg) rs) s in
  match token_response_check rs with
  | Raise e => (Raise e, s1)
  | Ok (tok, expires_in) =>
      let now := clock W (trace s1) in
      let s2 := record (EvTime now) s1 in
      match float_of_int (Z.max 0 (expires_in - TOKEN_SAFETY_SECONDS cfg)) with
      | Raise e => (Raise e, s2)
      | Ok margin =>
          (Ok tok,
           {| _access_token := tok;
              _token_expiry_epoch := fadd now margin;
              trace := trace s2 ++ [EvTime (clock W (trace s2))] |})
      end
  end.
Proof.
  unfold _fetch_token, token_response_check, bind, client_post, token_request.
  cbv zeta.
  destruct (network W (trace s) _) as [r|]; [|reflexivity].
  destruct ((status_code r <? 200) || (300 <=? status_code r)); [reflexivity|].
  unfold lift. destruct (r_json r) as [j|e]; [|reflexivity]. cbn [obind].
  destruct (py_get j (lit "access_token")) as [tok|e]; [|reflexivity]. cbn [obind].
  destruct (py_get_default j (lit "expires_in") (JInt 0)) as [ev|e]; [|reflexivity].
  cbn [obind].
  destruct (int_of_json ev) as [n|e]; [|reflexivity]. cbn [obind].
  destruct (negb (truthy tok) || (n <=? 0)); [reflexivity|].
  unfold time_time. cbv beta zeta.
  destruct (float_of_int (Z.max 0 (n - TOKEN_SAFETY_SECONDS cfg))); reflexivity.
Qed.

(** [get_token], run from [s]. *)
Lemma get_token_run (s : state) :
  get_token cfg W s =
  let forget s0 :=
    {| _access_token := JNull;
       _token_expiry_epoch := _token_expiry_epoch s0;
       trace := trace s0 |} in
  if is_none (_access_token s) then _fetch_token cfg W (forget s)
  else
    let s1 := record (EvTime (clock W (trace s))) s in
    if Qltb (clock W (trace s)) (_token_expiry_epoch s) then (Ok (_access_token s), s1)
    else
      let s2 := record (EvTime (clock W (trace s1))) s1 in
      if Qltb (clock W (trace s1)) (_token_expiry_epoch s) then (Ok (_access_token s), s2)
      else _fetch_token cfg W (forget s2).
Proof.
  unfold get_token, bind. rewrite token_is_valid_run.
  destruct (is_none (_access_token s)) eqn:N.
  - rewrite token_is_valid_run, N. reflexivity.
  - cbv zeta.
    destruct (Qltb (clock W (trace s)) (_token_expiry_epoch s)); [reflexivity|].
    rewrite token_is_valid_run. cbn [record _access_token _token_expiry_epoch trace].
    rewrite N.
    destruct (Qltb _ (_token_expiry_epoch s)); reflexivity.
Qed.

Lemma data_posts_app (a b : list io_event) :
  data_posts (a ++ b) = data_posts a ++ data_posts b.
Proof.
  induction a as [|[t|rq rs] a IH]; simpl; auto.
  destruct (is_data_request rq); simpl; now rewrite IH.
Qed.

Lemma token_posts_app (a b : list io_event) :
  token_posts (a ++ b) = token_posts a ++ token_posts b.
Proof.
  induction a as [|[t|rq rs] a IH]; simpl; auto.
  destruct (is_data_request rq); simpl; now rewrite IH.
Qed.

(** A fetch adds its own events to the trace, none of them a data POST. *)
Lemma fetch_token_events (s : state) :
  exists ev : list io_event,
    trace (snd (_fetch_token cfg W s)) = trace s ++ ev /\ data_posts ev = [].
Proof.
  rewrite fetch_token_run. cbv zeta.
  destruct (token_response_check _) as [[tok n]|e]; [destruct (float_of_int _)|];
    cbn [snd trace record]; eexists; rewrite <- ?app_assoc; split; reflexivity.
Qed.

Lemma get_token_events (s : state) :
  exists ev : list io_event,
    trace (snd (get_token cfg W s)) = trace s ++ ev /\ data_posts ev = [].
Proof.
  rewrite get_token_run. cbv zeta.
  destruct (is_none (_access_token s)).
  - apply (fetch_token_events
             {| _access_token := JNull;
                _token_expiry_epoch := _token_expiry_epoch s;
                trace := trace s |}).
  - destruct (Qltb _ _).
    + eexists. split; reflexivity.
    + destruct (Qltb _ _).
      * eexists. cbn [snd trace record]. rewrite <- app_assoc. split; reflexivity.
      * match goal with |- context [_fetch_token cfg W ?s0] =>
          destruct (fetch_token_events s0) as [ev [Hev Hd]] end.
        rewrite Hev. cbn [trace record].
        eexists. split; [rewrite <- !app_assoc; reflexivity|]. exact Hd.
Qed.

(** A fetch that fails writes neither the token nor the expiry. *)
Lemma fetch_token_failure_keeps_cache (s s' : state) (e : exn) :
  _fetch_token cfg W s = (Raise e, s') ->
  _access_token s' = _access_token s /\
  _token_expiry_epoch s' = _token_expiry_epoch s.
Proof.
  rewrite fetch_token_run. cbv zeta.
  destruct (token_response_check _) as [[tok n]|e0]; [destruct (float_of_int _)|];
    intros H; try discriminate H; injection H as _ <-; split; reflexivity.
Qed.

(** A fetch that succeeds stores the token it returns. *)
Lemma fetch_token_success_stores_token (s s' : state) (tok : json) :
  _fetch_token cfg W s = (Ok tok, s') ->
  _access_token s' = tok /\ truthy tok = true.
Proof.
  rewrite fetch_token_run. cbv zeta.
  destruct (token_response_check _) as [[tok0 n]|e0] eqn:C; [|intros H; discriminate H].
  destruct (float_of_int _); intros H; [|discriminate H].
  injection H as <- <-. split; [reflexivity|].
  unfold token_response_check in C.
  destruct (network W (trace s) (token_request cfg)) as [r|]; [|discriminate C].
  destruct ((status_code r <? 200) || (300 <=? status_code r)); [discriminate C|].
  destruct (r_json r) as [j|]; [|discriminate C]. cbn [obind] in C.
  destruct (py_get j (lit "access_token")) as [t|]; [|discriminate C]. cbn [obind] in C.
  destruct (py_get_default j (lit "expires_in") (JInt 0)) as [v|]; [|discriminate C].
  cbn [obind] in C.
  destruct (int_of_json v) as [m|]; [|discriminate C]. cbn [obind] in C.
  destruct (truthy t) eqn:T; [|discriminate C]. cbn [negb orb] in C.
  destruct (m <=? 0); [discriminate C|]. now injection C as <- _.
Qed.

End Runs.

End TokenProps.

(** ** Claims on the token manager *)

Module TokenClaims.
Import Py Facade Wording PyFacts TokenProps.

(** C2: while the cached token is valid (a token is present and the clock
    reads strictly before the expiry), [get_token] returns exactly the cached
    value, reads the clock once and posts nothing, and leaves token and expiry
    as they were; any number of callers served one after the other in that
    state all receive that same value, with no POST at all. *)
Theorem get_token_valid_cache (cfg : config) (W : world) (s : state) :
  _access_token s <> JNull ->
  ((clock W (trace s) < _token_expiry_epoch s)%Q ->
   exists s' : state,
     get_token cfg W s = (Ok (_access_token s), s') /\
     _access_token s' = _access_token s /\
     _token_expiry_epoch s' = _token_expiry_epoch s /\
     trace s' = trace s ++ [EvTime (clock W (trace s))]) /\
  ((forall tr, (clock W tr < _token_expiry_epoch s)%Q) ->
   forall n : nat,
   exists s' : state,
     get_token_callers cfg W n s = (Ok (repeat (_access_token s) n), s') /\
     _access_token s' = _access_token s /\
     _token_expiry_epoch s' = _token_expiry_epoch s /\
     token_posts (trace s') = token_posts (trace s) /\
     data_posts (trace s') = data_posts (trace s)).
Proof.
  intros Htok.
  assert (Hone : forall s0 : state,
             _access_token s0 <> JNull ->
             (clock W (trace s0) < _token_expiry_epoch s0)%Q ->
             get_token cfg W s0 =
             (Ok (_access_token s0), record (EvTime (clock W (trace s0))) s0)).
  { intros s0 H0 Hlt. rewrite get_token_run. cbv zeta.
    destruct (is_none (_access_token s0)) eqn:N.
    - destruct (_access_token s0); try discriminate N. now elim H0.
    - apply Qltb_lt in Hlt. now rewrite Hlt. }
  split.
  - intros Hlt. eexists. split; [apply Hone; assumption|].
    repeat split; reflexivity.
  - intros Hclock n. revert s Htok Hclock.
    induction n as [|n IH]; intros s Htok Hclock.
    + exists s. repeat split; reflexivity.
    + cbn [get_token_callers]. unfold bind at 1.
      rewrite (Hone s Htok (Hclock _)).
      destruct (IH (record (EvTime (clock W (trace s))) s) Htok Hclock)
        as [s' [Hrun [Ht [He [Htp Hdp]]]]].
      exists s'. unfold bind at 1. rewrite Hrun.
      cbn [record _access_token _token_expiry_epoch trace] in *.
      split; [reflexivity|]. split; [exact Ht|]. split; [exact He|].
      rewrite token_posts_app in Htp. rewrite data_posts_app in Hdp.
      simpl in Htp, Hdp. rewrite app_nil_r in Htp, Hdp. now split.
Qed.

Lemma get_token_valid_cache_witness :
  let W := scripted_world 1000 [] [] in
  let s := {| _access_token := JStr (lit "tok-1");
              _token_expiry_epoch := 2139%Q;
              trace := [] |} in
  exists s' : state,
    get_token example_config W s = (Ok (JStr (lit "tok-1")), s') /\
    _access_token s' = JStr (lit "tok-1") /\
    _token_expiry_epoch s' = 2139%Q /\
    trace s' = [EvTime 1000%Q].
Proof.
  intros W s.
  destruct (proj1 (get_token_valid_cache example_config W s
                     ltac:(discriminate)))
    as [s' H].
  - vm_compute. reflexivity.
  - exists s'. exact H.
Defined.



(** C3 (the code departs from the claim): a 2xx answer that carries no access
    token and an [expires_in] that is not a number does not end in the gateway
    error "Token response invalid": [int()] raises [ValueError] before the
    check, and the framework answers 500.  A 2xx answer whose text is not
    JSON ends the same way, in [r.json()].  The cache is left as it was. *)
Theorem fetch_token_malformed_expires_in :
  let answer := json_response 200 (JObj [ (lit "expires_in", JStr (lit "soon")) ]) in
  let not_json := {| status_code := 200; json_body := None |} in
  let run := _fetch_token example_config (scripted_world 1000 [answer] []) initial_state in
  let run' := _fetch_token example_config (scripted_world 1000 [not_json] []) initial_state in
  is_2xx (status_code answer) = true /\
  option_map (fun j => py_get j (lit "access_token")) (json_body answer) = Some (Ok JNull) /\
  fst run = Raise ValueError /\
  http_status (Raise ValueError) = 500 /\
  fst run' = Raise JSONDecodeError /\
  http_status (Raise JSONDecodeError) = 500 /\
  _access_token (snd run) = JNull /\
  _access_token (snd run') = JNull.
Proof.
  vm_compute. repeat split; reflexivity.
Qed.

End TokenClaims.

(** ** The authenticated call *)

Module CallClaims.
Import Py Facade Wording PyFacts TokenProps.

(** C1, as the specification words it, fails: a first answer of 401 is not
    always followed by a retry.  When the token request made for the retry is
    itself refused, the call ends with that error after a single data POST,
    although the upstream would have answered the retry. *)
Lemma erp_post_json_refetch_refused :
  let W := scripted_world 1000
             [ token_response (lit "tok-1") 1199;
               json_response 500 (JObj [ (lit "error", JStr (lit "unavailable")) ]) ]
             [ json_response 401 (JObj [ (lit "detail", JStr (lit "Token expired")) ]);
               json_response 200 (JList [example_alumno]) ] in
  let run := erp_post_json example_config W (lit "/alumnos/search-list")
               (alumnos_payload 988224 10) true true initial_state in
  map (fun p => option_map status_code (snd p)) (data_posts (trace (snd run))) = [Some 401] /\
  map (fun p => option_map status_code (snd p)) (token_posts (trace (snd run)))
    = [Some 200; Some 500] /\
  fst run = Raise (HTTPException 502 (lit "Token request failed (500)")).
Proof.
  vm_compute. repeat split; reflexivity.
Qed.

(** C1, amended: when the first data POST of [erp_post_json] (called with its
    default [retry_on_401]) is answered 401, the very next event is one token
    request, made whatever the cache holds, and no other token request
    follows; if that request yields a token, the POST is retried exactly once,
    with the new token in its [Authorization] header, and if it fails, its
    error ends the call without a retry.  With a second answer in, no third
    data POST is made: a 2xx second answer gives its parsed body as the
    result, a second 401 gives the gateway error "ERP call failed (401)". *)
Theorem erp_post_json_retry_once
  (cfg : config) (W : world) (path : pystr) (payload : json) (accept_json : bool)
  (s s' : state) (res : outcome json) :
  erp_post_json cfg W path payload accept_json true s = (res, s') ->
  exists ev : list io_event,
    trace s' = trace s ++ ev /\
    forall rq1 r1 rest,
      data_posts ev = (rq1, Some r1) :: rest ->
      status_code r1 = 401 ->
      (exists before rsf after,
         ev = before ++ EvPost rq1 (Some r1) :: EvPost (token_request cfg) rsf :: after /\
         data_posts before = [] /\
         token_posts after = [] /\
         match accepted_token cfg rsf with
         | Ok (token2, _) => exists rs2, rest = [(retried_request rq1 token2, rs2)]
         | Raise e => rest = [] /\ res = Raise e
         end) /\
      (forall rq2 r2 rest',
         rest = (rq2, Some r2) :: rest' ->
         rest' = [] /\
         (is_2xx (status_code r2) = true ->
          forall b, json_body r2 = Some b -> res = Ok b) /\
         (status_code r2 = 401 ->
          res = Raise (HTTPException 502 (lit "ERP call failed (401)")))).
Proof.
  unfold erp_post_json, bind. cbv zeta.
  destruct (get_token_events cfg W s) as [ev0 [Hev0 Hd0]].
  destruct (get_token cfg W s) as [[tok|e] s1]; cbn [snd] in Hev0.
  2: { intros H. injection H as <- <-. exists ev0. split; [exact Hev0|].
       intros rq1 r1 rest Hdp. rewrite Hd0 in Hdp. discriminate Hdp. }
  set (url := rstrip_chars (lit "/") (ERP_API_BASE cfg) ++ lit "/" ++ lstrip_chars (lit "/") path).
  set (headers := if accept_json then _ else _).
  unfold client_post. cbv beta zeta.
  set (rq1 := {| req_url := url; req_body := JsonBody payload; req_headers := headers |}).
  assert (Hdata : forall (rq : request) (rs : option response),
             is_data_request rq = true ->
             data_posts (ev0 ++ [EvPost rq rs]) = [(rq, rs)]).
  { intros rq rs Hrq. rewrite data_posts_app, Hd0. simpl. now rewrite Hrq. }
  destruct (network W (trace s1) rq1) as [r1|] eqn:N1.
  2: { intros H. injection H as <- <-. exists (ev0 ++ [EvPost rq1 None]). split.
       - cbn [record trace]. now rewrite Hev0, app_assoc.
       - intros rqa ra rest Hdp. rewrite Hdata in Hdp by reflexivity. discriminate Hdp. }
  destruct (status_code r1 =? 401) eqn:E401; cbn [andb].
  2: { intros H.
       assert (Hs : s' = record (EvPost rq1 (Some r1)) s1).
       { unfold ret, raise, lift in H.
         destruct ((status_code r1 <? 200) || (300 <=? status_code r1));
           now injection H as _ <-. }
       exists (ev0 ++ [EvPost rq1 (Some r1)]). split.
       - subst s'. cbn [record trace]. now rewrite Hev0, app_assoc.
       - intros rqa ra rest Hdp Hst. rewrite Hdata in Hdp by reflexivity.
         injection Hdp as <- <- <-. apply Z.eqb_neq in E401. contradiction. }
  rewrite fetch_token_run. cbv zeta.
  set (s2 := record (EvPost rq1 (Some r1)) s1).
  set (rsf := network W (trace s2) (token_request cfg)).
  set (now := clock W (trace (record (EvPost (token_request cfg) rsf) s2))).
  assert (Hfail : forall (e : exn) (after : list io_event),
             accepted_token cfg rsf = Raise e ->
             data_posts after = [] -> token_posts after = [] ->
             trace s' = trace s1 ++ [EvPost rq1 (Some r1)]
                          ++ [EvPost (token_request cfg) rsf] ++ after ->
             res = Raise e ->
             exists ev : list io_event,
               trace s' = trace s ++ ev /\
               forall rq1 r1 rest,
                 data_posts ev = (rq1, Some r1) :: rest ->
                 status_code r1 = 401 ->
                 (exists before rsf after,
                    ev = before ++ EvPost rq1 (Some r1)
                           :: EvPost (token_request cfg) rsf :: after /\
                    data_posts before = [] /\
                    token_posts after = [] /\
                    match accepted_token cfg rsf with
                    | Ok (token2, _) =>
                        exists rs2, rest = [(retried_request rq1 token2, rs2)]
                    | Raise e => rest = [] /\ res = Raise e
                    end) /\
                 (forall rq2 r2 rest',
                    rest = (rq2, Some r2) :: rest' ->
                    rest' = [] /\
                    (is_2xx (status_code r2) = true ->
                     forall b, json_body r2 = Some b -> res = Ok b) /\
                    (status_code r2 = 401 ->
                     res = Raise (HTTPException 502 (lit "ERP call failed (401)"))))).
  { intros e after Hacc Hda Hta Htr Hres.
    exists (ev0 ++ [EvPost rq1 (Some r1)] ++ [EvPost (token_request cfg) rsf] ++ after).
    split; [rewrite Htr, Hev0; now rewrite <- app_assoc|].
    intros rqa ra rest Hdp Hst.
    rewrite app_assoc, data_posts_app, Hdata in Hdp by reflexivity.
    cbn [data_posts app is_data_request token_request req_body] in Hdp.
    rewrite Hda in Hdp. injection Hdp as <- <- <-. split.
    - exists ev0, rsf, after. rewrite Hacc. repeat split; auto.
    - intros rq2 r2 rest' Hrest. discriminate Hrest. }
  unfold accepted_token in Hfail.
  destruct (token_response_check rsf) as [[token2 n]|e] eqn:C.
  2: { intros H. injection H as <- <-.
       apply (Hfail e []); try reflexivity.
       cbn [record trace s2]. rewrite <- !app_assoc. reflexivity. }
  cbn [obind fst snd] in Hfail.
  destruct (float_of_int (Z.max 0 (n - TOKEN_SAFETY_SECONDS cfg))) as [margin|e] eqn:F.
  2: { intros H. injection H as <- <-.
       apply (Hfail e [EvTime now]); try reflexivity.
       cbn [record trace s2]. rewrite <- !app_assoc. reflexivity. }
  clear Hfail.
  unfold get_access_token. cbn [_access_token].
  set (now' := clock W _).
  set (rq2 := {| req_url := url;
                 req_body := JsonBody payload;
                 req_headers :=
                   dict_set headers (lit "Authorization") (lit "Bearer " ++ str token2) |}).
  cbn [trace].
  set (rs2 := network W _ rq2).
  set (after := [EvTime now; EvTime now'; EvPost rq2 rs2]).
  set (ev := ev0 ++ [EvPost rq1 (Some r1)] ++ [EvPost (token_request cfg) rsf] ++ after).
  assert (Hdp : data_posts ev = [(rq1, Some r1); (rq2, rs2)]).
  { unfold ev. rewrite app_assoc, data_posts_app, Hdata by reflexivity. reflexivity. }
  intros H.
  assert (Hs : trace s' = trace s ++ ev).
  { assert (Hs : trace s' = trace s1 ++ [EvPost rq1 (Some r1)]
                   ++ [EvPost (token_request cfg) rsf] ++ after).
    { unfold raise, lift in H.
      destruct rs2 as [r2|];
        [destruct ((status_code r2 <? 200) || (300 <=? status_code r2))|];
        injection H as _ <-; cbn [record trace s2]; rewrite <- !app_assoc; reflexivity. }
    rewrite Hs, Hev0. unfold ev. now rewrite <- app_assoc. }
  exists ev. split; [exact Hs|].
  intros rqa ra rest Hdp' Hst. rewrite Hdp in Hdp'. injection Hdp' as <- <- <-. split.
  - exists ev0, rsf, after. unfold accepted_token. rewrite C. cbn [obind fst snd].
    rewrite F. repeat split; auto.
    exists rs2. reflexivity.
  - intros rqb r2 rest' Hrest. injection Hrest as <- Hrs <-.
    split; [reflexivity|].
    rewrite Hrs in H. unfold raise, lift in H. split.
    + intros H2xx b Hb. unfold is_2xx in H2xx.
      apply andb_true_iff in H2xx as [Hlo Hhi].
      apply Z.leb_le in Hlo. apply Z.ltb_lt in Hhi.
      replace ((status_code r2 <? 200) || (300 <=? status_code r2)) with false in H.
      * unfold r_json in H. rewrite Hb in H. now injection H as <- _.
      * symmetry. apply orb_false_iff. split; [apply Z.ltb_ge | apply Z.leb_gt]; lia.
    + intros H401. rewrite H401 in H. now injection H as <- _.
Qed.

Lemma erp_post_json_retry_once_witness :
  let W := scripted_world 1000
             [ token_response (lit "tok-1") 1199; token_response (lit "tok-2") 1199 ]
             [ json_response 401 (JObj [ (lit "detail", JStr (lit "Token expired")) ]);
               json_response 200 (JList [example_alumno]) ] in
  fst (erp_post_json example_config W (lit "/alumnos/search-list")
         (alumnos_payload 988224 10) true true initial_state)
  = Ok (JList [example_alumno]).
Proof.
  intros W.
  pose (run := erp_post_json example_config W (lit "/alumnos/search-list")
                 (alumnos_payload 988224 10) true true initial_state).
  assert (Hrun : run = (fst run, snd run)) by (vm_compute; reflexivity).
  destruct (erp_post_json_retry_once example_config W (lit "/alumnos/search-list")
              (alumnos_payload 988224 10) true initial_state (snd run) (fst run) Hrun)
    as [ev [Htr H]].
  change (trace initial_state ++ ev) with ev in Htr. subst ev.
  edestruct H as [_ H2]; [vm_compute; reflexivity | reflexivity |].
  edestruct H2 as [_ [Hok _]]; [reflexivity|].
  apply Hok; reflexivity.
Defined.

End CallClaims.

(** ** The handlers *)

Module HandlerClaims.
Import Py Facade Wording PyFacts MatriculaProps.



(** C7, as the specification words it, fails: with a numeric id and an
    upstream answer that is a non-empty list, the handler need not return a
    normalized record; a first item that is not an object is answered 502. *)
Lemma aic_alumnos_non_object_item :
  let W := scripted_world 1000 [ token_response (lit "tok-1") 1199 ]
             [ json_response 200 (JList [JInt 5]) ] in
  isdigit (strip (lit "988224")) = true /\
  fst (erp_post_json example_config W (lit "/alumnos/search-list")
         (alumnos_payload 988224 10) true true initial_state) = Ok (JList [JInt 5]) /\
  fst (aic_alumnos example_config W (lit "988224") 10 initial_state)
    = Raise (HTTPException 502 (lit "Unexpected alumnos response format")) /\
  http_status (fst (aic_alumnos example_config W (lit "988224") 10 initial_state)) = 502.
Proof.
  vm_compute. repeat split; reflexivity.
Qed.

(** C7, amended: if the stripped [idAlumno] is not a digit string the handler
    fails with status 400 and calls nothing; if the id converts to an integer
    and the upstream call returns a body that is an empty list, or no list at
    all, it answers 404 with [{"detail": "Alumno not found"}]; if the body is
    a non-empty list whose first item is not an object it fails with status
    502; and if the first item is an object that the normalizer accepts it
    returns that item's normalized record. *)
Theorem aic_alumnos_outcomes
  (cfg : config) (W : world) (idAlumno : pystr) (itemsPerPage : Z) (s : state) :
  (isdigit (strip idAlumno) = false ->
   aic_alumnos cfg W idAlumno itemsPerPage s
     = (Raise (HTTPException 400 (lit "idAlumno must be a numeric string")), s)) /\
  (forall (id : Z) (data : json) (s' : state),
     isdigit (strip idAlumno) = true ->
     int_of_str (strip idAlumno) = Some id ->
     erp_post_json cfg W (lit "/alumnos/search-list")
       (alumnos_payload id itemsPerPage) true true s = (Ok data, s') ->
     (data = JList [] \/ isinstance_list data = false ->
      aic_alumnos cfg W idAlumno itemsPerPage s
        = (Ok (JSONResponse 404 (JObj [ (lit "detail", JStr (lit "Alumno not found")) ])),
           s')) /\
     (forall (item : json) (rest : list json),
        data = JList (item :: rest) ->
        isinstance_dict item = false ->
        aic_alumnos cfg W idAlumno itemsPerPage s
          = (Raise (HTTPException 502 (lit "Unexpected alumnos response format")), s')) /\
     (forall (item : json) (rest : list json) (r : json),
        data = JList (item :: rest) ->
        isinstance_dict item = true ->
        normalize_alumno item = Ok r ->
        aic_alumnos cfg W idAlumno itemsPerPage s = (Ok (Body r), s'))).
Proof.
  split.
  - intros Hnd. unfold aic_alumnos. cbv zeta. rewrite Hnd. reflexivity.
  - intros id data s' Hd Hid Hcall.
    assert (Hrun : aic_alumnos cfg W idAlumno itemsPerPage s =
                   match data with
                   | JList (item :: _) =>
                       if negb (isinstance_dict item) then
                         (Raise (HTTPException 502
                                   (lit "Unexpected alumnos response format")), s')
                       else
                         match normalize_alumno item with
                         | Ok r => (Ok (Body r), s')
                         | Raise e => (Raise e, s')
                         end
                   | _ =>
                       (Ok (JSONResponse 404
                              (JObj [ (lit "detail", JStr (lit "Alumno not found")) ])),
                        s')
                   end).
    { unfold aic_alumnos. cbv zeta. rewrite Hd. cbn [negb].
      unfold bind, lift, int_of_pystr. rewrite Hid, Hcall.
      destruct data as [| | | | |[|item l]|]; try reflexivity.
      destruct (negb (isinstance_dict item)); [reflexivity|].
      destruct (normalize_alumno item); reflexivity. }
    rewrite Hrun. repeat split.
    + intros [-> | Hnl]; [reflexivity|].
      destruct data as [| | | | |l|]; try reflexivity. discriminate Hnl.
    + intros item rest -> Hni. now rewrite Hni.
    + intros item rest r -> Hi Hr. now rewrite Hi, Hr.
Qed.

Lemma aic_alumnos_outcomes_witness :
  let W := scripted_world 1000 [ token_response (lit "tok-1") 1199 ]
             [ json_response 200 (JList [example_alumno]) ] in
  fst (aic_alumnos example_config W (lit "abc") 10 initial_state)
    = Raise (HTTPException 400 (lit "idAlumno must be a numeric string")) /\
  exists r : json,
    normalize_alumno example_alumno = Ok r /\
    fst (aic_alumnos example_config W (lit "988224") 10 initial_state) = Ok (Body r).
Proof.
  intros W. split.
  - rewrite (proj1 (aic_alumnos_outcomes example_config W (lit "abc") 10 initial_state));
      reflexivity.
  - pose (run := erp_post_json example_config W (lit "/alumnos/search-list")
                   (alumnos_payload 988224 10) true true initial_state).
    destruct (normalize_alumno example_alumno) as [r|e] eqn:Hn;
      [|vm_compute in Hn; discriminate Hn].
    exists r. split; [reflexivity|].
    destruct (proj2 (aic_alumnos_outcomes example_config W (lit "988224") 10 initial_state)
                988224 (JList [example_alumno]) (snd run))
      as [_ [_ Hrec]].
    + reflexivity.
    + reflexivity.
    + vm_compute. reflexivity.
    + rewrite (Hrec example_alumno [] r eq_refl eq_refl Hn). reflexivity.
Defined.

(** C8 (the code departs from the claim): [aic_matriculas] does not check
    that the id is numeric; for the id "abc", given as [idAlumno] or through
    the deprecated [alumnoId], [int()] raises [ValueError] before any upstream
    call, and the framework answers 500, not a client error. *)
Theorem aic_matriculas_non_numeric_id
  (cfg : config) (W : world) (s : state) (onlyActive : bool)
  (itemsPerPage pageIndex : Z) (alumnoId : option pystr) :
  aic_matriculas cfg W (lit "abc") onlyActive itemsPerPage pageIndex alumnoId s
    = (Raise ValueError, s) /\
  aic_matriculas cfg W [] onlyActive itemsPerPage pageIndex (Some (lit "abc")) s
    = (Raise ValueError, s) /\
  http_status (Raise ValueError) = 500 /\
  aic_alumnos cfg W (lit "abc") itemsPerPage s
    = (Raise (HTTPException 400 (lit "idAlumno must be a numeric string")), s).
Proof.
  repeat split.
Qed.

End HandlerClaims.

(** ** The mock upstream's pagination *)

Module MockClaims.
Import Py Mock.

(** C10: [_get_page_params] is total; the page index is the integer value of
    the extracted field forced to at least 1, and 1 when the field has no
    integer value; the page size is the integer value of the extracted field,
    replaced by 10 when below 1 or without integer value, and by 500 when
    above 500; [_paginate] returns the slice from [(page_index - 1) *
    items_per_page] to [page_index * items_per_page], which for such
    parameters is the [items_per_page] items after the first [(page_index -
    1) * items_per_page], and is empty when the page lies past the end. *)
Theorem pagination_total_and_clamped (payload : pydict) :
  let page_field :=
    dict_get_default payload (lit "PageIndex")
      (dict_get_default payload (lit "pageIndex") (JInt 1)) in
  let size_field :=
    dict_get_default payload (lit "ItemsPerPage")
      (dict_get_default payload (lit "itemsPerPage") (JInt 10)) in
  let page_index := fst (_get_page_params payload) in
  let items_per_page := snd (_get_page_params payload) in
  page_index = match int_of_json page_field with
               | Ok z => Z.max 1 z
               | Raise _ => 1
               end /\
  items_per_page = match int_of_json size_field with
                   | Ok z => if z <? 1 then 10 else Z.min z 500
                   | Raise _ => 10
                   end /\
  1 <= page_index /\
  1 <= items_per_page <= 500 /\
  forall (A : Type) (items : list A),
    _paginate items page_index items_per_page
      = py_slice items ((page_index - 1) * items_per_page) (page_index * items_per_page) /\
    _paginate items page_index items_per_page
      = firstn (Z.to_nat items_per_page)
          (skipn (Z.to_nat ((page_index - 1) * items_per_page)) items) /\
    (Z.of_nat (List.length items) <= (page_index - 1) * items_per_page ->
     _paginate items page_index items_per_page = []).
Proof.
  cbv zeta. unfold _get_page_params. cbv zeta. cbn [fst snd].
  set (pv := int_of_json (dict_get_default payload (lit "PageIndex") _)).
  set (sv := int_of_json (dict_get_default payload (lit "ItemsPerPage") _)).
  set (p := if or_default pv 1 <? 1 then 1 else or_default pv 1).
  set (n0 := if or_default sv 10 <? 1 then 10 else or_default sv 10).
  set (n := if n0 >? 500 then 500 else n0).
  assert (Hp : p = match pv with Ok z => Z.max 1 z | Raise _ => 1 end).
  { unfold p. destruct pv as [z|e]; cbn [or_default]; [|reflexivity].
    destruct (z <? 1) eqn:E; [apply Z.ltb_lt in E | apply Z.ltb_ge in E]; lia. }
  assert (Hn : n = match sv with
                   | Ok z => if z <? 1 then 10 else Z.min z 500
                   | Raise _ => 10
                   end).
  { unfold n, n0. destruct sv as [z|e]; cbn [or_default]; [|reflexivity].
    destruct (z <? 1) eqn:E; [reflexivity|]. apply Z.ltb_ge in E.
    rewrite Z.gtb_ltb.
    destruct (500 <? z) eqn:E5; [apply Z.ltb_lt in E5 | apply Z.ltb_ge in E5]; lia. }
  assert (Hp1 : 1 <= p) by (rewrite Hp; destruct pv; lia).
  assert (Hn1 : 1 <= n <= 500).
  { rewrite Hn. destruct sv as [z|e]; [|lia].
    destruct (z <? 1) eqn:E; [lia|]. apply Z.ltb_ge in E. lia. }
  repeat split; try assumption; try lia.
  - unfold _paginate. cbv zeta. f_equal. ring.
  - unfold _paginate, py_slice, slice_bound. cbv zeta.
    set (len := Z.of_nat (List.length items)).
    assert (0 <= len) by (unfold len; lia).
    assert (0 <= (p - 1) * n) by nia.
    destruct ((p - 1) * n <? 0) eqn:E0; [apply Z.ltb_lt in E0; lia|].
    destruct ((p - 1) * n + n <? 0) eqn:E1; [apply Z.ltb_lt in E1; lia|].
    destruct (Z.le_gt_cases len ((p - 1) * n)) as [Hpast | Hin].
    + rewrite !Z.min_r by lia. rewrite Z.sub_diag.
      rewrite !skipn_all2 by (unfold len in *; lia).
      now rewrite !firstn_nil.
    + rewrite (Z.min_l ((p - 1) * n) len) by lia.
      destruct (Z.le_gt_cases ((p - 1) * n + n) len) as [Hfull | Hshort].
      * rewrite Z.min_l by lia. f_equal. lia.
      * rewrite Z.min_r by lia.
        rewrite !firstn_all2; [reflexivity | |]; rewrite length_skipn; unfold len in *; lia.
  - intros Hpast. unfold _paginate, py_slice, slice_bound. cbv zeta.
    set (len := Z.of_nat (List.length items)) in *.
    assert (0 <= (p - 1) * n) by nia.
    destruct ((p - 1) * n <? 0) eqn:E0; [apply Z.ltb_lt in E0; lia|].
    destruct ((p - 1) * n + n <? 0) eqn:E1; [apply Z.ltb_lt in E1; lia|].
    rewrite !Z.min_r by lia. rewrite Z.sub_diag. reflexivity.
Qed.

Lemma pagination_total_and_clamped_witness :
  _get_page_params [ (lit "PageIndex", JInt 9); (lit "ItemsPerPage", JInt 0) ] = (9, 10) /\
  _paginate [1; 2; 3] 9 10 = [].
Proof.
  pose (payload := [ (lit "PageIndex", JInt 9); (lit "ItemsPerPage", JInt 0) ] : pydict).
  destruct (pagination_total_and_clamped payload) as [Hp [Hn [_ [_ Hpag]]]].
  split.
  - change (_get_page_params payload = (9, 10)).
    rewrite (surjective_pairing (_get_page_params payload)), Hp, Hn. reflexivity.
  - destruct (Hpag Z [1; 2; 3]) as [_ [_ Hpast]].
    assert (Hpn : _get_page_params payload = (9, 10)) by reflexivity.
    rewrite Hpn in Hpast. apply Hpast. simpl. lia.
Defined.

End MockClaims.

(** * Further properties of the facade *)

(** ** Configuration *)

Module ConfigProps.
Import Py Facade Wording Vocabulary PyFacts.

(** X1: Startup fails fast: [load_config] raises for the first of the six
    required variables, in the order of the module, that is unset or empty,
    naming it; when all six are set it succeeds with exactly their values,
    whatever the optional variables hold. *)
Theorem load_config_fail_fast (env : environ) :
  match find (fun name => negb (is_set env name)) required_vars with
  | Some name =>
      load_config env = Raise (RuntimeError (lit "Missing required env var: " ++ name))
  | None =>
      exists cfg : config,
        load_config env = Ok cfg /\
        env (lit "ERP_TOKEN_URL") = Some (ERP_TOKEN_URL cfg) /\
        env (lit "ERP_API_BASE") = Some (ERP_API_BASE cfg) /\
        env (lit "ERP_USERNAME") = Some (ERP_USERNAME cfg) /\
        env (lit "ERP_PASSWORD") = Some (ERP_PASSWORD cfg) /\
        env (lit "ERP_CLIENT_ID") = Some (ERP_CLIENT_ID cfg) /\
        env (lit "ERP_CLIENT_SECRET") = Some (ERP_CLIENT_SECRET cfg)
  end.
Proof.
  unfold required_vars, load_config, require_env, is_set. cbn [find].
  repeat match goal with
         | |- context [env (lit ?n)] =>
             lazymatch goal with
             | H : env (lit n) = _ |- _ => fail
             | _ => destruct (env (lit n)) as [[|? ?]|] eqn:?; cbn [negb obind find];
                    try reflexivity
             end
         end.
  eexists. repeat split; reflexivity.
Qed.

End ConfigProps.

(** ** Normalizers *)

Module NormalizerExtras.
Import Py Facade Wording Vocabulary PyFacts.

Lemma text_of_is_str (v : json) : is_str (JStr (text_of v)) = true.
Proof. reflexivity. Qed.

(** A sub-record read as [m.get(key) or {}] and then forced to a mapping
    yields the nested field, and [None] when it is missing or no mapping. *)
Lemma defensive_get (v : json) (k : pystr) :
  py_get (if negb (isinstance_dict (py_or v (JObj []))) then JObj []
          else py_or v (JObj [])) k
  = Ok (match v with JObj sub => dict_get sub k | _ => JNull end).
Proof.
  unfold py_or. destruct v as [|b|z|f|s|l|d]; try reflexivity;
    try (destruct (truthy _); reflexivity).
  destruct d; reflexivity.
Qed.

(** X3: The enrollment normalizer never fails on an object and is a flat
    projection: eight string fields, each the text of one field of the record
    or of one of its sub-records; a sub-record that is missing or is not a
    mapping gives empty strings, and [sEstadoMatricula] is always empty. *)
Theorem normalize_matricula_flat (d : pydict) :
  exists out : pydict,
    normalize_matricula (JObj d) = Ok (JObj out) /\
    flat_record
      [ lit "IdIntegracionMatricula"; lit "IdPlan"; lit "cEstadoMatricula";
        lit "EstadoMatriculaNombre"; lit "sEstadoMatricula"; lit "IdAlumno";
        lit "TipoDocumento"; lit "NumeroDocumento" ] out /\
    map snd out =
      [ JStr (text_of (dict_get d (lit "IdIntegracion")));
        JStr (text_of (nested_field d (lit "Plan") (lit "Id")));
        JStr (text_of (nested_field d (lit "EstadoMatricula") (lit "Id")));
        JStr (text_of (nested_field d (lit "EstadoMatricula") (lit "Nombre")));
        JStr [];
        JStr (text_of (nested_field d (lit "Alumno") (lit "IdIntegracion")));
        JStr (text_of (nested_field d (lit "DocumentoIdentificacionAlumno")
                         (lit "IdRefTipoDocumentoIdentificacionPais")));
        JStr (text_of (nested_field d (lit "DocumentoIdentificacionAlumno")
                         (lit "Numero"))) ].
Proof.
  unfold normalize_matricula. cbn [py_get obind]. cbv zeta.
  rewrite !defensive_get. cbn [obind].
  eexists. split; [reflexivity|]. split; [|reflexivity].
  split; [reflexivity|]. repeat constructor.
Qed.

Lemma persona_cases (v : json) :
  (truthy v && negb (isinstance_dict v) = true /\
   forall k, py_get (py_or v (JObj [])) k = Raise AttributeError) \/
  (truthy v && negb (isinstance_dict v) = false /\
   forall k, py_get (py_or v (JObj [])) k
             = Ok (match v with JObj sub => dict_get sub k | _ => JNull end)).
Proof.
  unfold py_or.
  destruct v as [|b|z|f|s|l|d]; try (right; split; reflexivity);
    try (destruct (truthy _); [left | right]; split; reflexivity).
  right. destruct d; split; reflexivity.
Qed.

(** X4: The student normalizer fails, with [AttributeError], exactly when the
    item's ["Persona"] is a non-empty value that is not a mapping; otherwise
    it returns seven string fields, each the text of one field of the item or
    of its [Persona], the phone being read from ["Celular"]. *)
Theorem normalize_alumno_outcome (d : pydict) :
  let persona := dict_get d (lit "Persona") in
  if truthy persona && negb (isinstance_dict persona)
  then normalize_alumno (JObj d) = Raise AttributeError
  else
    exists out : pydict,
      normalize_alumno (JObj d) = Ok (JObj out) /\
      flat_record
        [ lit "IdAlumno"; lit "Nombre"; lit "Apellidos"; lit "EmailPersonal";
          lit "IdSeguridad"; lit "Telefono"; lit "IdPais" ] out /\
      dict_lookup out (lit "IdAlumno")
        = Some (JStr (text_of (dict_get d (lit "IdIntegracion")))) /\
      dict_lookup out (lit "Nombre")
        = Some (JStr (text_of (nested_field d (lit "Persona") (lit "Nombre")))) /\
      dict_lookup out (lit "EmailPersonal")
        = Some (JStr (text_of (nested_field d (lit "Persona") (lit "Email")))) /\
      dict_lookup out (lit "IdSeguridad")
        = Some (JStr (text_of (nested_field d (lit "Persona") (lit "IdSeguridad")))) /\
      dict_lookup out (lit "Telefono")
        = Some (JStr (text_of (nested_field d (lit "Persona") (lit "Celular")))).
Proof.
  cbv zeta. unfold normalize_alumno, nested_field. cbn [py_get obind]. cbv zeta.
  destruct (persona_cases (dict_get d (lit "Persona"))) as [[-> H]|[-> H]];
    rewrite !H; cbn [obind]; [reflexivity|].
  eexists. split; [reflexivity|]. split;
    [split; [reflexivity | repeat constructor] | repeat split; reflexivity].
Qed.

Lemma split_once_char_head (c : char) (s : pystr) :
  hd [] (split_once [c] s) = before_first c s.
Proof.
  induction s as [|x r IH]; [reflexivity|].
  cbn [split_once startswith before_first char_eqb].
  rewrite startswith_nil, andb_true_r, N.eqb_sym.
  destruct (x =? c)%N; [reflexivity|].
  destruct (split_once [c] r) as [|h t]; simpl in *; now rewrite <- IH.
Qed.

Lemma before_first_spec (c : char) (s : pystr) :
  ~ In c (before_first c s) /\
  exists rest : pystr,
    s = before_first c s ++ rest /\ (rest = [] \/ exists r, rest = c :: r).
Proof.
  induction s as [|x r [Hn [rest [Hs Hr]]]]; simpl.
  - split; [tauto|]. exists []. auto.
  - destruct (x =? c)%N eqn:E.
    + apply N.eqb_eq in E. subst x. split; [simpl; tauto|].
      exists (c :: r). split; [reflexivity|]. right. now exists r.
    + apply N.eqb_neq in E. split.
      * simpl. intros [H|H]; [congruence | contradiction].
      * exists rest. split; [simpl; now rewrite <- Hs | exact Hr].
Qed.

(** X5: [iso_date_only] gives nothing for an absent or empty text; otherwise it
    gives the part of the text before its first "T": a prefix that holds no
    "T" and is followed, in the text, by a "T" or by nothing. *)
Theorem iso_date_only_date_part (s : pystr) :
  iso_date_only None = None /\
  iso_date_only (Some []) = None /\
  (s <> [] ->
   exists date rest : pystr,
     iso_date_only (Some s) = Some date /\
     ~ In 84%N date /\
     s = date ++ rest /\
     (rest = [] \/ exists r, rest = 84%N :: r)).
Proof.
  split; [reflexivity|]. split; [reflexivity|].
  intros Hne. destruct s as [|x r]; [congruence|].
  destruct (before_first_spec 84%N (x :: r)) as [Hn [rest [Hs Hr]]].
  exists (before_first 84%N (x :: r)), rest.
  split; [|now repeat split].
  unfold iso_date_only. change (lit "T") with [84%N].
  now rewrite split_once_char_head.
Qed.

Lemma iso_date_only_date_part_witness :
  iso_date_only (Some (lit "1987-10-18T00:00:00Z")) = Some (lit "1987-10-18").
Proof.
  destruct (proj2 (proj2 (iso_date_only_date_part (lit "1987-10-18T00:00:00Z"))))
    as [date [rest [Hrun _]]].
  - discriminate.
  - rewrite Hrun. vm_compute in Hrun. injection Hrun as <-. reflexivity.
Defined.

End NormalizerExtras.

(** ** Token manager and authenticated call *)

Module CallExtras.
Import Py Facade Wording Vocabulary PyFacts TokenProps.

Lemma token_response_check_accepts (rs : option response) (tok : json) (n : Z) :
  token_response_check rs = Ok (tok, n) -> truthy tok = true /\ 0 < n.
Proof.
  unfold token_response_check. intros C.
  destruct rs as [r|]; [|discriminate C].
  destruct ((status_code r <? 200) || (300 <=? status_code r)); [discriminate C|].
  destruct (r_json r) as [j|]; [|discriminate C]. cbn [obind] in C.
  destruct (py_get j (lit "access_token")) as [t|]; [|discriminate C]. cbn [obind] in C.
  destruct (py_get_default j (lit "expires_in") (JInt 0)) as [v|]; [|discriminate C].
  cbn [obind] in C.
  destruct (int_of_json v) as [m|]; [|discriminate C]. cbn [obind] in C.
  destruct (truthy t) eqn:T; [|discriminate C]. cbn [negb orb] in C.
  destruct (m <=? 0) eqn:M; [discriminate C|]. injection C as <- <-.
  apply Z.leb_gt in M. now split.
Qed.

Lemma truthy_not_none (v : json) : truthy v = true -> v <> JNull.
Proof. intros T ->. discriminate T. Qed.

Lemma is_none_false (v : json) : is_none v = false -> v <> JNull.
Proof. intros N ->. discriminate N. Qed.

Section Calls.

Variable cfg : config.
Variable W : world.

(** What a fetch leaves behind, in terms of the answer it got. *)
Lemma fetch_token_outcome (s : state) :
  exists (rs : option response) (ev : list io_event),
    trace (snd (_fetch_token cfg W s)) = trace s ++ ev /\
    data_posts ev = [] /\
    token_posts ev = [(token_request cfg, rs)] /\
    match accepted_token cfg rs with
    | Ok (tok, margin) =>
        fst (_fetch_token cfg W s) = Ok tok /\
        _access_token (snd (_fetch_token cfg W s)) = tok /\
        tok <> JNull
    | Raise e =>
        fst (_fetch_token cfg W s) = Raise e /\
        _access_token (snd (_fetch_token cfg W s)) = _access_token s
    end.
Proof.
  rewrite fetch_token_run. cbv zeta. unfold accepted_token.
  set (rs := network W (trace s) (token_request cfg)).
  exists rs.
  destruct (token_response_check rs) as [[tok n]|e] eqn:C; cbn [obind fst snd].
  - destruct (float_of_int _) as [margin|e]; cbn [obind fst snd trace record].
    + eexists. rewrite <- !app_assoc. repeat split.
      apply truthy_not_none. now apply token_response_check_accepts in C.
    + eexists. rewrite <- !app_assoc. repeat split.
  - cbn [trace record]. eexists. repeat split.
Qed.

(** A token that a fetch, or [get_token], returns is never [None]. *)
Lemma fetch_token_not_none (s0 s1 : state) (tok : json) :
  _fetch_token cfg W s0 = (Ok tok, s1) -> tok <> JNull.
Proof.
  intros H. destruct (fetch_token_outcome s0) as [rs [ev [_ [_ [_ Hout]]]]].
  rewrite H in Hout. cbn [fst snd] in Hout.
  destruct (accepted_token cfg rs) as [[t m]|e].
  - destruct Hout as [Hres [_ Hn]]. injection Hres as <-. exact Hn.
  - destruct Hout as [Hres _]. discriminate Hres.
Qed.

Lemma get_token_not_none (s s1 : state) (tok : json) :
  get_token cfg W s = (Ok tok, s1) -> tok <> JNull.
Proof.
  rewrite get_token_run. cbv zeta.
  destruct (is_none (_access_token s)) eqn:N.
  - apply fetch_token_not_none.
  - apply is_none_false in N.
    destruct (Qltb (clock W (trace s)) (_token_expiry_epoch s)).
    + intros H. apply pair_equal_spec in H as [H _]. injection H as <-. exact N.
    + match goal with
      | |- context [if Qltb ?a ?b then _ else _] => destruct (Qltb a b)
      end.
      * intros H. apply pair_equal_spec in H as [H _]. injection H as <-. exact N.
      * apply fetch_token_not_none.
Qed.

(** X6: [get_token] either serves the cache, after a clock reading that lies
    before the expiry and without any request, or makes exactly one token
    request; it never makes a data request.  A token it returns is the one
    the cache then holds and is never [None]; when the request fails the
    cache holds no token any more. *)
Theorem get_token_outcomes (s s' : state) (res : outcome json) :
  get_token cfg W s = (res, s') ->
  exists ev : list io_event,
    trace s' = trace s ++ ev /\
    data_posts ev = [] /\
    ((token_posts ev = [] /\
      res = Ok (_access_token s) /\
      _access_token s <> JNull /\
      _access_token s' = _access_token s /\
      _token_expiry_epoch s' = _token_expiry_epoch s /\
      exists t : Q, In (EvTime t) ev /\ (t < _token_expiry_epoch s)%Q)
     \/
     (exists rs : option response,
        token_posts ev = [(token_request cfg, rs)] /\
        match accepted_token cfg rs with
        | Ok (tok, _) => res = Ok tok /\ _access_token s' = tok /\ tok <> JNull
        | Raise e => res = Raise e /\ _access_token s' = JNull
        end)).
Proof.
  rewrite get_token_run. cbv zeta.
  assert (Hfetch : forall (s0 : state) (pre : list io_event),
             _access_token s0 = JNull ->
             trace s0 = trace s ++ pre ->
             data_posts pre = [] -> token_posts pre = [] ->
             _fetch_token cfg W s0 = (res, s') ->
             exists ev : list io_event,
               trace s' = trace s ++ ev /\
               data_posts ev = [] /\
               ((token_posts ev = [] /\
                 res = Ok (_access_token s) /\
                 _access_token s <> JNull /\
                 _access_token s' = _access_token s /\
                 _token_expiry_epoch s' = _token_expiry_epoch s /\
                 exists t : Q, In (EvTime t) ev /\ (t < _token_expiry_epoch s)%Q)
                \/
                (exists rs : option response,
                   token_posts ev = [(token_request cfg, rs)] /\
                   match accepted_token cfg rs with
                   | Ok (tok, _) => res = Ok tok /\ _access_token s' = tok /\ tok <> JNull
                   | Raise e => res = Raise e /\ _access_token s' = JNull
                   end))).
  { intros s0 pre Hnone Hpre Hdp Htp Hrun.
    destruct (fetch_token_outcome s0) as [rs [ev [Htr [Hd [Ht Hout]]]]].
    rewrite Hrun in Htr, Hout. cbn [fst snd] in Htr, Hout.
    exists (pre ++ ev). split; [rewrite Htr, Hpre; now rewrite app_assoc|].
    split; [rewrite data_posts_app, Hdp, Hd; reflexivity|].
    right. exists rs. split; [rewrite token_posts_app, Htp, Ht; reflexivity|].
    destruct (accepted_token cfg rs) as [[tok margin]|e]; [exact Hout|].
    destruct Hout as [Hres Htok]. split; [exact Hres|]. now rewrite Htok. }
  destruct (is_none (_access_token s)) eqn:N.
  - intros Hrun. refine (Hfetch _ [] _ _ _ _ Hrun); try reflexivity.
    cbn [trace]. now rewrite app_nil_r.
  - apply is_none_false in N.
    destruct (Qltb (clock W (trace s)) (_token_expiry_epoch s)) eqn:V1.
    + intros H. apply pair_equal_spec in H as [<- <-]. eexists. split; [reflexivity|].
      split; [reflexivity|]. left. repeat split; try assumption.
      eexists. split; [left; reflexivity|]. now apply Qltb_lt.
    + match goal with
      | |- context [if Qltb ?a ?b then _ else _] => destruct (Qltb a b) eqn:V2
      end.
      * intros H. apply pair_equal_spec in H as [<- <-]. eexists. split.
        { cbn [trace record]. rewrite <- app_assoc. reflexivity. }
        split; [reflexivity|]. left. repeat split; try assumption.
        eexists. split; [right; left; reflexivity|]. now apply Qltb_lt.
      * intros Hrun. refine (Hfetch _ _ _ _ _ _ Hrun).
        -- reflexivity.
        -- cbn [trace record]. rewrite <- app_assoc. reflexivity.
        -- reflexivity.
        -- reflexivity.
Qed.

End Calls.

Lemma get_token_outcomes_witness :
  let W := scripted_world 1000 [ token_response (lit "tok-2") 1199 ] [] in
  let stale := {| _access_token := JStr (lit "tok-1");
                  _token_expiry_epoch := 900%Q;
                  trace := [] |} in
  fst (get_token example_config W stale) = Ok (JStr (lit "tok-2")) /\
  _access_token (snd (get_token example_config W stale)) = JStr (lit "tok-2").
Proof.
  intros W stale.
  destruct (get_token_outcomes example_config W stale
              (snd (get_token example_config W stale))
              (fst (get_token example_config W stale)))
    as [ev [_ [_ [[_ [_ [_ [_ [_ [t [_ Hlt]]]]]]] | [rs [Htp Hacc]]]]]].
  - vm_compute. reflexivity.
  - vm_compute. split; reflexivity.
  - vm_compute. split; reflexivity.
Defined.

End CallExtras.

Module CallShape.
Import Py Facade Wording Vocabulary PyFacts TokenProps CallExtras.

Lemma finish_call_eq (r : response) (s : state) :
  (if (status_code r <? 200) || (300 <=? status_code r)
   then raise (HTTPException 502
                 (lit "ERP call failed (" ++ str_of_int (status_code r) ++ lit ")"))
   else lift (r_json r)) s
  = (finish_call r, s).
Proof.
  unfold finish_call, is_2xx, raise, lift.
  destruct (status_code r <? 200) eqn:Lo, (300 <=? status_code r) eqn:Hi; cbn [orb].
  - apply Z.ltb_lt in Lo. replace (200 <=? status_code r) with false; [reflexivity|].
    symmetry. apply Z.leb_gt. lia.
  - apply Z.ltb_lt in Lo. replace (200 <=? status_code r) with false; [reflexivity|].
    symmetry. apply Z.leb_gt. lia.
  - apply Z.leb_le in Hi. replace (status_code r <? 300) with false;
      [now rewrite andb_false_r|].
    symmetry. apply Z.ltb_ge. lia.
  - apply Z.ltb_ge in Lo. apply Z.leb_gt in Hi.
    replace (200 <=? status_code r) with true by (symmetry; apply Z.leb_le; lia).
    replace (status_code r <? 300) with true by (symmetry; apply Z.ltb_lt; lia).
    reflexivity.
Qed.

Lemma data_headers_retried (accept_json : bool) (tok tok2 : json) :
  dict_set (data_headers accept_json tok) (lit "Authorization")
    (lit "Bearer " ++ str tok2)
  = data_headers accept_json tok2.
Proof. destruct accept_json; reflexivity. Qed.

Lemma retried_data_request (cfg : config) (path : pystr) (payload : json)
  (accept_json : bool) (tok tok2 : json) :
  retried_request (data_request cfg path payload accept_json tok) tok2
  = data_request cfg path payload accept_json tok2.
Proof.
  unfold retried_request, data_request. cbn [req_url req_body req_headers].
  now rewrite data_headers_retried.
Qed.

Section Calls.

Variable cfg : config.
Variable W : world.

(** [erp_post_json], run from [s]. *)
Lemma erp_post_json_run (path : pystr) (payload : json)
  (accept_json retry_on_401 : bool) (s : state) :
  erp_post_json cfg W path payload accept_json retry_on_401 s =
  match get_token cfg W s with
  | (Raise e, s1) => (Raise e, s1)
  | (Ok tok, s1) =>
      let rq1 := data_request cfg path payload accept_json tok in
      let rs1 := network W (trace s1) rq1 in
      let s2 := record (EvPost rq1 rs1) s1 in
      match rs1 with
      | None => (Raise TransportError, s2)
      | Some r1 =>
          if (status_code r1 =? 401) && retry_on_401 then
            match _fetch_token cfg W s2 with
            | (Raise e, s3) => (Raise e, s3)
            | (Ok _, s3) =>
                let rq2 := data_request cfg path payload accept_json (_access_token s3) in
                let rs2 := network W (trace s3) rq2 in
                let s4 := record (EvPost rq2 rs2) s3 in
                match rs2 with
                | None => (Raise TransportError, s4)
                | Some r2 => (finish_call r2, s4)
                end
            end
          else (finish_call r1, s2)
      end
  end.
Proof.
  unfold erp_post_json, bind. cbv zeta.
  destruct (get_token cfg W s) as [[tok|e] s1]; [|reflexivity].
  assert (Hh : (if accept_json
                then dict_set [ (lit "Content-Type", lit "application/json");
                                (lit "Authorization", lit "Bearer " ++ str tok) ]
                       (lit "Accept") (lit "application/json")
                else [ (lit "Content-Type", lit "application/json");
                       (lit "Authorization", lit "Bearer " ++ str tok) ])
               = data_headers accept_json tok)
    by (destruct accept_json; reflexivity).
  rewrite Hh. fold (data_url cfg path).
  unfold client_post at 1. cbv beta zeta.
  fold (data_request cfg path payload accept_json tok).
  destruct (network W (trace s1) (data_request cfg path payload accept_json tok))
    as [r1|]; [|reflexivity].
  destruct ((status_code r1 =? 401) && retry_on_401).
  - destruct (_fetch_token cfg W _) as [[t|e] s3]; [|reflexivity].
    unfold get_access_token, client_post. cbv beta zeta.
    rewrite data_headers_retried.
    fold (data_request cfg path payload accept_json (_access_token s3)).
    destruct (network W (trace s3) _) as [r2|]; [|reflexivity].
    apply finish_call_eq.
  - unfold ret. apply finish_call_eq.
Qed.

(** X7: When nothing calls for a retry, there is exactly one data POST and it is
    the last event of the call: without an answer the call raises the
    transport error; with an answer that is not 401 (or any answer, when
    [retry_on_401] is off) the result is the parsed body of a 2xx answer and
    the gateway error carrying the status otherwise. *)
Theorem erp_post_json_single_post (path : pystr) (payload : json)
  (accept_json retry_on_401 : bool) (s s' : state) (res : outcome json) :
  erp_post_json cfg W path payload accept_json retry_on_401 s = (res, s') ->
  exists ev : list io_event,
    trace s' = trace s ++ ev /\
    forall rq1 rs1 rest,
      data_posts ev = (rq1, rs1) :: rest ->
      match rs1 with
      | None => True
      | Some r1 => status_code r1 <> 401 \/ retry_on_401 = false
      end ->
      rest = [] /\
      (exists before, ev = before ++ [EvPost rq1 rs1] /\ data_posts before = []) /\
      res = match rs1 with
            | None => Raise TransportError
            | Some r1 => finish_call r1
            end.
Proof.
  rewrite erp_post_json_run. cbv zeta.
  destruct (get_token_events cfg W s) as [ev0 [Hev0 Hd0]].
  destruct (get_token cfg W s) as [[tok|e] s1]; cbn [snd] in Hev0.
  2: { intros H. apply pair_equal_spec in H as [<- <-]. exists ev0.
       split; [exact Hev0|]. intros rq1 rs1 rest Hdp. rewrite Hd0 in Hdp.
       discriminate Hdp. }
  set (rq1 := data_request cfg path payload accept_json tok).
  set (rs1 := network W (trace s1) rq1).
  assert (Hone : data_posts (ev0 ++ [EvPost rq1 rs1]) = [(rq1, rs1)]).
  { rewrite data_posts_app, Hd0. reflexivity. }
  assert (Hlast : forall r : outcome json,
             (r, record (EvPost rq1 rs1) s1) = (res, s') ->
             r = match rs1 with None => Raise TransportError | Some r1 => finish_call r1 end ->
             exists ev : list io_event,
               trace s' = trace s ++ ev /\
               forall rq rs rest,
                 data_posts ev = (rq, rs) :: rest ->
                 match rs with
                 | None => True
                 | Some r1 => status_code r1 <> 401 \/ retry_on_401 = false
                 end ->
                 rest = [] /\
                 (exists before, ev = before ++ [EvPost rq rs] /\ data_posts before = []) /\
                 res = match rs with
                       | None => Raise TransportError
                       | Some r1 => finish_call r1
                       end).
  { intros r H Hr. apply pair_equal_spec in H as [<- <-].
    exists (ev0 ++ [EvPost rq1 rs1]). split.
    - cbn [trace record]. now rewrite Hev0, app_assoc.
    - intros rq rs rest Hdp _. rewrite Hone in Hdp. injection Hdp as <- <- <-.
      split; [reflexivity|]. split; [|exact Hr]. now exists ev0. }
  destruct rs1 as [r1|] eqn:Ers1; [|intros H; now apply (Hlast _ H)].
  destruct ((status_code r1 =? 401) && retry_on_401) eqn:Retry;
    [|intros H; now apply (Hlast _ H)].
  apply andb_true_iff in Retry as [H401 Hretry]. apply Z.eqb_eq in H401.
  intros H.
  assert (Hs' : exists tail, trace s' = trace s1 ++ EvPost rq1 (Some r1) :: tail).
  { destruct (fetch_token_events cfg W (record (EvPost rq1 (Some r1)) s1))
      as [evf [Hevf _]].
    destruct (_fetch_token cfg W _) as [[t|e] s3]; cbn [snd] in Hevf.
    - destruct (network W (trace s3) _) as [r2|];
        apply pair_equal_spec in H as [_ <-]; cbn [trace record] in *;
        rewrite Hevf, <- !app_assoc; eexists; reflexivity.
    - apply pair_equal_spec in H as [_ <-]. cbn [trace record] in Hevf.
      rewrite Hevf, <- !app_assoc. eexists. reflexivity. }
  destruct Hs' as [tail Htail].
  exists (ev0 ++ EvPost rq1 (Some r1) :: tail). split.
  - now rewrite Htail, Hev0, <- app_assoc.
  - intros rq rs rest Hdp Hcond. rewrite data_posts_app, Hd0 in Hdp.
    cbn [data_posts app] in Hdp. change (is_data_request rq1) with true in Hdp.
    cbv iota in Hdp. injection Hdp as <- <- _.
    destruct Hcond as [Hne | Hoff]; [contradiction | congruence].
Qed.

(** X8: Every data POST of a call goes to the same URL, carries the caller's
    payload as JSON, and bears the headers built from a token that is not
    [None]; there are at most two of them, and none when no token could be
    obtained. *)
Theorem erp_post_json_requests (path : pystr) (payload : json)
  (accept_json retry_on_401 : bool) (s s' : state) (res : outcome json) :
  erp_post_json cfg W path payload accept_json retry_on_401 s = (res, s') ->
  exists ev : list io_event,
    trace s' = trace s ++ ev /\
    (List.length (data_posts ev) <= 2)%nat /\
    (forall rq rs,
       In (rq, rs) (data_posts ev) ->
       exists tok : json,
         tok <> JNull /\ rq = data_request cfg path payload accept_json tok) /\
    (forall e, fst (get_token cfg W s) = Raise e -> data_posts ev = [] /\ res = Raise e).
Proof.
  rewrite erp_post_json_run. cbv zeta.
  destruct (get_token_events cfg W s) as [ev0 [Hev0 Hd0]].
  pose proof (get_token_not_none cfg W s) as Hgt.
  destruct (get_token cfg W s) as [[tok|e] s1]; cbn [snd fst] in *.
  2: { intros H. apply pair_equal_spec in H as [<- <-]. exists ev0.
       split; [exact Hev0|]. rewrite Hd0. split; [simpl; lia|].
       split; [intros rq rs []|]. intros e0 He0. injection He0 as <-. now split. }
  assert (Htok : tok <> JNull) by exact (Hgt s1 tok eq_refl).
  clear Hgt.
  set (rq1 := data_request cfg path payload accept_json tok).
  set (rs1 := network W (trace s1) rq1).
  assert (Hfinal : forall (tail : list io_event) (posts : list (request * option response)),
             trace s' = trace s1 ++ EvPost rq1 rs1 :: tail ->
             data_posts tail = posts ->
             (List.length posts <= 1)%nat ->
             (forall rq rs, In (rq, rs) posts ->
                exists t, t <> JNull /\ rq = data_request cfg path payload accept_json t) ->
             exists ev : list io_event,
               trace s' = trace s ++ ev /\
               (List.length (data_posts ev) <= 2)%nat /\
               (forall rq rs,
                  In (rq, rs) (data_posts ev) ->
                  exists t : json,
                    t <> JNull /\ rq = data_request cfg path payload accept_json t) /\
               (forall e, Ok tok = Raise e -> data_posts ev = [] /\ res = Raise e)).
  { intros tail posts Htr Hposts Hlen Hall.
    exists (ev0 ++ EvPost rq1 rs1 :: tail).
    split; [now rewrite Htr, Hev0, <- app_assoc|].
    rewrite data_posts_app, Hd0. cbn [data_posts app].
    change (is_data_request rq1) with true. cbv iota. rewrite Hposts.
    split; [simpl; lia|]. split; [|intros e He; discriminate He].
    intros rq rs [Heq | Hin].
    - injection Heq as <- <-. now exists tok.
    - now apply (Hall rq rs). }
  destruct rs1 as [r1|] eqn:Ers1.
  2: { intros H. apply pair_equal_spec in H as [_ <-].
       apply (Hfinal [] []); [reflexivity|reflexivity|simpl; lia|intros ? ? []]. }
  destruct ((status_code r1 =? 401) && retry_on_401).
  2: { intros H. apply pair_equal_spec in H as [_ <-].
       apply (Hfinal [] []); [reflexivity|reflexivity|simpl; lia|intros ? ? []]. }
  destruct (fetch_token_outcome cfg W (record (EvPost rq1 (Some r1)) s1))
    as [rsf [evf [Hevf [Hdf [_ Hout]]]]].
  destruct (_fetch_token cfg W _) as [[t|e] s3]; cbn [fst snd] in *.
  - assert (Ht3 : _access_token s3 <> JNull).
    { destruct (accepted_token cfg rsf) as [[t' m]|e]; [|destruct Hout; discriminate].
      destruct Hout as [_ [-> Hn]]. exact Hn. }
    set (rq2 := data_request cfg path payload accept_json (_access_token s3)).
    set (rs2 := network W (trace s3) rq2).
    intros H.
    assert (Hs' : s' = record (EvPost rq2 rs2) s3)
      by (destruct rs2; now apply pair_equal_spec in H as [_ <-]).
    apply (Hfinal (evf ++ [EvPost rq2 rs2]) [(rq2, rs2)]).
    + subst s'. cbn [trace record] in *. rewrite Hevf, <- !app_assoc. reflexivity.
    + rewrite data_posts_app, Hdf. reflexivity.
    + simpl. lia.
    + intros rq rs [Heq | []]. injection Heq as <- <-. now exists (_access_token s3).
  - intros H. apply pair_equal_spec in H as [_ <-].
    apply (Hfinal evf []); [|exact Hdf|simpl; lia|intros ? ? []].
    cbn [trace record] in Hevf. rewrite Hevf, <- !app_assoc. reflexivity.
Qed.

End Calls.

Lemma erp_post_json_single_post_witness :
  let W := scripted_world 1000 [ token_response (lit "tok-1") 1199 ]
             [ json_response 503 (JObj [ (lit "detail", JStr (lit "down")) ]) ] in
  fst (erp_post_json example_config W (lit "/alumnos/search-list")
         (alumnos_payload 988224 10) true true initial_state)
  = Raise (HTTPException 502 (lit "ERP call failed (503)")).
Proof.
  intros W.
  pose (run := erp_post_json example_config W (lit "/alumnos/search-list")
                 (alumnos_payload 988224 10) true true initial_state).
  assert (Hrun : run = (fst run, snd run)) by (vm_compute; reflexivity).
  destruct (erp_post_json_single_post example_config W (lit "/alumnos/search-list")
              (alumnos_payload 988224 10) true true initial_state (snd run) (fst run) Hrun)
    as [ev [Htr H]].
  change (trace initial_state ++ ev) with ev in Htr. subst ev.
  edestruct H as [_ [_ Hres]]; [vm_compute; reflexivity | left; vm_compute; discriminate |].
  exact Hres.
Defined.

Lemma erp_post_json_requests_witness :
  let W := scripted_world 1000 [ token_response (lit "tok-1") 1199 ]
             [ json_response 200 (JList []) ] in
  exists ev : list io_event,
    trace (snd (erp_post_json example_config W (lit "alumnos/search-list")
                  (alumnos_payload 988224 10) true true initial_state)) = ev /\
    (List.length (data_posts ev) <= 2)%nat.
Proof.
  intros W.
  pose (run := erp_post_json example_config W (lit "alumnos/search-list")
                 (alumnos_payload 988224 10) true true initial_state).
  assert (Hrun : run = (fst run, snd run)) by (vm_compute; reflexivity).
  destruct (erp_post_json_requests example_config W (lit "alumnos/search-list")
              (alumnos_payload 988224 10) true true initial_state (snd run) (fst run) Hrun)
    as [ev [Htr [Hlen _]]].
  exists ev. split; [exact Htr | exact Hlen].
Defined.

End CallShape.

(** ** URL, health and handlers *)

Module HandlerExtras.
Import Py Facade Wording Vocabulary PyFacts MatriculaProps TokenProps.

Lemma lstrip_by_split (p : char -> bool) (s : pystr) :
  exists pre : pystr,
    s = pre ++ lstrip_by p s /\
    forallb p pre = true /\
    (forall c r, lstrip_by p s = c :: r -> p c = false).
Proof.
  induction s as [|x r [pre [Hs [Hp Hh]]]].
  - exists []. repeat split. intros c r H. discriminate H.
  - cbn [lstrip_by]. destruct (p x) eqn:E.
    + exists (x :: pre). cbn [app forallb]. rewrite E, Hp. split; [now rewrite <- Hs|].
      split; [reflexivity | exact Hh].
    + exists []. repeat split. intros c r' H. now injection H as <- _.
Qed.

Lemma rstrip_by_split (p : char -> bool) (s : pystr) :
  exists post : pystr,
    s = rstrip_by p s ++ post /\
    forallb p post = true /\
    (forall b c, rstrip_by p s = b ++ [c] -> p c = false).
Proof.
  unfold rstrip_by.
  destruct (lstrip_by_split p (rev s)) as [pre [Hs [Hp Hh]]].
  exists (rev pre). split.
  - rewrite <- rev_app_distr, <- Hs. now rewrite rev_involutive.
  - split.
    + rewrite forallb_forall in *. intros c Hc. apply Hp. now apply in_rev.
    + intros b c Hb. apply (Hh c (rev b)).
      rewrite <- (rev_involutive (lstrip_by p (rev s))), Hb, rev_app_distr.
      reflexivity.
Qed.

Lemma one_of_slash (c : char) : one_of (lit "/") c = true -> c = 47%N.
Proof.
  unfold one_of. cbn [lit list_ascii_of_string map existsb]. rewrite orb_false_r.
  unfold char_eqb. intros H. now apply N.eqb_eq in H.
Qed.

Lemma all_slashes (l : pystr) :
  forallb (one_of (lit "/")) l = true -> l = repeat 47%N (List.length l).
Proof.
  induction l as [|c l IH]; [reflexivity|]. cbn [forallb]. intros H.
  apply andb_true_iff in H as [Hc Hl]. apply one_of_slash in Hc. subst c.
  cbn [List.length repeat]. now rewrite <- IH.
Qed.

(** X9: The URL of a data request joins base and path with exactly one slash:
    the base is taken without its trailing slashes and the path without its
    leading ones, however many there are. *)
Theorem data_url_single_slash (cfg : config) (path : pystr) :
  exists (b p : pystr) (k j : nat),
    ERP_API_BASE cfg = b ++ repeat 47%N k /\
    path = repeat 47%N j ++ p /\
    (forall b', b <> b' ++ [47%N]) /\
    (forall p', p <> 47%N :: p') /\
    data_url cfg path = b ++ [47%N] ++ p.
Proof.
  unfold data_url, rstrip_chars, lstrip_chars.
  destruct (rstrip_by_split (one_of (lit "/")) (ERP_API_BASE cfg)) as [post [Hb [Hpost Hlast]]].
  destruct (lstrip_by_split (one_of (lit "/")) path) as [pre [Hp [Hpre Hhead]]].
  exists (rstrip_by (one_of (lit "/")) (ERP_API_BASE cfg)),
         (lstrip_by (one_of (lit "/")) path),
         (List.length post), (List.length pre).
  rewrite <- (all_slashes post Hpost), <- (all_slashes pre Hpre).
  split; [exact Hb|]. split; [exact Hp|]. split; [|split; [|reflexivity]].
  - intros b' Hb'. apply Hlast in Hb'. discriminate Hb'.
  - intros p' Hp'. apply Hhead in Hp'. discriminate Hp'.
Qed.

(** X10: [health] answers 200 with three fields and only reads: it posts nothing
    and leaves token and expiry as they are.  The seconds it reports are
    never negative and are zero without a token; it reports a cached token
    only when one is present. *)
Theorem health_reads_only (W : world) (s : state) :
  exists (cached : bool) (seconds : Z) (s' : state) (ev : list io_event),
    Facade.health W s
      = (Ok (Body (JObj [ (lit "status", JStr (lit "ok"));
                          (lit "tokenCached", JBool cached);
                          (lit "tokenExpiresInSeconds", JInt seconds) ])), s') /\
    _access_token s' = _access_token s /\
    _token_expiry_epoch s' = _token_expiry_epoch s /\
    trace s' = trace s ++ ev /\
    data_posts ev = [] /\ token_posts ev = [] /\
    0 <= seconds /\
    (_access_token s = JNull -> cached = false /\ seconds = 0 /\ ev = []) /\
    (cached = true -> _access_token s <> JNull).
Proof.
  unfold Facade.health, bind. rewrite token_is_valid_run.
  assert (Hsec : forall x : Q, 0 <= (if Qltb 0 x then int_of_time x else 0)).
  { intros x. destruct (Qltb 0 x) eqn:E; [|lia].
    apply Qltb_lt in E. unfold int_of_time.
    destruct (Qltb x 0) eqn:E0.
    - apply Qltb_lt in E0. exfalso. apply (Qlt_irrefl 0). now apply Qlt_trans with x.
    - change 0 with (Qfloor 0). apply Qfloor_resp_le. now apply Qlt_le_weak. }
  destruct (is_none (_access_token s)) eqn:N.
  - destruct (_access_token s) eqn:T; try discriminate N.
    unfold get_access_token. rewrite T. cbn [truthy]. unfold ret.
    exists false, 0, s, []. rewrite app_nil_r.
    repeat split; try reflexivity; try assumption; try lia.
  - unfold get_access_token, get_token_expiry_epoch, time_time, ret.
    cbn [record _access_token _token_expiry_epoch trace].
    destruct (truthy (_access_token s)).
    + eexists _, _, _, _. split; [reflexivity|].
      cbn [record _access_token _token_expiry_epoch trace].
      rewrite <- app_assoc.
      repeat split; try reflexivity; try apply Hsec.
      all: try intros _; try intros Hn;
        match goal with
        | H : _access_token _ = JNull, N' : is_none _ = false |- _ =>
            rewrite H in N'; discriminate N'
        end.
    + eexists _, _, _, _. split; [reflexivity|].
      cbn [record _access_token _token_expiry_epoch trace].
      repeat split; try reflexivity; try lia.
      all: try intros _; try intros Hn;
        match goal with
        | H : _access_token _ = JNull, N' : is_none _ = false |- _ =>
            rewrite H in N'; discriminate N'
        end.
Qed.



Section Handlers.

Variable cfg : config.
Variable W : world.


(** X12: The deprecated [alumnoId] only counts when [idAlumno] is blank: a
    non-blank [idAlumno] makes the handler ignore it, and when both are blank
    or missing the handler fails with status 400 before any call. *)
Theorem aic_matriculas_effective_id
  (idAlumno : pystr) (onlyActive : bool) (itemsPerPage pageIndex : Z)
  (alumnoId : option pystr) (s : state) :
  (strip idAlumno <> [] ->
   aic_matriculas cfg W idAlumno onlyActive itemsPerPage pageIndex alumnoId s
   = aic_matriculas cfg W idAlumno onlyActive itemsPerPage pageIndex None s) /\
  (strip idAlumno = [] ->
   match alumnoId with
   | Some a => strip a = []
   | None => True
   end ->
   aic_matriculas cfg W idAlumno onlyActive itemsPerPage pageIndex alumnoId s
   = (Raise (HTTPException 400 (lit "Missing required parameter: idAlumno")), s)) /\
  (strip idAlumno = [] ->
   forall a, alumnoId = Some a -> strip a <> [] ->
   aic_matriculas cfg W idAlumno onlyActive itemsPerPage pageIndex alumnoId s
   = aic_matriculas cfg W a onlyActive itemsPerPage pageIndex None s).
Proof.
  unfold aic_matriculas, matriculas_effective_id. cbv zeta. repeat split.
  - intros Hne. destruct (strip idAlumno) as [|c r]; [congruence|].
    destruct alumnoId as [[|x a]|]; reflexivity.
  - intros Hblank Halias. rewrite Hblank.
    destruct alumnoId as [[|x a]|]; try reflexivity.
    now rewrite Halias.
  - intros Hblank a -> Hne. rewrite Hblank.
    destruct a as [|x a]; [now elim Hne|].
    destruct (strip (x :: a)) as [|c r]; [now elim Hne|]. reflexivity.
Qed.

End Handlers.


Lemma aic_matriculas_effective_id_witness :
  aic_matriculas example_config (scripted_world 1000 [] []) (lit "   ") true 50 1
    (Some (lit " ")) initial_state
  = (Raise (HTTPException 400 (lit "Missing required parameter: idAlumno")),
     initial_state).
Proof.
  apply (proj1 (proj2 (aic_matriculas_effective_id example_config
                         (scripted_world 1000 [] []) (lit "   ") true 50 1
                         (Some (lit " ")) initial_state))).
  - vm_compute. reflexivity.
  - vm_compute. reflexivity.
Defined.

End HandlerExtras.

(** ** Decimal ids *)

Module DecimalIds.
Import Py Facade Wording Vocabulary PyFacts.

Lemma ascii_digit_cases (c : char) :
  is_ascii_digit c = true ->
  c = 48%N \/ c = 49%N \/ c = 50%N \/ c = 51%N \/ c = 52%N \/
  c = 53%N \/ c = 54%N \/ c = 55%N \/ c = 56%N \/ c = 57%N.
Proof.
  unfold is_ascii_digit. intros H. apply andb_true_iff in H as [Hlo Hhi].
  apply N.leb_le in Hlo. apply N.leb_le in Hhi. lia.
Qed.

Ltac each_digit H :=
  apply ascii_digit_cases in H;
  repeat (destruct H as [H | H]); subst.

Lemma digit_plain (c : char) :
  is_ascii_digit c = true ->
  isspace_char c = false /\ c_isspace c = false /\ to_ascii_form c = c /\
  isdigit_char c = true /\ 0 <= digit_of c.
Proof.
  intros H. each_digit H; repeat split; try reflexivity; vm_compute; discriminate.
Qed.

Lemma digits_to_ascii_form (s : pystr) :
  forallb is_ascii_digit s = true -> map to_ascii_form s = s.
Proof.
  induction s as [|c r IH]; [reflexivity|]. cbn [forallb map]. intros H.
  apply andb_true_iff in H as [Hc Hr].
  destruct (digit_plain c Hc) as [_ [_ [-> _]]]. now rewrite IH.
Qed.

Lemma digits_strip (s : pystr) :
  forallb is_ascii_digit s = true -> strip s = s.
Proof.
  intros H. unfold strip, rstrip_by.
  assert (Hl : forall t : pystr,
             forallb is_ascii_digit t = true -> lstrip_by isspace_char t = t).
  { intros [|c r] Ht; [reflexivity|]. cbn [forallb] in Ht.
    apply andb_true_iff in Ht as [Hc _]. cbn [lstrip_by].
    destruct (digit_plain c Hc) as [-> _]. reflexivity. }
  rewrite (Hl s H), Hl; [apply rev_involutive|].
  rewrite forallb_forall in *. intros c Hc. apply H. now apply in_rev.
Qed.

Lemma digits_isdigit (s : pystr) :
  s <> [] -> forallb is_ascii_digit s = true -> isdigit s = true.
Proof.
  intros Hne H. destruct s as [|c r]; [congruence|]. unfold isdigit.
  rewrite forallb_forall in *. intros x Hx.
  now destruct (digit_plain x (H x Hx)) as [_ [_ [_ [-> _]]]].
Qed.

Lemma scan_all_digits (s : pystr) (acc : Z) (n : nat) :
  forallb is_ascii_digit s = true ->
  scan_digits acc n s
  = Some (fold_left (fun a c => 10 * a + digit_of c) s acc, (n + List.length s)%nat, []).
Proof.
  revert acc n. induction s as [|c r IH]; intros acc n H.
  - cbn. now rewrite Nat.add_0_r.
  - cbn [forallb] in H. apply andb_true_iff in H as [Hc Hr].
    cbn [scan_digits]. rewrite Hc, (IH _ _ Hr). cbn [fold_left List.length].
    now rewrite Nat.add_succ_r.
Qed.

(** A text of 1 to 4300 ASCII digits passes the validation of [aic_alumnos]
    and converts, in both handlers, to the number it denotes, which is not
    negative. *)
Lemma decimal_id_converts (s : pystr) :
  s <> [] ->
  forallb is_ascii_digit s = true ->
  (List.length s <= 4300)%nat ->
  strip s = s /\
  isdigit (strip s) = true /\
  int_of_str (strip s) = Some (digits_number s) /\
  0 <= digits_number s.
Proof.
  intros Hne H Hlen.
  rewrite (digits_strip s H). split; [reflexivity|].
  split; [now apply digits_isdigit|]. split.
  - unfold int_of_str. rewrite (digits_to_ascii_form s H).
    destruct s as [|c r]; [congruence|].
    pose proof H as Hcr. cbn [forallb] in Hcr.
    apply andb_true_iff in Hcr as [Hc Hr].
    assert (Hs : lstrip_by c_isspace (c :: r) = c :: r).
    { cbn [lstrip_by]. now destruct (digit_plain c Hc) as [_ [-> _]]. }
    rewrite Hs.
    assert (Hd : int_of_digits (c :: r) = Some (digits_number (c :: r))).
    { unfold int_of_digits. rewrite Hc, (scan_all_digits r _ _ Hr).
      cbn [forallb andb]. unfold INT_MAX_STR_DIGITS.
      replace (1 + List.length r <=? 4300)%nat with true
        by (symmetry; apply Nat.leb_le; simpl in Hlen; lia).
      unfold digits_number. cbn [fold_left]. reflexivity. }
    pose proof Hc as Hc'. each_digit Hc'; exact Hd.
  - unfold digits_number.
    assert (Hpos : forall (t : pystr) (acc : Z),
               forallb is_ascii_digit t = true -> 0 <= acc ->
               0 <= fold_left (fun a c => 10 * a + digit_of c) t acc).
    { induction t as [|c r IH]; intros acc Ht Hacc; [exact Hacc|].
      cbn [forallb] in Ht. apply andb_true_iff in Ht as [Hc Hr].
      cbn [fold_left]. apply IH; [exact Hr|].
      destruct (digit_plain c Hc) as [_ [_ [_ [_ Hd]]]]. lia. }
    apply Hpos; [exact H | lia].
Qed.

(** X13: For an id of 1 to 4300 ASCII digits, [aic_alumnos] always reaches the
    upstream, asking for exactly the number the id denotes, and its answer is
    decided by the upstream's alone: 404 for a body that is no list or an
    empty one, 502 for a first item that is no object, the first item's
    normalized record otherwise, and the upstream call's own failure when it
    fails. *)
Theorem aic_alumnos_decimal_id
  (cfg : config) (W : world) (idAlumno : pystr) (itemsPerPage : Z) (s : state) :
  idAlumno <> [] ->
  forallb is_ascii_digit idAlumno = true ->
  (List.length idAlumno <= 4300)%nat ->
  aic_alumnos cfg W idAlumno itemsPerPage s
  = (obind (fst (erp_post_json cfg W (lit "/alumnos/search-list")
                   (alumnos_payload (digits_number idAlumno) itemsPerPage) true true s))
       alumnos_reply,
     snd (erp_post_json cfg W (lit "/alumnos/search-list")
            (alumnos_payload (digits_number idAlumno) itemsPerPage) true true s)).
Proof.
  intros Hne H Hlen.
  destruct (decimal_id_converts idAlumno Hne H Hlen) as [_ [Hd [Hint _]]].
  unfold aic_alumnos. cbv zeta. rewrite Hd. cbn [negb].
  unfold bind, lift, int_of_pystr. rewrite Hint.
  destruct (erp_post_json cfg W _ _ true true s) as [[data|e] s']; cbn [fst snd obind];
    [|reflexivity].
  unfold alumnos_reply.
  destruct data as [| | | | |[|item l]|]; try reflexivity.
  destruct (isinstance_dict item); cbn [negb]; [|reflexivity].
  unfold ret. destruct (normalize_alumno item); reflexivity.
Qed.

Lemma aic_alumnos_decimal_id_witness :
  let W := scripted_world 1000 [ token_response (lit "tok-1") 1199 ]
             [ json_response 200 (JList []) ] in
  fst (aic_alumnos example_config W (lit "0999999999") 10 initial_state)
  = Ok (JSONResponse 404 (JObj [ (lit "detail", JStr (lit "Alumno not found")) ])).
Proof.
  intros W.
  rewrite (aic_alumnos_decimal_id example_config W (lit "0999999999") 10 initial_state).
  - vm_compute. reflexivity.
  - discriminate.
  - reflexivity.
  - simpl. lia.
Defined.

End DecimalIds.

(** * Properties of the mock upstream *)

(** ** Bearer tokens *)

Module MockAuth.
Import Py Mock MockVocabulary PyFacts.

Lemma store_get_set_same (d : token_store) (k : pystr) (v : Q) :
  store_get (dict_set d k v) k = Some v.
Proof.
  induction d as [|[k' v'] d IH]; cbn [dict_set store_get].
  - now rewrite str_eqb_refl.
  - destruct (str_eqb k' k) eqn:E; cbn [store_get].
    + now rewrite str_eqb_refl.
    + now rewrite E.
Qed.

Lemma store_get_pop_same (d : token_store) (k : pystr) :
  store_get (store_pop d k) k = None.
Proof.
  unfold store_pop. induction d as [|[k' v'] d IH]; [reflexivity|].
  cbn [filter fst]. destruct (str_eqb k' k) eqn:E; cbn [negb store_get]; [exact IH|].
  now rewrite E.
Qed.

Lemma store_get_pop_other (d : token_store) (k k' : pystr) :
  k' <> k -> store_get (store_pop d k) k' = store_get d k'.
Proof.
  intros Hne. unfold store_pop. induction d as [|[k0 v0] d IH]; [reflexivity|].
  cbn [filter fst store_get]. destruct (str_eqb k0 k) eqn:E; cbn [negb store_get].
  - apply str_eqb_eq in E. subst k0.
    destruct (str_eqb k k') eqn:E'; [apply str_eqb_eq in E'; congruence | exact IH].
  - now rewrite IH.
Qed.

Lemma bearer_header_token (tok : pystr) :
  lower_startswith (lit "Bearer " ++ tok) (lit "bearer ") = true /\
  nth 1 (split_once (lit " ") (lit "Bearer " ++ tok)) [] = tok.
Proof.
  split.
  - cbn. now destruct tok.
  - change (lit " ") with [32%N].
    change (lit "Bearer " ++ tok)
      with (66 :: 101 :: 97 :: 114 :: 101 :: 114 :: 32 :: tok)%N.
    cbn [split_once startswith char_eqb N.eqb Pos.eqb andb List.length skipn nth].
    rewrite startswith_nil. reflexivity.
Qed.

Section Auth.

Variable W : mock_world.

(** X14: [_require_bearer] lets a request through only with a header that starts
    with "bearer " in any case and whose token is in the store with an expiry
    that is not zero and lies after the clock reading; it then returns that
    token and leaves the store alone.  Every refusal is a 401; the store
    never gains a token, and loses one only when that token has expired. *)
Theorem require_bearer_outcomes (request : mock_request) (s : mock_state) :
  let now := mock_clock W (clock_reads s) in
  match _require_bearer W request s with
  | (Ok tok, s') =>
      exists (auth : pystr) (exp : Q),
        authorization request = Some auth /\
        lower_startswith auth (lit "bearer ") = true /\
        tok = strip (nth 1 (split_once (lit " ") auth) []) /\
        store_get (TOKENS s) tok = Some exp /\
        ~ (exp == 0)%Q /\ (now < exp)%Q /\
        TOKENS s' = TOKENS s
  | (Raise e, s') =>
      (exists detail, e = HTTPException 401 detail) /\
      (TOKENS s' = TOKENS s \/
       exists (tok : pystr) (exp : Q),
         store_get (TOKENS s) tok = Some exp /\ (exp <= now)%Q /\
         e = HTTPException 401 (lit "Token expired") /\
         TOKENS s' = store_pop (TOKENS s) tok /\
         store_get (TOKENS s') tok = None)
  end.
Proof.
  cbv zeta. unfold _require_bearer.
  destruct (authorization request) as [auth|]; cbn [orb].
  2: { unfold mraise. split; [eexists; reflexivity | now left]. }
  destruct auth as [|c auth'] eqn:Ea; cbn [orb].
  { unfold mraise. split; [eexists; reflexivity | now left]. }
  rewrite <- Ea. clear Ea c auth'.
  destruct (lower_startswith auth (lit "bearer ")) eqn:L; cbn [negb].
  2: { unfold mraise. split; [eexists; reflexivity | now left]. }
  unfold mbind, get_TOKENS.
  set (tok := strip (nth 1 (split_once (lit " ") auth) [])).
  destruct (store_get (TOKENS s) tok) as [exp|] eqn:G.
  2: { unfold mraise. split; [eexists; reflexivity | now left]. }
  destruct (Qeq_bool exp 0) eqn:Z0.
  { unfold mraise. split; [eexists; reflexivity | now left]. }
  unfold mock_time. cbn [TOKENS].
  destruct (Qle_bool exp (mock_clock W (clock_reads s))) eqn:Le.
  - unfold set_TOKENS, mraise. cbn [TOKENS].
    split; [eexists; reflexivity|]. right. exists tok, exp.
    repeat split; try assumption; try reflexivity.
    + now apply Qle_bool_iff.
    + apply store_get_pop_same.
  - unfold mret. exists auth, exp. cbn [TOKENS].
    repeat split; try assumption; try reflexivity.
    + intros Hz. apply Qeq_bool_iff in Hz. congruence.
    + apply Qnot_le_lt. intros Hle. apply Qle_bool_iff in Hle. congruence.
Qed.

(** What [_require_bearer] does with a request that presents [tok]. *)
Lemma require_bearer_presented (tok : pystr) :
  strip tok = tok ->
  forall (p : option json) (s0 : mock_state),
    _require_bearer W (bearer_request tok p) s0 =
    match store_get (TOKENS s0) tok with
    | None => (Raise (HTTPException 401 (lit "Invalid token")), s0)
    | Some e =>
        if Qeq_bool e 0
        then (Raise (HTTPException 401 (lit "Invalid token")), s0)
        else if Qle_bool e (mock_clock W (clock_reads s0))
             then (Raise (HTTPException 401 (lit "Token expired")),
                   {| TOKENS := store_pop (TOKENS s0) tok;
                      clock_reads := S (clock_reads s0);
                      secrets_drawn := secrets_drawn s0 |})
             else (Ok tok,
                   {| TOKENS := TOKENS s0;
                      clock_reads := S (clock_reads s0);
                      secrets_drawn := secrets_drawn s0 |})
    end.
Proof.
  intros Hstrip p s0.
  destruct (bearer_header_token tok) as [Hl Hn].
  unfold _require_bearer, bearer_request.
  cbn [authorization]. rewrite Hl, Hn, Hstrip.
  change (match lit "Bearer " ++ tok with [] => true | _ :: _ => false end) with false.
  cbn [orb negb]. unfold mbind, get_TOKENS.
  destruct (store_get (TOKENS s0) tok) as [e|]; [|reflexivity].
  destruct (Qeq_bool e 0); [reflexivity|].
  unfold mock_time. cbn [TOKENS].
  destruct (Qle_bool e (mock_clock W (clock_reads s0))); reflexivity.
Qed.


End Auth.

(** X16: A token the mock issues is stored with the expiry the program
    computes, the double sum of the issue time and the lifetime (the double
    nearest to the exact sum, for a lifetime below [2^53]), as long as that
    sum is not beyond the largest double.  It is a token the facade's check
    accepts, when the token is not empty and the lifetime is positive, and
    one the mock lets through, presented as "Bearer <token>", at every clock
    reading before that expiry. *)
Theorem issued_token_round_trip
  (MOCK_EXPIRES_IN : Z) (W : mock_world) (s : mock_state) (payload : option json) :
  let tok := mock_secret W (secrets_drawn s) 48 in
  let issued_at := mock_clock W (clock_reads s) in
  let lifetime := round_double (inject_Z MOCK_EXPIRES_IN) in
  let expires_at := fadd issued_at lifetime in
  Z.abs MOCK_EXPIRES_IN < FLOAT_INT_LIMIT ->
  in_double_range (issued_at + lifetime) ->
  strip tok = tok ->
  exists (answer : pydict) (s1 : mock_state),
    _issue_token MOCK_EXPIRES_IN W s = (Ok (JObj answer), s1) /\
    dict_lookup answer (lit "access_token") = Some (JStr tok) /\
    dict_lookup answer (lit "expires_in") = Some (JInt MOCK_EXPIRES_IN) /\
    store_get (TOKENS s1) tok = Some expires_at /\
    (Z.abs MOCK_EXPIRES_IN < 2 ^ 53 ->
     expires_at = round_double (issued_at + inject_Z MOCK_EXPIRES_IN)) /\
    (tok <> [] -> 0 < MOCK_EXPIRES_IN ->
     Wording.token_response_check
       (Some {| Facade.status_code := 200; Facade.json_body := Some (JObj answer) |})
     = Ok (JStr tok, MOCK_EXPIRES_IN)) /\
    (forall s2 : mock_state,
       TOKENS s2 = TOKENS s1 ->
       ~ (expires_at == 0)%Q ->
       (mock_clock W (clock_reads s2) < expires_at)%Q ->
       exists s3 : mock_state,
         _require_bearer W (bearer_request (str (JStr tok)) payload) s2 = (Ok tok, s3) /\
         TOKENS s3 = TOKENS s1).
Proof.
  cbv zeta. intros Hfit _ Hstrip.
  unfold _issue_token, mbind, token_urlsafe, mock_time, mlift, float_of_int,
    get_TOKENS, set_TOKENS, mret.
  apply Z.ltb_lt in Hfit. rewrite Hfit.
  cbn [TOKENS clock_reads secrets_drawn].
  eexists _, _. split; [reflexivity|]. cbn [TOKENS].
  split; [reflexivity|]. split; [reflexivity|].
  split; [apply store_get_set_same|]. split.
  { intros Hsmall. now rewrite DoubleFacts.round_double_int. }
  split.
  - intros Hne Hpos. unfold Wording.token_response_check, Facade.r_json.
    cbn [Facade.status_code Facade.json_body orb Z.ltb Z.leb Z.compare Pos.compare
         Pos.compare_cont obind py_get py_get_default].
    change (dict_get_default _ (lit "expires_in") (JInt 0)) with (JInt MOCK_EXPIRES_IN).
    change (dict_get _ (lit "access_token")) with (JStr (mock_secret W (secrets_drawn s) 48)).
    cbn [int_of_json obind truthy].
    destruct (mock_secret W (secrets_drawn s) 48) as [|c r]; [congruence|].
    cbn [negb orb]. apply Z.leb_gt in Hpos. now rewrite Hpos.
  - intros s2 Hs2 Hnz Hlt. cbn [str].
    rewrite (require_bearer_presented W _ Hstrip), Hs2, store_get_set_same.
    replace (Qeq_bool _ 0) with false.
    + replace (Qle_bool _ (mock_clock W (clock_reads s2))) with false.
      * eexists. split; [reflexivity|]. reflexivity.
      * symmetry. destruct (Qle_bool _ _) eqn:Le; [|reflexivity].
        apply Qle_bool_iff in Le. exfalso. exact (Qlt_not_le _ _ Hlt Le).
    + symmetry. destruct (Qeq_bool _ 0) eqn:Z0; [|reflexivity].
      apply Qeq_bool_iff in Z0. contradiction.
Qed.

Lemma require_bearer_outcomes_witness :
  let W := {| mock_clock := fun k => inject_Z (1000 + Z.of_nat k);
              mock_secret := fun k n => lit "tok-" ++ str_of_int (Z.of_nat k) |} in
  let s := {| TOKENS := [ (lit "tok-0", 2199%Q) ]; clock_reads := 0; secrets_drawn := 1 |} in
  fst (_require_bearer W (bearer_request (lit "tok-0") None) s) = Ok (lit "tok-0") /\
  fst (_require_bearer W {| authorization := Some (lit "Basic dG9r"); request_json := None |} s)
    = Raise (HTTPException 401 (lit "Missing Bearer token")).
Proof.
  intros W s. split.
  - pose proof (require_bearer_outcomes W (bearer_request (lit "tok-0") None) s) as H.
    destruct (_require_bearer W (bearer_request (lit "tok-0") None) s) as [[tok|e] s'] eqn:R.
    + destruct H as [auth [exp [Ha [_ [Ht _]]]]]. injection Ha as <-. rewrite Ht.
      reflexivity.
    + vm_compute in R. discriminate R.
  - pose proof (require_bearer_outcomes W
                  {| authorization := Some (lit "Basic dG9r"); request_json := None |} s) as H.
    vm_compute. reflexivity.
Defined.


Lemma issued_token_round_trip_witness :
  let W := {| mock_clock := fun k => inject_Z (1000 + Z.of_nat k);
              mock_secret := fun k n => lit "tok-" ++ str_of_int (Z.of_nat k) |} in
  let s := {| TOKENS := []; clock_reads := 0; secrets_drawn := 0 |} in
  exists answer s1,
    _issue_token 1199 W s = (Ok (JObj answer), s1) /\
    fst (_require_bearer W (bearer_request (lit "tok-0") None) s1) = Ok (lit "tok-0").
Proof.
  intros W s.
  destruct (issued_token_round_trip 1199 W s None)
    as [answer [s1 [Hrun [_ [_ [_ [_ [_ Hacc]]]]]]]].
  - vm_compute. reflexivity.
  - vm_compute. reflexivity.
  - reflexivity.
  - exists answer, s1. split; [exact Hrun|].
    destruct (Hacc s1 eq_refl) as [s3 [H3 _]].
    + vm_compute. discriminate.
    + vm_compute in Hrun. injection Hrun as _ <-. vm_compute. reflexivity.
    + exact (f_equal fst H3).
Defined.

End MockAuth.

(** ** Pagination and search *)

Module MockSearch.
Import Py Mock MockVocabulary PyFacts.

Lemma page_params_bounds (payload : pydict) :
  1 <= fst (_get_page_params payload) /\
  1 <= snd (_get_page_params payload) <= 500.
Proof.
  unfold _get_page_params. cbv zeta. cbn [fst snd].
  set (p0 := or_default _ 1). set (n0 := or_default _ 10).
  destruct (p0 <? 1) eqn:Ep; [|apply Z.ltb_ge in Ep].
  - destruct (n0 <? 1) eqn:En; [cbn; lia|]. apply Z.ltb_ge in En.
    rewrite Z.gtb_ltb.
    destruct (500 <? n0) eqn:E5; [|apply Z.ltb_ge in E5]; lia.
  - destruct (n0 <? 1) eqn:En; [cbn; lia|]. apply Z.ltb_ge in En.
    rewrite Z.gtb_ltb.
    destruct (500 <? n0) eqn:E5; [|apply Z.ltb_ge in E5]; lia.
Qed.

(** For a page index and a page size of at least 1, a page is the window of
    [items_per_page] items after the first [(page_index - 1) *
    items_per_page]. *)
Lemma paginate_window {A} (items : list A) (p n : Z) :
  1 <= p -> 1 <= n ->
  _paginate items p n
  = firstn (Z.to_nat n) (skipn (Z.to_nat ((p - 1) * n)) items).
Proof.
  intros Hp Hn. unfold _paginate, py_slice, slice_bound. cbv zeta.
  set (len := Z.of_nat (List.length items)).
  assert (0 <= len) by (unfold len; lia).
  assert (0 <= (p - 1) * n) by nia.
  destruct ((p - 1) * n <? 0) eqn:E0; [apply Z.ltb_lt in E0; lia|].
  destruct ((p - 1) * n + n <? 0) eqn:E1; [apply Z.ltb_lt in E1; lia|].
  destruct (Z.le_gt_cases len ((p - 1) * n)) as [Hpast | Hin].
  - rewrite !Z.min_r by lia. rewrite Z.sub_diag.
    rewrite !skipn_all2 by (unfold len in *; lia).
    now rewrite !firstn_nil.
  - rewrite (Z.min_l ((p - 1) * n) len) by lia.
    destruct (Z.le_gt_cases ((p - 1) * n + n) len) as [Hfull | Hshort].
    + rewrite Z.min_l by lia. f_equal. lia.
    + rewrite Z.min_r by lia.
      rewrite !firstn_all2; [reflexivity | |]; rewrite length_skipn; unfold len in *; lia.
Qed.

Lemma firstn_add {A} (a b : nat) (l : list A) :
  firstn (a + b) l = firstn a l ++ firstn b (skipn a l).
Proof.
  revert l. induction a as [|a IH]; intros l; [reflexivity|].
  destruct l as [|x l]; cbn [Nat.add firstn skipn app].
  - now rewrite firstn_nil.
  - now rewrite IH.
Qed.

(** X17: Pages tile the list: for a page size of at least 1, the pages 1 to [k]
    laid end to end are the first [k * items_per_page] items, so enough pages
    give back the whole list, each item once and in order; no page holds more
    than [items_per_page] items. *)
Theorem pages_tile_the_list {A} (items : list A) (k : nat) (n : Z) :
  1 <= n ->
  first_pages items k n = firstn (k * Z.to_nat n) items /\
  (List.length items <= k * Z.to_nat n -> first_pages items k n = items)%nat /\
  (forall p : Z, 1 <= p -> (List.length (_paginate items p n) <= Z.to_nat n)%nat).
Proof.
  intros Hn.
  assert (Hfirst : first_pages items k n = firstn (k * Z.to_nat n) items).
  { unfold first_pages. induction k as [|k IH]; [reflexivity|].
    rewrite seq_S, flat_map_app, IH. cbn [flat_map]. rewrite app_nil_r.
    rewrite paginate_window by lia.
    replace (Z.to_nat ((Z.of_nat (1 + k) - 1) * n)) with (k * Z.to_nat n)%nat by nia.
    replace (S k * Z.to_nat n)%nat with (k * Z.to_nat n + Z.to_nat n)%nat by lia.
    now rewrite firstn_add. }
  split; [exact Hfirst|]. split.
  - intros Hlen. rewrite Hfirst. now apply firstn_all2.
  - intros p Hp. rewrite paginate_window by lia. rewrite length_firstn. lia.
Qed.

Lemma pages_tile_the_list_witness :
  first_pages [1; 2; 3; 4; 5] 3 2 = [1; 2; 3; 4; 5].
Proof.
  apply (proj1 (proj2 (pages_tile_the_list [1; 2; 3; 4; 5] 3 2 ltac:(lia)))).
  simpl. lia.
Defined.

Lemma paginate_nil {A} (p n : Z) : _paginate (@nil A) p n = [].
Proof.
  unfold _paginate, py_slice. cbv zeta. now rewrite skipn_nil, firstn_nil.
Qed.

Lemma in_paginate {A} (items : list A) (p n : Z) (x : A) :
  1 <= p -> 1 <= n -> In x (_paginate items p n) -> In x items.
Proof.
  intros Hp Hn. rewrite paginate_window by assumption. intros H.
  rewrite <- (firstn_skipn (Z.to_nat ((p - 1) * n)) items).
  apply in_or_app. right.
  rewrite <- (firstn_skipn (Z.to_nat n) (skipn _ items)).
  apply in_or_app. now left.
Qed.

Lemma alumnos_loop_found (table : alumnos_table) (ids results : list json) :
  fold_left (alumnos_step table) ids results = results ++ alumnos_found table ids.
Proof.
  revert results. induction ids as [|raw ids IH]; intros results.
  - cbn. now rewrite app_nil_r.
  - cbn [fold_left]. rewrite IH. unfold alumnos_found at 2. cbn [flat_map].
    fold (alumnos_found table ids). unfold alumnos_step.
    destruct (int_of_json raw) as [k|e]; [|reflexivity].
    destruct (table_get table k) as [item|]; [|reflexivity].
    destruct (truthy item); [|reflexivity].
    now rewrite <- app_assoc.
Qed.

Lemma matriculas_items_found (k : Z) (items results : list json) :
  fold_left (matriculas_item_step k) items results
  = results ++ flat_map (fun m => match m with
                                  | JObj d => [patch_alumno k d]
                                  | _ => []
                                  end) items.
Proof.
  revert results. induction items as [|m items IH]; intros results.
  - cbn. now rewrite app_nil_r.
  - cbn [fold_left flat_map]. rewrite IH. unfold matriculas_item_step.
    destruct m; try reflexivity. now rewrite <- app_assoc.
Qed.

Lemma matriculas_loop_found (table : matriculas_table) (ids results : list json) :
  fold_left (matriculas_id_step table) ids results
  = results ++ matriculas_found table ids.
Proof.
  revert results. induction ids as [|raw ids IH]; intros results.
  - cbn. now rewrite app_nil_r.
  - cbn [fold_left]. rewrite IH. unfold matriculas_found at 2. cbn [flat_map].
    fold (matriculas_found table ids). unfold matriculas_id_step.
    destruct (int_of_json raw) as [k|e]; [|reflexivity].
    now rewrite matriculas_items_found, <- app_assoc.
Qed.

End MockSearch.

(** ** The search endpoints *)

Module MockEndpoints.
Import Py Mock MockVocabulary PyFacts MockSearch.

Lemma dict_lookup_set_same (d : pydict) (k : pystr) (v : json) :
  dict_lookup (dict_set d k v) k = Some v.
Proof.
  induction d as [|[k' v'] d IH]; cbn [dict_set dict_lookup].
  - now rewrite str_eqb_refl.
  - destruct (str_eqb k' k) eqn:E; cbn [dict_lookup].
    + now rewrite str_eqb_refl.
    + now rewrite E.
Qed.

Lemma dict_set_nonempty (d : pydict) (k : pystr) (v : json) :
  truthy (JObj (dict_set d k v)) = true.
Proof.
  destruct d as [|[k' v'] d]; cbn [dict_set]; [reflexivity|].
  destruct (str_eqb k' k); reflexivity.
Qed.

Lemma str_of_int_nonempty (z : Z) : truthy (JStr (str_of_int z)) = true.
Proof.
  unfold str_of_int. destruct z as [|p|p]; cbn [Z.to_int]; try reflexivity.
  pose proof (DecimalPos.Unsigned.to_uint_nonnil p) as H.
  destruct (Pos.to_uint p); try reflexivity. now elim H.
Qed.

(** A patched enrollment carries the requested id, as text, in its nested
    student object. *)
Lemma patch_alumno_id (k : Z) (d : pydict) :
  exists m a : pydict,
    patch_alumno k d = JObj m /\
    dict_lookup m (lit "Alumno") = Some (JObj a) /\
    truthy (JObj a) = true /\
    dict_lookup a (lit "IdIntegracion") = Some (JStr (str_of_int k)).
Proof.
  unfold patch_alumno. cbv zeta.
  destruct (dict_get d (lit "Alumno")) as [|b|z|f|s|l|a];
    eexists; eexists; (split; [reflexivity|]);
    rewrite dict_lookup_set_same; (split; [reflexivity|]);
    (split; [|first [apply dict_lookup_set_same | reflexivity]]);
    first [apply dict_set_nonempty | reflexivity].
Qed.

Lemma in_matriculas_found (table : matriculas_table) (ids : list json) (m : json) :
  In m (matriculas_found table ids) ->
  exists (raw : json) (k : Z) (d : pydict),
    In raw ids /\ int_of_json raw = Ok k /\ m = patch_alumno k d.
Proof.
  unfold matriculas_found. intros H. apply in_flat_map in H as (raw & Hraw & H).
  destruct (int_of_json raw) as [k|e] eqn:E; [|contradiction].
  apply in_flat_map in H as (m0 & _ & H).
  destruct m0 as [| | | | | |d]; try contradiction.
  destruct H as [<- | []]. now exists raw, k, d.
Qed.

Lemma in_alumnos_found (table : alumnos_table) (ids : list json) (item : json) :
  In item (alumnos_found table ids) ->
  exists (raw : json) (k : Z),
    In raw ids /\ int_of_json raw = Ok k /\
    table_get table k = Some item /\ truthy item = true.
Proof.
  unfold alumnos_found. intros H. apply in_flat_map in H as (raw & Hraw & H).
  destruct (int_of_json raw) as [k|e] eqn:E; [|contradiction].
  destruct (table_get table k) as [it|] eqn:T; [|contradiction].
  destruct (truthy it) eqn:Tr; [|contradiction].
  destruct H as [<- | []]. now exists raw, k.
Qed.

Section Endpoints.

Variable W : mock_world.

(** What [alumnos_search_list] does once the bearer check has passed and
    the body is an object. *)
Lemma alumnos_search_list_run (table : alumnos_table) (request : mock_request)
  (s s1 : mock_state) (tok : pystr) (d : pydict) :
  _require_bearer W request s = (Ok tok, s1) ->
  request_json request = Some (JObj d) ->
  alumnos_search_list table W request s
  = (Ok (JList (_paginate
                  (alumnos_found table (requested_ids d (lit "filterIdsIntegracion")))
                  (fst (_get_page_params d)) (snd (_get_page_params d)))), s1).
Proof.
  intros Hauth Hjson. unfold alumnos_search_list, mbind at 1. rewrite Hauth.
  unfold request_payload. rewrite Hjson. unfold mbind, mlift. cbn [py_get].
  unfold requested_ids.
  destruct (py_or (dict_get d (lit "filterIdsIntegracion")) (JList []))
    as [|b|z|f|x|l|o]; try (cbn [alumnos_found flat_map]; now rewrite paginate_nil).
  destruct l as [|raw ids]; [cbn [alumnos_found flat_map]; now rewrite paginate_nil|].
  rewrite alumnos_loop_found. cbn [app].
  destruct (_get_page_params d) as [p n]. reflexivity.
Qed.

Lemma matriculas_search_list_run (table : matriculas_table)
  (environ : pystr -> option pystr) (request : mock_request)
  (s s1 : mock_state) (tok : pystr) (d : pydict) :
  _require_bearer W request s = (Ok tok, s1) ->
  request_json request = Some (JObj d) ->
  matriculas_search_list table environ W request s
  = if str_eqb (match environ (lit "MOCK_REQUIRE_MATRICULAS_EMPTY_FILTER") with
                | Some v => v
                | None => lit "1"
                end) (lit "1")
       && match dict_lookup d (lit "FilterIdsIntegracionMatriculas") with
          | Some _ => false
          | None => true
          end
    then (Raise (HTTPException 400
                   (lit "Missing required field: FilterIdsIntegracionMatriculas (must be present, can be empty array)")),
          s1)
    else (Ok (JList (_paginate
                       (matriculas_found table
                          (requested_ids d (lit "FilterIdsIntegracionAlumnos")))
                       (fst (_get_page_params d)) (snd (_get_page_params d)))), s1).
Proof.
  intros Hauth Hjson. unfold matriculas_search_list, mbind at 1. rewrite Hauth.
  unfold request_payload. rewrite Hjson. unfold mbind at 1, mlift at 1.
  cbv zeta.
  assert (Hrest :
    (v <-- mlift (py_get (JObj d) (lit "FilterIdsIntegracionAlumnos")) ;;
     match py_or v (JList []) with
     | JList (id :: ids) =>
         let results := fold_left (matriculas_id_step table) (id :: ids) [] in
         let '(page_index, items_per_page) := _get_page_params d in
         mret (JList (_paginate results page_index items_per_page))
     | _ => mret (JList [])
     end) s1
    = (Ok (JList (_paginate
                    (matriculas_found table
                       (requested_ids d (lit "FilterIdsIntegracionAlumnos")))
                    (fst (_get_page_params d)) (snd (_get_page_params d)))), s1)).
  { unfold mbind, mlift. cbn [py_get]. unfold requested_ids.
    destruct (py_or (dict_get d (lit "FilterIdsIntegracionAlumnos")) (JList []))
      as [|b|z|f|x|l|o]; try (cbn [matriculas_found flat_map]; now rewrite paginate_nil).
    destruct l as [|raw ids]; [cbn [matriculas_found flat_map]; now rewrite paginate_nil|].
    cbv zeta. rewrite matriculas_loop_found. cbn [app].
    destruct (_get_page_params d) as [p n]. reflexivity. }
  destruct (str_eqb _ (lit "1")); cbn [andb].
  - unfold mbind at 1, mlift at 1. cbn [py_contains].
    destruct (dict_lookup d (lit "FilterIdsIntegracionMatriculas")); cbn [negb].
    + exact Hrest.
    + reflexivity.
  - unfold mbind at 1, mret at 1. cbn [negb]. exact Hrest.
Qed.

(** X18: Both search endpoints check the bearer token before anything else.  A
    request that fails the check gets the check's error, whatever its body
    is; a request that passes leaves the state as the check left it, so the
    endpoints themselves never touch the token store. *)
Theorem search_checks_bearer_first
  (alumnos : alumnos_table) (matriculas : matriculas_table)
  (environ : pystr -> option pystr) (request : mock_request) (s : mock_state) :
  match _require_bearer W request s with
  | (Raise e, s1) =>
      alumnos_search_list alumnos W request s = (Raise e, s1) /\
      matriculas_search_list matriculas environ W request s = (Raise e, s1)
  | (Ok _, s1) =>
      snd (alumnos_search_list alumnos W request s) = s1 /\
      snd (matriculas_search_list matriculas environ W request s) = s1
  end.
Proof.
  destruct (_require_bearer W request s) as [[tok|e] s1] eqn:Hauth.
  - split.
    + unfold alumnos_search_list, mbind at 1. rewrite Hauth.
      unfold request_payload.
      destruct (request_json request) as [payload|]; [|reflexivity].
      unfold mbind, mlift, mret, mraise.
      destruct payload as [|b|z|f|x|l|d]; try reflexivity. cbn [py_get].
      destruct (py_or _ _) as [|b|z|f|x|l|o]; try reflexivity.
      destruct l; [reflexivity|]. destruct (_get_page_params d). reflexivity.
    + unfold matriculas_search_list, mbind at 1. rewrite Hauth.
      unfold request_payload.
      destruct (request_json request) as [payload|]; [|reflexivity].
      unfold mbind, mlift, mret, mraise. cbv zeta.
      destruct (str_eqb _ (lit "1")).
      * destruct (py_contains payload _) as [[|]|e]; cbn [negb]; try reflexivity.
        destruct payload as [|b|z|f|x|l|d]; try reflexivity. cbn [py_get].
        destruct (py_or _ _) as [|b|z|f|x|l|o]; try reflexivity.
        destruct l; [reflexivity|]. destruct (_get_page_params d). reflexivity.
      * cbn [negb].
        destruct payload as [|b|z|f|x|l|d]; try reflexivity. cbn [py_get].
        destruct (py_or _ _) as [|b|z|f|x|l|o]; try reflexivity.
        destruct l; [reflexivity|]. destruct (_get_page_params d). reflexivity.
  - split.
    + unfold alumnos_search_list, mbind at 1. now rewrite Hauth.
    + unfold matriculas_search_list, mbind at 1. now rewrite Hauth.
Qed.

(** X19: The student search, for an authenticated request whose body is an
    object: the answer is one page of the students found for the ids under
    [filterIdsIntegracion], in the order of the ids.  The page holds at most
    500 items, and each is a non-empty entry of the table stored under an id
    that was asked for. *)
Theorem alumnos_search_list_answer (table : alumnos_table) (request : mock_request)
  (s s1 : mock_state) (tok : pystr) (d : pydict) :
  _require_bearer W request s = (Ok tok, s1) ->
  request_json request = Some (JObj d) ->
  let ids := requested_ids d (lit "filterIdsIntegracion") in
  let page := _paginate (alumnos_found table ids)
                (fst (_get_page_params d)) (snd (_get_page_params d)) in
  alumnos_search_list table W request s = (Ok (JList page), s1) /\
  (List.length page <= 500)%nat /\
  Forall (fun item =>
            truthy item = true /\
            exists (raw : json) (k : Z),
              In raw ids /\ int_of_json raw = Ok k /\
              table_get table k = Some item) page.
Proof.
  intros Hauth Hjson ids page.
  destruct (page_params_bounds d) as [Hp Hn].
  split; [now apply alumnos_search_list_run with (tok := tok)|]. split.
  - unfold page. rewrite paginate_window by lia. rewrite length_firstn. lia.
  - apply Forall_forall. intros item Hin.
    apply in_paginate in Hin; [|lia|lia].
    apply in_alumnos_found in Hin as (raw & k & Hraw & Hk & Hget & Htr).
    split; [exact Htr|]. now exists raw, k.
Qed.

(** X20: The enrollment search, for an authenticated request whose body is an
    object.  Unless the environment sets [MOCK_REQUIRE_MATRICULAS_EMPTY_FILTER]
    to something other than "1", a body without the field
    [FilterIdsIntegracionMatriculas] is refused with status 400.  Otherwise
    the answer is one page of the enrollments found for the ids under
    [FilterIdsIntegracionAlumnos], and every enrollment on it names, in its
    nested student object, an id that was asked for. *)
Theorem matriculas_search_list_answer (table : matriculas_table)
  (environ : pystr -> option pystr) (request : mock_request)
  (s s1 : mock_state) (tok : pystr) (d : pydict) :
  _require_bearer W request s = (Ok tok, s1) ->
  request_json request = Some (JObj d) ->
  let flag := match environ (lit "MOCK_REQUIRE_MATRICULAS_EMPTY_FILTER") with
              | Some v => v
              | None => lit "1"
              end in
  let ids := requested_ids d (lit "FilterIdsIntegracionAlumnos") in
  let page := _paginate (matriculas_found table ids)
                (fst (_get_page_params d)) (snd (_get_page_params d)) in
  (flag = lit "1" /\ dict_lookup d (lit "FilterIdsIntegracionMatriculas") = None ->
   exists detail,
     matriculas_search_list table environ W request s
     = (Raise (HTTPException 400 detail), s1)) /\
  (flag <> lit "1" \/ dict_lookup d (lit "FilterIdsIntegracionMatriculas") <> None ->
   matriculas_search_list table environ W request s = (Ok (JList page), s1) /\
   (List.length page <= 500)%nat /\
   Forall (fun m =>
             exists (raw : json) (k : Z) (rec alumno : pydict),
               In raw ids /\ int_of_json raw = Ok k /\
               m = JObj rec /\
               dict_lookup rec (lit "Alumno") = Some (JObj alumno) /\
               dict_lookup alumno (lit "IdIntegracion") = Some (JStr (str_of_int k)))
          page).
Proof.
  intros Hauth Hjson flag ids page.
  pose proof (matriculas_search_list_run table environ request s s1 tok d Hauth Hjson)
    as Hrun.
  fold flag in Hrun.
  destruct (page_params_bounds d) as [Hp Hn].
  split.
  - intros [Hflag Hmiss]. rewrite Hrun, Hflag, Hmiss. cbn. eauto.
  - intros Hor. split; [|split].
    + rewrite Hrun.
      destruct (str_eqb flag (lit "1")) eqn:E; [|reflexivity].
      destruct (dict_lookup d (lit "FilterIdsIntegracionMatriculas")) eqn:L;
        [reflexivity|].
      apply str_eqb_eq in E. destruct Hor as [H | H]; now elim H.
    + unfold page. rewrite paginate_window by lia. rewrite length_firstn. lia.
    + apply Forall_forall. intros m Hin.
      apply in_paginate in Hin; [|lia|lia].
      apply in_matriculas_found in Hin as (raw & k & d0 & Hraw & Hk & ->).
      destruct (patch_alumno_id k d0) as (rec & a & Hpatch & Ha & _ & Hid).
      now exists raw, k, rec, a.
Qed.

(** X21: The facade's student request, answered by the mock: for the body that
    [aic_alumnos] builds for an id, whatever the page size, an authenticated
    request gets the table's entry for that id alone, or the empty list when
    the table has none (or an empty one). *)
Theorem alumnos_search_answers_facade (table : alumnos_table)
  (request : mock_request) (s s1 : mock_state) (tok : pystr) (id itemsPerPage : Z) :
  _require_bearer W request s = (Ok tok, s1) ->
  request_json request = Some (Facade.alumnos_payload id itemsPerPage) ->
  alumnos_search_list table W request s
  = (Ok (JList match table_get table id with
               | Some item => if truthy item then [item] else []
               | None => []
               end), s1).
Proof.
  intros Hauth Hjson.
  rewrite (alumnos_search_list_run table request s s1 tok _ Hauth Hjson).
  destruct (page_params_bounds
              [ (lit "filterIdPlanoOfertado", JInt 0);
                (lit "filterHasActiveMatriculas", JBool true);
                (lit "filterIdsIntegracion", JList [JInt id]);
                (lit "orderColumnName", JStr []);
                (lit "orderColumnPosition", JInt 0);
                (lit "orderDirection", JStr []);
                (lit "pageIndex", JInt 1);
                (lit "itemsPerPage", JInt itemsPerPage) ]) as [_ Hn].
  set (pp := _get_page_params _) in *.
  assert (Hp : fst pp = 1) by reflexivity.
  rewrite Hp. rewrite paginate_window by lia.
  change (requested_ids _ (lit "filterIdsIntegracion")) with [JInt id].
  cbn [alumnos_found flat_map int_of_json]. rewrite app_nil_r.
  change (Z.to_nat ((1 - 1) * snd pp)) with 0%nat. cbn [skipn].
  destruct (Z.to_nat (snd pp)) as [|k] eqn:E; [lia|].
  destruct (table_get table id) as [item|]; [|reflexivity].
  destruct (truthy item); cbn [firstn]; now rewrite ?firstn_nil.
Qed.

(** X22: The facade's enrollment request, answered by the mock: the body that
    [aic_matriculas] builds always has the required field, so whatever the
    environment says an authenticated request gets the requested page of the
    student's enrollments; and the facade's normalizer turns each of them
    into a record whose [IdAlumno] is the requested id. *)
Theorem matriculas_search_answers_facade (table : matriculas_table)
  (environ : pystr -> option pystr) (request : mock_request)
  (s s1 : mock_state) (tok : pystr) (id itemsPerPage pageIndex : Z) :
  _require_bearer W request s = (Ok tok, s1) ->
  request_json request = Some (Facade.matriculas_payload id itemsPerPage pageIndex) ->
  1 <= pageIndex -> 1 <= itemsPerPage <= 500 ->
  let page := _paginate (matriculas_found table [JInt id]) pageIndex itemsPerPage in
  matriculas_search_list table environ W request s = (Ok (JList page), s1) /\
  Forall (fun m =>
            exists out : pydict,
              Facade.normalize_matricula m = Ok (JObj out) /\
              dict_lookup out (lit "IdAlumno") = Some (JStr (str_of_int id))) page.
Proof.
  intros Hauth Hjson Hp Hn page. split.
  - rewrite (matriculas_search_list_run table environ request s s1 tok _ Hauth Hjson).
    change (dict_lookup _ (lit "FilterIdsIntegracionMatriculas"))
      with (Some (JList [])).
    rewrite andb_false_r.
    change (requested_ids _ (lit "FilterIdsIntegracionAlumnos")) with [JInt id].
    unfold _get_page_params. cbv zeta.
    change (dict_get_default _ (lit "PageIndex") _) with (JInt pageIndex).
    change (dict_get_default _ (lit "ItemsPerPage") _) with (JInt itemsPerPage).
    cbn [int_of_json or_default fst snd].
    destruct (pageIndex <? 1) eqn:E1; [apply Z.ltb_lt in E1; lia|].
    destruct (itemsPerPage <? 1) eqn:E2; [apply Z.ltb_lt in E2; lia|].
    rewrite Z.gtb_ltb.
    destruct (500 <? itemsPerPage) eqn:E3; [apply Z.ltb_lt in E3; lia|].
    reflexivity.
  - apply Forall_forall. intros m Hin.
    apply in_paginate in Hin; [|lia|lia].
    apply in_matriculas_found in Hin as (raw & k & d0 & Hraw & Hk & ->).
    destruct Hraw as [<- | []]. cbn [int_of_json] in Hk. injection Hk as <-.
    destruct (patch_alumno_id id d0) as (rec & a & -> & Ha & Htr & Hid).
    unfold Facade.normalize_matricula. cbn [py_get obind]. cbv zeta.
    destruct (MatriculaProps.ensure_dict (py_or (dict_get rec (lit "Plan")) (JObj []))) as [d1 ->].
    destruct (MatriculaProps.ensure_dict (py_or (dict_get rec (lit "EstadoMatricula")) (JObj [])))
      as [d2 ->].
    destruct (MatriculaProps.ensure_dict (py_or (dict_get rec (lit "DocumentoIdentificacionAlumno"))
                             (JObj []))) as [d4 ->].
    assert (Hal : py_or (dict_get rec (lit "Alumno")) (JObj []) = JObj a).
    { unfold dict_get, dict_get_default. rewrite Ha. unfold py_or. now rewrite Htr. }
    rewrite Hal. cbn [isinstance_dict negb py_get obind].
    eexists. split; [reflexivity|].
    cbn [dict_lookup]. 
    change (str_eqb (lit "IdIntegracionMatricula") (lit "IdAlumno")) with false.
    change (str_eqb (lit "IdPlan") (lit "IdAlumno")) with false.
    change (str_eqb (lit "cEstadoMatricula") (lit "IdAlumno")) with false.
    change (str_eqb (lit "EstadoMatriculaNombre") (lit "IdAlumno")) with false.
    change (str_eqb (lit "sEstadoMatricula") (lit "IdAlumno")) with false.
    change (str_eqb (lit "IdAlumno") (lit "IdAlumno")) with true.
    cbv iota. unfold dict_get, dict_get_default. rewrite Hid.
    unfold py_or. now rewrite str_of_int_nonempty.
Qed.

End Endpoints.

Lemma alumnos_search_list_answer_witness :
  let W := {| mock_clock := fun k => inject_Z (1000 + Z.of_nat k);
              mock_secret := fun k n => lit "tok" |} in
  let s := {| TOKENS := [ (lit "tok-0", 2199%Q) ]; clock_reads := 0; secrets_drawn := 1 |} in
  let alumno := JObj [ (lit "IdIntegracion", JInt 988224) ] in
  let body := [ (lit "filterIdsIntegracion", JList [JInt 7; JStr (lit "988224")]) ] in
  fst (alumnos_search_list [ (988224, alumno) ] W
         (bearer_request (lit "tok-0") (Some (JObj body))) s)
  = Ok (JList [alumno]).
Proof.
  intros W s alumno body.
  destruct (alumnos_search_list_answer W [ (988224, alumno) ]
              (bearer_request (lit "tok-0") (Some (JObj body))) s
              {| TOKENS := TOKENS s; clock_reads := 1; secrets_drawn := 1 |}
              (lit "tok-0") body) as [H _].
  - reflexivity.
  - reflexivity.
  - rewrite H. reflexivity.
Defined.

Lemma matriculas_search_list_answer_witness :
  let W := {| mock_clock := fun k => inject_Z (1000 + Z.of_nat k);
              mock_secret := fun k n => lit "tok" |} in
  let s := {| TOKENS := [ (lit "tok-0", 2199%Q) ]; clock_reads := 0; secrets_drawn := 1 |} in
  let sample := JObj [ (lit "IdIntegracion", JInt 5) ] in
  let body := [ (lit "FilterIdsIntegracionAlumnos", JList [JInt 988224]) ] in
  exists detail,
    fst (matriculas_search_list [ (988224, [sample]) ] (fun _ => None) W
           (bearer_request (lit "tok-0") (Some (JObj body))) s)
    = Raise (HTTPException 400 detail).
Proof.
  intros W s sample body.
  destruct (matriculas_search_list_answer W [ (988224, [sample]) ] (fun _ => None)
              (bearer_request (lit "tok-0") (Some (JObj body))) s
              {| TOKENS := TOKENS s; clock_reads := 1; secrets_drawn := 1 |}
              (lit "tok-0") body) as [H _].
  - reflexivity.
  - reflexivity.
  - destruct H as [detail H]; [split; reflexivity|].
    exists detail. now rewrite H.
Defined.

Lemma alumnos_search_answers_facade_witness :
  let W := {| mock_clock := fun k => inject_Z (1000 + Z.of_nat k);
              mock_secret := fun k n => lit "tok" |} in
  let s := {| TOKENS := [ (lit "tok-0", 2199%Q) ]; clock_reads := 0; secrets_drawn := 1 |} in
  let alumno := JObj [ (lit "IdIntegracion", JInt 988224) ] in
  fst (alumnos_search_list [ (988223, JObj []); (988224, alumno) ] W
         (bearer_request (lit "tok-0") (Some (Facade.alumnos_payload 988224 10))) s)
  = Ok (JList [alumno]).
Proof.
  intros W s alumno.
  rewrite (alumnos_search_answers_facade W [ (988223, JObj []); (988224, alumno) ]
             (bearer_request (lit "tok-0") (Some (Facade.alumnos_payload 988224 10))) s
             {| TOKENS := TOKENS s; clock_reads := 1; secrets_drawn := 1 |}
             (lit "tok-0") 988224 10 eq_refl eq_refl).
  reflexivity.
Defined.

Lemma matriculas_search_answers_facade_witness :
  let W := {| mock_clock := fun k => inject_Z (1000 + Z.of_nat k);
              mock_secret := fun k n => lit "tok" |} in
  let s := {| TOKENS := [ (lit "tok-0", 2199%Q) ]; clock_reads := 0; secrets_drawn := 1 |} in
  let sample := JObj [ (lit "IdIntegracion", JInt 5);
                       (lit "Alumno", JObj [ (lit "IdIntegracion", JStr (lit "1000113")) ]) ] in
  exists page,
    fst (matriculas_search_list [ (988224, [sample; sample; sample]) ]
           (fun _ => Some (lit "0")) W
           (bearer_request (lit "tok-0") (Some (Facade.matriculas_payload 988224 2 2))) s)
    = Ok (JList page) /\
    Forall (fun m =>
              exists out : pydict,
                Facade.normalize_matricula m = Ok (JObj out) /\
                dict_lookup out (lit "IdAlumno") = Some (JStr (lit "988224"))) page /\
    List.length page = 1%nat.
Proof.
  intros W s sample.
  destruct (matriculas_search_answers_facade W [ (988224, [sample; sample; sample]) ]
              (fun _ => Some (lit "0"))
              (bearer_request (lit "tok-0") (Some (Facade.matriculas_payload 988224 2 2))) s
              {| TOKENS := TOKENS s; clock_reads := 1; secrets_drawn := 1 |}
              (lit "tok-0") 988224 2 2) as [H HF].
  - reflexivity.
  - reflexivity.
  - lia.
  - lia.
  - eexists. split; [now rewrite H|]. split; [exact HF | reflexivity].
Defined.


End MockEndpoints.

(** ** Integer settings *)

Module ConfigExtras.
Import Py Facade Vocabulary PyFacts DecimalIds.








End ConfigExtras.

(** ** The sample enrollments *)

Module MockData.
Import Py Mock MockVocabulary PyFacts.

Lemma table_get_set {V} (t : list (Z * V)) (k' k : Z) (v : V) :
  table_get (table_set t k' v) k = if k =? k' then Some v else table_get t k.
Proof.
  induction t as [|[k0 v0] t IH]; cbn [table_set table_get].
  - rewrite (Z.eqb_sym k' k). now destruct (k =? k').
  - destruct (k0 =? k') eqn:E0; cbn [table_get].
    + apply Z.eqb_eq in E0. subst k0. rewrite (Z.eqb_sym k' k).
      now destruct (k =? k').
    + rewrite IH. destruct (k0 =? k) eqn:E1; [|reflexivity].
      apply Z.eqb_eq in E1. subst k0. now rewrite E0.
Qed.

Lemma table_get_pop {V} (t : list (Z * V)) (k' k : Z) :
  table_get (table_pop t k') k = if k =? k' then None else table_get t k.
Proof.
  unfold table_pop.
  induction t as [|[k0 v0] t IH]; cbn [filter table_get fst].
  - now destruct (k =? k').
  - destruct (k0 =? k') eqn:E0; cbn [negb table_get].
    + rewrite IH. apply Z.eqb_eq in E0. subst k0.
      rewrite (Z.eqb_sym k' k). now destruct (k =? k').
    + destruct (k0 =? k) eqn:E1; [|exact IH].
      apply Z.eqb_eq in E1. subst k0. now rewrite E0.
Qed.

(** X23: The re-keying of the sample enrollments moves the samples of 1000113 to
    988224 and leaves every other student's alone.  A search of the re-keyed
    table for 988224 therefore finds the samples written for 1000113, each
    patched with the id 988224, and a search for 1000113 finds nothing. *)
Theorem rekey_matriculas_moves_samples (t : matriculas_table) :
  let moved := match table_get t 1000113 with Some l => l | None => [] end in
  table_get (rekey_matriculas t) 988224 = Some moved /\
  table_get (rekey_matriculas t) 1000113 = None /\
  (forall k : Z,
     k <> 988224 -> k <> 1000113 ->
     table_get (rekey_matriculas t) k = table_get t k) /\
  matriculas_found (rekey_matriculas t) [JInt 988224]
  = matriculas_found [(988224, moved)] [JInt 988224] /\
  matriculas_found (rekey_matriculas t) [JInt 1000113] = [].
Proof.
  intros moved.
  assert (Hget : forall k : Z,
             table_get (rekey_matriculas t) k
             = if k =? 1000113 then None
               else if k =? 988224 then Some moved else table_get t k).
  { intros k. unfold rekey_matriculas. cbv zeta.
    now rewrite table_get_pop, table_get_set. }
  split; [now rewrite Hget|]. split; [now rewrite Hget|]. split; [|split].
  - intros k H1 H2. rewrite Hget.
    destruct (k =? 1000113) eqn:E1; [apply Z.eqb_eq in E1; contradiction|].
    destruct (k =? 988224) eqn:E2; [apply Z.eqb_eq in E2; contradiction|].
    reflexivity.
  - unfold matriculas_found. cbn [flat_map int_of_json]. now rewrite Hget.
  - unfold matriculas_found. cbn [flat_map int_of_json]. now rewrite Hget.
Qed.

End MockData.
